(** * Employee attendance server: storage layer and attendance routes

    A shallow embedding of [server/storage.ts] and [server/routes.ts].

    - JavaScript strings are [string]s.  The texts the server orders or
      parses (dates, month keys) are ASCII, so code-unit order is byte
      order; the case mapping of emails, which covers all of Unicode, is a
      parameter.
    - The local time zone is a parameter, [LocalTZA]: the offset of local
      time at an instant, or at a local time.
    - A [Date] is its time value: milliseconds since the epoch, in [Z].
      A timestamp field ([checkInTime], [checkOutTime], [createdAt]) holds the
      ISO-8601 text of an instant and is kept as that instant; [toISOString]
      followed by [new Date(text)] is the identity on time values.
    - Integer-valued numbers (counters, lengths, time values) are [Z];
      fractional numbers (hours, percentages) are binary64 [float]s.
    - [new Date()] reads the wall clock: the reading of the [k]-th call made
      while one request is served is [clk k].  [randomUUID()] and
      [bcrypt.hash] are inputs of the operation that calls them.
    - The two storage classes are the two constructors of [IStorage]; the
      interface methods dispatch on the constructor. *)

From Stdlib Require Import ZArith List String Ascii Bool Lia Floats Uint63 Sorted
  Permutation.
Import ListNotations.
Open Scope string_scope.
Open Scope Z_scope.

(* ------------------------------------------------------------------ *)
(** ** JavaScript built-ins used by the server *)

Module JS.

(** *** Strings *)

(** A non-empty string is truthy. *)
Definition truthy (s : string) : bool := negb (String.eqb s "").

(** [filters?.x] used as a condition: present and non-empty. *)
Definition supplied (o : option string) : option string :=
  match o with
  | Some s => if truthy s then Some s else None
  | None => None
  end.

(** [s.startsWith(p)]. *)
Definition startsWith (s p : string) : bool := String.prefix p s.

(** [a >= b], [a <= b] on strings. *)
Definition str_ge (a b : string) : bool := String.leb b a.
Definition str_le (a b : string) : bool := String.leb a b.

(** [s.split(sep)] for a one-character separator. *)
Fixpoint split_aux (sep : ascii) (s acc : string) : list string :=
  match s with
  | EmptyString => [acc]
  | String c s' =>
      if Ascii.eqb c sep then acc :: split_aux sep s' ""
      else split_aux sep s' (acc ++ String c "")%string
  end.

Definition split (sep : ascii) (s : string) : list string := split_aux sep s "".

Definition digit_of (c : ascii) : option Z :=
  let n := Z.of_nat (nat_of_ascii c) in
  if (48 <=? n) && (n <=? 57) then Some (n - 48) else None.

Fixpoint digits_value (s : string) (acc : Z) : option Z :=
  match s with
  | EmptyString => Some acc
  | String c s' =>
      match digit_of c with
      | Some d => digits_value s' (10 * acc + d)
      | None => None
      end
  end.

Definition digit_char (d : Z) : ascii := ascii_of_nat (Z.to_nat (48 + d mod 10)).

(** The last [width] decimal digits of [n], most significant first. *)
Fixpoint pad (width : nat) (n : Z) : string :=
  match width with
  | O => ""
  | S w => (pad w (n / 10) ++ String (digit_char n) "")%string
  end.

(** [s.toLowerCase()] is a parameter of the storage classes, [toLowerCase]:
    the case mapping belongs to the language and covers every letter of
    Unicode.  On text made of ASCII characters it is the function below,
    which the scenarios, whose emails are ASCII, run with. *)
Definition lower_char (c : ascii) : ascii :=
  let n := nat_of_ascii c in
  if (65 <=? n)%nat && (n <=? 90)%nat then ascii_of_nat (n + 32) else c.

Fixpoint asciiLowerCase (s : string) : string :=
  match s with
  | EmptyString => EmptyString
  | String c s' => String (lower_char c) (asciiLowerCase s')
  end.

(** *** Numbers *)

(** The binary64 value of an integer-valued number (exact below 2^53). *)
Definition float_of_Z (z : Z) : float :=
  if z <? 0 then PrimFloat.opp (PrimFloat.of_uint63 (Uint63.of_Z (- z)))
  else PrimFloat.of_uint63 (Uint63.of_Z z).

Definition two52 : float := 4503599627370496%float.

(** [Math.floor]: below 2^52 in magnitude, adding and removing 2^52 rounds to
    an integer, which is then stepped down when it lies above [x]; from 2^52 on
    every binary64 value is integral. *)
Definition Math_floor (x : float) : float :=
  if PrimFloat.ltb (PrimFloat.abs x) two52 then
    let r := if PrimFloat.leb 0 x
             then PrimFloat.sub (PrimFloat.add x two52) two52
             else PrimFloat.add (PrimFloat.sub x two52) two52 in
    if PrimFloat.ltb x r then PrimFloat.sub r 1 else r
  else x.

(** [Math.round] (ECMAScript 21.3.2.28): an integral or non-finite [n] is
    returned as it is; otherwise the closest integer, the upper one at a tie,
    with +0 on (0, 0.5) and -0 on [-0.5, 0). *)
Definition Math_round (n : float) : float :=
  let f := Math_floor n in
  if PrimFloat.eqb f n then n
  else if PrimFloat.ltb 0 n && PrimFloat.ltb n 0.5 then 0%float
  else if PrimFloat.ltb n 0 && PrimFloat.leb (-0.5) n then (-0)%float
  else if PrimFloat.leb 0.5 (PrimFloat.sub n f) then PrimFloat.add f 1 else f.

(** A number used as a condition: false for 0, -0 and NaN. *)
Definition truthy_number (x : float) : bool :=
  negb (PrimFloat.eqb x 0) && PrimFloat.eqb x x.

(** *** [Number(s)] (StringToNumber, ECMAScript 7.1.4.1.1), on ASCII text *)

(** [StrWhiteSpaceChar] among the ASCII characters: TAB, LF, VT, FF, CR, SP. *)
Definition isWhiteSpace (c : ascii) : bool :=
  let n := nat_of_ascii c in
  ((9 <=? n) && (n <=? 13) || (n =? 32))%nat.

Fixpoint trimStart (s : string) : string :=
  match s with
  | String c s' => if isWhiteSpace c then trimStart s' else s
  | EmptyString => EmptyString
  end.

Fixpoint trimEnd (s : string) : string :=
  match s with
  | EmptyString => EmptyString
  | String c s' =>
      match trimEnd s' with
      | EmptyString => if isWhiteSpace c then EmptyString else String c EmptyString
      | r => String c r
      end
  end.

(** The binary64 number nearest to [p / q] for [0 <= p] and [0 < q], the one
    with an even significand at a tie: the significand is the quotient by
    the power of two that leaves 53 bits (fewer below 2^-1022), rounded. *)
Definition roundRational (p q : Z) : float :=
  if p =? 0 then 0%float
  else
    let e0 := Z.log2 p - Z.log2 q - 52 in
    let below := if e0 <? 0 then p * 2 ^ (- e0) <? q * 2 ^ 52
                 else p <? q * 2 ^ (52 + e0) in
    let e1 := if below then e0 - 1 else e0 in
    let e := Z.max e1 (-1074) in
    let num := if e <? 0 then p * 2 ^ (- e) else p in
    let den := if e <? 0 then q else q * 2 ^ e in
    let m := num / den in
    let r := num mod den in
    let m' := if (den <? 2 * r) || ((den =? 2 * r) && Z.odd m) then m + 1 else m in
    Z.ldexp (PrimFloat.of_uint63 (Uint63.of_Z m')) e.

(** The value of a digit of radix [radix] (letters for a radix above 10). *)
Definition digit_in (radix : Z) (c : ascii) : option Z :=
  let n := Z.of_nat (nat_of_ascii c) in
  let d := if (48 <=? n) && (n <=? 57) then n - 48
           else if (97 <=? n) && (n <=? 102) then n - 87
           else if (65 <=? n) && (n <=? 70) then n - 55
           else 16 in
  if d <? radix then Some d else None.

(** The digits at the head of [s]: their value continued from [acc], how
    many they are after [count], and what follows them. *)
Fixpoint readDigits (radix : Z) (s : string) (acc count : Z) : Z * Z * string :=
  match s with
  | EmptyString => (acc, count, EmptyString)
  | String c s' =>
      match digit_in radix c with
      | Some d => readDigits radix s' (radix * acc + d) (count + 1)
      | None => (acc, count, s)
      end
  end.

(** [NonDecimalIntegerLiteral] after its prefix: digits to the end. *)
Definition radixLiteral (radix : Z) (s : string) : float :=
  let '(n, count, rest) := readDigits radix s 0 0 in
  if (0 <? count) && String.eqb rest "" then roundRational n 1 else nan.

(** [StrUnsignedDecimalLiteral]: [Infinity], or digits with an optional
    fraction and an optional exponent, at least one digit before the
    exponent.  A value of [n] followed by more than 400 zeros is beyond
    every binary64 number, and one below 10^-400 rounds to 0. *)
Definition decimalLiteral (s : string) : float :=
  if String.eqb s "Infinity" then infinity
  else
    let '(n1, c1, r1) := readDigits 10 s 0 0 in
    let '(n, c2, r2) :=
      match r1 with
      | String "."%char r => readDigits 10 r n1 0
      | _ => (n1, 0, r1)
      end in
    if c1 + c2 =? 0 then nan
    else
      let exponent :=
        match r2 with
        | EmptyString => Some 0
        | String c r =>
            if Ascii.eqb c "e" || Ascii.eqb c "E" then
              let '(negative, r') :=
                match r with
                | String "+"%char r' => (false, r')
                | String "-"%char r' => (true, r')
                | _ => (false, r)
                end in
              let '(x, c3, r3) := readDigits 10 r' 0 0 in
              if (0 <? c3) && String.eqb r3 "" then Some (if negative then - x else x)
              else None
            else None
        end in
      match exponent with
      | None => nan
      | Some x =>
          let x' := x - c2 in
          if n =? 0 then 0%float
          else if 400 <? x' then infinity
          else if x' <? - (c1 + c2) - 400 then 0%float
          else if 0 <=? x' then roundRational (n * 10 ^ x') 1
          else roundRational n (10 ^ (- x'))
      end.

(** [Number(s)]: blanks at both ends are dropped; the empty text is 0; a
    radix prefix takes no sign; anything else that is no numeric literal is
    NaN. *)
Definition Number (s : string) : float :=
  match trimEnd (trimStart s) with
  | EmptyString => 0%float
  | String "0"%char (String c r) =>
      if Ascii.eqb c "x" || Ascii.eqb c "X" then radixLiteral 16 r
      else if Ascii.eqb c "o" || Ascii.eqb c "O" then radixLiteral 8 r
      else if Ascii.eqb c "b" || Ascii.eqb c "B" then radixLiteral 2 r
      else decimalLiteral (String "0"%char (String c r))
  | String "+"%char r => decimalLiteral r
  | String "-"%char r => PrimFloat.opp (decimalLiteral r)
  | t => decimalLiteral t
  end.

(** [ToIntegerOrInfinity] of a finite number: the integer towards 0.
    [None] for NaN and the infinities, which make a date invalid. *)
Definition ToInteger (x : float) : option Z :=
  match Prim2SF x with
  | S754_zero _ => Some 0
  | S754_finite s m e =>
      let a := if 0 <=? e then Z.pos m * 2 ^ e else Z.pos m / 2 ^ (- e) in
      Some (if s then - a else a)
  | S754_infinity _ | S754_nan => None
  end.

(** *** Day number and time within day (ECMAScript 21.4.1) *)

Definition msPerSecond : Z := 1000.
Definition msPerMinute : Z := 60000.
Definition msPerHour : Z := 3600000.
Definition msPerDay : Z := 86400000.

Definition Day (t : Z) : Z := t / msPerDay.
Definition TimeWithinDay (t : Z) : Z := t mod msPerDay.
Definition HourFromTime (t : Z) : Z := (t / msPerHour) mod 24.
Definition MinFromTime (t : Z) : Z := (t / msPerMinute) mod 60.
Definition SecFromTime (t : Z) : Z := (t / msPerSecond) mod 60.
Definition msFromTime (t : Z) : Z := t mod msPerSecond.

(** Day of the week of a day number: 0 is Sunday; day 0 was a Thursday. *)
Definition WeekDayOfDay (d : Z) : Z := (d + 4) mod 7.
Definition WeekDay (t : Z) : Z := WeekDayOfDay (Day t).

(** The proleptic Gregorian calendar: day number of year [y], month [m]
    (1..12) and day of month [d]. *)
Definition days_from_civil (y m d : Z) : Z :=
  let y' := if m <=? 2 then y - 1 else y in
  let era := y' / 400 in
  let yoe := y' - era * 400 in
  let mp := if 2 <? m then m - 3 else m + 9 in
  let doy := (153 * mp + 2) / 5 + d - 1 in
  let doe := yoe * 365 + yoe / 4 - yoe / 100 + doy in
  era * 146097 + doe - 719468.

(** Year, month (1..12) and day of month of a day number. *)
Definition civil_from_days (z : Z) : Z * Z * Z :=
  let z' := z + 719468 in
  let era := z' / 146097 in
  let doe := z' - era * 146097 in
  let yoe := (doe - doe / 1460 + doe / 36524 - doe / 146096) / 365 in
  let doy := doe - (365 * yoe + yoe / 4 - yoe / 100) in
  let mp := (5 * doy + 2) / 153 in
  let d := doy - (153 * mp + 2) / 5 + 1 in
  let m := if mp <? 10 then mp + 3 else mp - 9 in
  let y := yoe + era * 400 in
  ((if m <=? 2 then y + 1 else y), m, d).

Definition YearFromTime (t : Z) : Z := fst (fst (civil_from_days (Day t))).
(** [MonthFromTime] counts months from 0. *)
Definition MonthFromTime (t : Z) : Z := snd (fst (civil_from_days (Day t))) - 1.
Definition DateFromTime (t : Z) : Z := snd (civil_from_days (Day t)).

(** [MakeDay(year, month, date)]: [month] counts from 0 and may lie outside
    0..11, [date] may lie outside the month. *)
Definition MakeDay (year month date : Z) : Z :=
  let ym := year + month / 12 in
  let mn := month mod 12 in
  days_from_civil ym (mn + 1) 1 + date - 1.

(** [MakeFullYear]: a year in 0..99 means 1900 + year. *)
Definition MakeFullYear (y : Z) : Z :=
  if (0 <=? y) && (y <=? 99) then 1900 + y else y.

(** [TimeClip]: a time value lies within 8.64e15 ms of the epoch; [None] is
    NaN, the time value of an invalid date. *)
Definition TimeClip (t : Z) : option Z :=
  if Z.abs t <=? 8640000000000000 then Some t else None.

(** [t.toISOString().split("T")[0]]: the UTC calendar date of [t], written
    YYYY-MM-DD, with the sign and six digits for a year outside 0..9999. *)
Definition isoYear (y : Z) : string :=
  if (0 <=? y) && (y <=? 9999) then pad 4 y
  else if y <? 0 then ("-" ++ pad 6 (- y))%string else ("+" ++ pad 6 y)%string.

Definition isoDate (t : Z) : string :=
  (isoYear (YearFromTime t) ++ "-" ++ pad 2 (MonthFromTime t + 1)
     ++ "-" ++ pad 2 (DateFromTime t))%string.

(** [new Date(s).getTime()] for a date-only text YYYY-MM-DD, the form the
    routes store: UTC midnight of that day.  The month is 01..12 and the day
    01..31; as in V8, the engine of the server, a day that the month does not
    have runs into the next month (2024-02-30 is 1 March 2024).  Every other
    text goes to the engine's parser of other date forms, which is not
    modelled: [None] stands for it, and the statements that depend on the
    order of dates are about stores whose dates have the stored form. *)
Definition parseDate (s : string) : option Z :=
  match split "-"%char s with
  | [ys; ms; ds] =>
      if (String.length ys =? 4)%nat && (String.length ms =? 2)%nat
         && (String.length ds =? 2)%nat then
        match digits_value ys 0, digits_value ms 0, digits_value ds 0 with
        | Some y, Some m, Some d =>
            if (1 <=? m) && (m <=? 12) && (1 <=? d) && (d <=? 31)
            then Some (days_from_civil y m d * msPerDay)
            else None
        | _, _, _ => None
        end
      else None
  | _ => None
  end.

End JS.

(* ------------------------------------------------------------------ *)
(** ** Data model ([server/storage.ts], lines 5-43) *)

Inductive Role := employee | manager.

Inductive Status := present | absent | late | half_day.

Definition Role_eqb (a b : Role) : bool :=
  match a, b with
  | employee, employee | manager, manager => true
  | _, _ => false
  end.

Definition Status_eqb (a b : Status) : bool :=
  match a, b with
  | present, present | absent, absent | late, late | half_day, half_day => true
  | _, _ => false
  end.

(** The text of a status, as stored and as compared with a filter. *)
Definition Status_text (s : Status) : string :=
  match s with
  | present => "present"
  | absent => "absent"
  | late => "late"
  | half_day => "half-day"
  end.

Record User := mkUser {
  u_id : string;
  u_name : string;
  u_email : string;
  u_password : string;
  u_role : Role;
  u_employeeId : string;
  u_department : string;
  u_createdAt : Z
}.

Record Attendance := mkAttendance {
  id : string;
  userId : string;
  date : string;
  checkInTime : option Z;
  checkOutTime : option Z;
  status : Status;
  totalHours : option float;
  createdAt : Z
}.

Record InsertUser := mkInsertUser {
  iu_name : string;
  iu_email : string;
  iu_password : string;
  iu_role : Role;
  iu_employeeId : string;
  iu_department : string
}.

Record InsertAttendance := mkInsertAttendance {
  i_userId : string;
  i_date : string;
  i_checkInTime : option Z;
  i_checkOutTime : option Z;
  i_status : Status;
  i_totalHours : option float
}.

(** [Partial<Attendance>]: each key is either absent ([None]) or carries the
    new value of the field. *)
Record PartialAttendance := mkPartial {
  p_id : option string;
  p_userId : option string;
  p_date : option string;
  p_checkInTime : option (option Z);
  p_checkOutTime : option (option Z);
  p_status : option Status;
  p_totalHours : option (option float);
  p_createdAt : option Z
}.

Definition noUpdates : PartialAttendance :=
  mkPartial None None None None None None None None.

Definition orElse {A} (o : option A) (d : A) : A :=
  match o with Some a => a | None => d end.

(** [{ ...existing, ...updates }]. *)
Definition merge (existing : Attendance) (updates : PartialAttendance) : Attendance :=
  mkAttendance
    (orElse (p_id updates) (id existing))
    (orElse (p_userId updates) (userId existing))
    (orElse (p_date updates) (date existing))
    (orElse (p_checkInTime updates) (checkInTime existing))
    (orElse (p_checkOutTime updates) (checkOutTime existing))
    (orElse (p_status updates) (status existing))
    (orElse (p_totalHours updates) (totalHours existing))
    (orElse (p_createdAt updates) (createdAt existing)).

(** The filters of [getAllAttendance]. *)
Record Filters := mkFilters {
  f_employeeId : option string;
  f_date : option string;
  f_status : option string;
  f_from : option string;
  f_to : option string
}.

(** A rejected promise of the storage layer: a schema validation failure or
    the duplicate-key error (code 11000) of a unique index. *)
Inductive StoreError := ValidationError | DuplicateKey.

(** Stable insertion sort by a comparator [cmp a b] (negative: [a] first),
    the order [Array.prototype.sort] and a sorted query produce when the
    comparator is a consistent order. *)
Section Sort.
Context {A : Type} (cmp : A -> A -> Z).

Fixpoint insert_sorted (x : A) (l : list A) : list A :=
  match l with
  | [] => [x]
  | y :: ys => if cmp x y <=? 0 then x :: y :: ys else y :: insert_sorted x ys
  end.

Definition sort (l : list A) : list A := fold_right insert_sorted [] l.
End Sort.

(* ------------------------------------------------------------------ *)
(** ** [MemStorage] ([server/storage.ts], lines 259-381) *)

Module MemStorage.

(** A [Map<string, V>]: the entries in insertion order. *)
Section MapOf.
Context {V : Type}.

Fixpoint Map_get (k : string) (m : list (string * V)) : option V :=
  match m with
  | [] => None
  | (k', v) :: m' => if String.eqb k' k then Some v else Map_get k m'
  end.

(** [m.set(k, v)]: a key already present keeps its place. *)
Fixpoint Map_set (k : string) (v : V) (m : list (string * V)) : list (string * V) :=
  match m with
  | [] => [(k, v)]
  | (k', v') :: m' =>
      if String.eqb k' k then (k, v) :: m' else (k', v') :: Map_set k v m'
  end.

Definition Map_values (m : list (string * V)) : list V := map snd m.
End MapOf.

Record t := mk {
  users : list (string * User);
  attendance : list (string * Attendance)
}.

(** [new MemStorage()]. *)
Definition empty : t := mk [] [].

Definition getUser (st : t) (id : string) : option User :=
  Map_get id (users st).

(** [toLowerCase] is [String.prototype.toLowerCase]. *)
Definition getUserByEmail (toLowerCase : string -> string) (st : t) (email : string)
    : option User :=
  find (fun user => String.eqb (toLowerCase (u_email user)) (toLowerCase email))
       (Map_values (users st)).

Definition getUserByEmployeeId (st : t) (employeeId : string) : option User :=
  find (fun user => String.eqb (u_employeeId user) employeeId)
       (Map_values (users st)).

(** [uuid] is the value of [randomUUID()], [hashedPassword] that of
    [bcrypt.hash], [now] the clock reading behind [createdAt]. *)
Definition createUser (st : t) (uuid hashedPassword : string) (now : Z)
    (insertUser : InsertUser) : User * t :=
  let user := mkUser uuid (iu_name insertUser) (iu_email insertUser) hashedPassword
                (iu_role insertUser) (iu_employeeId insertUser)
                (iu_department insertUser) now in
  (user, mk (Map_set uuid user (users st)) (attendance st)).

Definition getAllEmployees (st : t) : list User :=
  filter (fun user => Role_eqb (u_role user) employee) (Map_values (users st)).

Definition getAttendance (st : t) (id : string) : option Attendance :=
  Map_get id (attendance st).

Definition getAttendanceByUserAndDate (st : t) (userId' date' : string)
    : option Attendance :=
  find (fun a => String.eqb (userId a) userId' && String.eqb (date a) date')
       (Map_values (attendance st)).

Definition createAttendance (st : t) (uuid : string) (now : Z)
    (insertAttendance : InsertAttendance) : Attendance * t :=
  let attendance' :=
    mkAttendance uuid (i_userId insertAttendance) (i_date insertAttendance)
      (i_checkInTime insertAttendance) (i_checkOutTime insertAttendance)
      (i_status insertAttendance) (i_totalHours insertAttendance) now in
  (attendance', mk (users st) (Map_set uuid attendance' (attendance st))).

Definition updateAttendance (st : t) (id : string) (updates : PartialAttendance)
    : option Attendance * t :=
  match Map_get id (attendance st) with
  | None => (None, st)
  | Some existing =>
      let updated := merge existing updates in
      (Some updated, mk (users st) (Map_set id updated (attendance st)))
  end.

(** The comparator of both sorts:
    [new Date(b.date).getTime() - new Date(a.date).getTime()].  With an
    invalid date the difference is NaN, which a sort reads as 0. *)
Definition byDateDesc (a b : Attendance) : Z :=
  match JS.parseDate (date b), JS.parseDate (date a) with
  | Some tb, Some ta => tb - ta
  | _, _ => 0
  end.

Definition getAttendanceByUser (st : t) (userId' : string) (month : option string)
    : list Attendance :=
  let records :=
    filter (fun a => String.eqb (userId a) userId') (Map_values (attendance st)) in
  let records :=
    match JS.supplied month with
    | Some m => filter (fun a => JS.startsWith (date a) m) records
    | None => records
    end in
  sort byDateDesc records.

Definition getAllAttendance (st : t) (filters : Filters) : list Attendance :=
  let records := Map_values (attendance st) in
  let records :=
    match JS.supplied (f_employeeId filters) with
    | Some e => filter (fun a => String.eqb (userId a) e) records
    | None => records
    end in
  let records :=
    match JS.supplied (f_date filters) with
    | Some d => filter (fun a => String.eqb (date a) d) records
    | None => records
    end in
  let records :=
    match JS.supplied (f_status filters) with
    | Some s => filter (fun a => String.eqb (Status_text (status a)) s) records
    | None => records
    end in
  let records :=
    match JS.supplied (f_from filters) with
    | Some from => filter (fun a => JS.str_ge (date a) from) records
    | None => records
    end in
  let records :=
    match JS.supplied (f_to filters) with
    | Some to => filter (fun a => JS.str_le (date a) to) records
    | None => records
    end in
  sort byDateDesc records.

Definition getAttendanceByDate (st : t) (date' : string) : list Attendance :=
  filter (fun a => String.eqb (date a) date') (Map_values (attendance st)).

End MemStorage.

(* ------------------------------------------------------------------ *)
(** ** [MongoStorage] ([server/storage.ts], lines 91-257) *)

Module MongoStorage.

(** The two collections, documents in insertion order. *)
Record t := mk {
  users : list User;
  attendance : list Attendance
}.

Definition empty : t := mk [] [].

(** A condition on the [date] field of a query. *)
Inductive DateCond :=
| DateIs (d : string)
| DateRange (gte lte : option string)
| DateRegex (pattern : string).

(** The query object handed to [AttendanceModel.find]. *)
Record Query := mkQuery {
  q_userId : option string;
  q_date : option DateCond;
  q_status : option string
}.

Definition emptyQuery : Query := mkQuery None None None.

Definition holds {A} (o : option A) (p : A -> bool) : bool :=
  match o with Some a => p a | None => true end.

(** Descending order of the [date] texts: [.sort({ date: -1 })]. *)
Definition byDateDesc (a b : Attendance) : Z :=
  match String.compare (date b) (date a) with
  | Lt => -1
  | Eq => 0
  | Gt => 1
  end.

(** [required: true] on a string path rejects the empty string. *)
Definition required (s : string) : bool := JS.truthy s.

(** The first document satisfying [p] replaced by [d]. *)
Fixpoint replaceFirst {A} (p : A -> bool) (d : A) (l : list A) : list A :=
  match l with
  | [] => []
  | x :: xs => if p x then d :: xs else x :: replaceFirst p d xs
  end.

(** The documents other than the first one satisfying [p]. *)
Fixpoint dropFirst {A} (p : A -> bool) (l : list A) : list A :=
  match l with
  | [] => []
  | x :: xs => if p x then xs else x :: dropFirst p xs
  end.

(** The unique indexes of the attendance collection: [id], and the compound
    index on ([userId], [date]) of line 113. *)
Definition sameId (a b : Attendance) : bool := String.eqb (id a) (id b).

Definition sameUserAndDate (a b : Attendance) : bool :=
  String.eqb (userId a) (userId b) && String.eqb (date a) (date b).

Definition attendanceConflict (docs : list Attendance) (a : Attendance) : bool :=
  existsb (fun d => sameId d a || sameUserAndDate d a) docs.

(** The unique indexes of the user collection: [id], [email], [employeeId]. *)
Definition userConflict (docs : list User) (u : User) : bool :=
  existsb (fun d => String.eqb (u_id d) (u_id u)
                    || String.eqb (u_email d) (u_email u)
                    || String.eqb (u_employeeId d) (u_employeeId u)) docs.

Definition getUser (st : t) (id : string) : option User :=
  find (fun u => String.eqb (u_id u) id) (users st).

(** [toLowerCase] is [String.prototype.toLowerCase]. *)
Definition getUserByEmail (toLowerCase : string -> string) (st : t) (email : string)
    : option User :=
  find (fun u => String.eqb (u_email u) (toLowerCase email)) (users st).

Definition getUserByEmployeeId (st : t) (employeeId : string) : option User :=
  find (fun u => String.eqb (u_employeeId u) employeeId) (users st).

(** [user.save()]: the schema validates the document (the email is stored in
    lower case, by [toLowerCase]), then the unique indexes accept or reject
    the insert. *)
Definition createUser (toLowerCase : string -> string) (st : t)
    (uuid hashedPassword : string) (now : Z)
    (insertUser : InsertUser) : StoreError + (User * t) :=
  let user := mkUser uuid (iu_name insertUser) (toLowerCase (iu_email insertUser))
                hashedPassword (iu_role insertUser) (iu_employeeId insertUser)
                (iu_department insertUser) now in
  if negb (required (u_id user) && required (u_name user) && required (u_email user)
           && required (u_password user) && required (u_employeeId user)
           && required (u_department user))
  then inl ValidationError
  else if userConflict (users st) user then inl DuplicateKey
  else inr (user, mk (users st ++ [user]) (attendance st)).

Definition getAllEmployees (st : t) : list User :=
  filter (fun u => Role_eqb (u_role u) employee) (users st).

Definition getAttendance (st : t) (id' : string) : option Attendance :=
  find (fun a => String.eqb (id a) id') (attendance st).

Definition getAttendanceByUserAndDate (st : t) (userId' date' : string)
    : option Attendance :=
  find (fun a => String.eqb (userId a) userId' && String.eqb (date a) date')
       (attendance st).

(** [attendance.save()]. *)
Definition createAttendance (st : t) (uuid : string) (now : Z)
    (insertAttendance : InsertAttendance) : StoreError + (Attendance * t) :=
  let doc :=
    mkAttendance uuid (i_userId insertAttendance) (i_date insertAttendance)
      (i_checkInTime insertAttendance) (i_checkOutTime insertAttendance)
      (i_status insertAttendance) (i_totalHours insertAttendance) now in
  if negb (required (id doc) && required (userId doc) && required (date doc))
  then inl ValidationError
  else if attendanceConflict (attendance st) doc then inl DuplicateKey
  else inr (doc, mk (users st) (attendance st ++ [doc])).

(** [findOneAndUpdate({ id }, updates, { new: true })]: the first document
    with that [id] takes the updates, unless a unique index then rejects it. *)
Definition updateAttendance (st : t) (id' : string) (updates : PartialAttendance)
    : StoreError + (option Attendance * t) :=
  let hit := fun a => String.eqb (id a) id' in
  match find hit (attendance st) with
  | None => inr (None, st)
  | Some existing =>
      let updated := merge existing updates in
      if attendanceConflict (dropFirst hit (attendance st)) updated
      then inl DuplicateKey
      else inr (Some updated, mk (users st) (replaceFirst hit updated (attendance st)))
  end.

Section Find.
(** [regexTest pattern s]: whether MongoDB's [$regex] operator matches [s]
    against [pattern]; the regular-expression engine belongs to the database. *)
Variable regexTest : string -> string -> bool.

Definition dateHolds (c : DateCond) (d : string) : bool :=
  match c with
  | DateIs d' => String.eqb d d'
  | DateRange gte lte =>
      holds gte (fun from => JS.str_ge d from) && holds lte (fun to => JS.str_le d to)
  | DateRegex pattern => regexTest pattern d
  end.

Definition matches (q : Query) (a : Attendance) : bool :=
  holds (q_userId q) (fun u => String.eqb (userId a) u)
  && holds (q_date q) (fun c => dateHolds c (date a))
  && holds (q_status q) (fun s => String.eqb (Status_text (status a)) s).

(** [AttendanceModel.find(query)]. *)
Definition find_ (st : t) (q : Query) : list Attendance :=
  filter (matches q) (attendance st).

Definition getAttendanceByUser (st : t) (userId' : string) (month : option string)
    : list Attendance :=
  let query := mkQuery (Some userId') None None in
  let query :=
    match JS.supplied month with
    | Some m => mkQuery (q_userId query) (Some (DateRegex ("^" ++ m))) (q_status query)
    | None => query
    end in
  sort byDateDesc (find_ st query).

Definition getAllAttendance (st : t) (filters : Filters) : list Attendance :=
  let query := emptyQuery in
  let query :=
    match JS.supplied (f_employeeId filters) with
    | Some e => mkQuery (Some e) (q_date query) (q_status query)
    | None => query
    end in
  let query :=
    match JS.supplied (f_date filters) with
    | Some d => mkQuery (q_userId query) (Some (DateIs d)) (q_status query)
    | None => query
    end in
  let query :=
    match JS.supplied (f_status filters) with
    | Some s => mkQuery (q_userId query) (q_date query) (Some s)
    | None => query
    end in
  let query :=
    match JS.supplied (f_from filters), JS.supplied (f_to filters) with
    | None, None => query
    | from, to => mkQuery (q_userId query) (Some (DateRange from to)) (q_status query)
    end in
  sort byDateDesc (find_ st query).

Definition getAttendanceByDate (st : t) (date' : string) : list Attendance :=
  find_ st (mkQuery None (Some (DateIs date')) None).
End Find.

End MongoStorage.

(* ------------------------------------------------------------------ *)
(** ** The storage in use ([IStorage], [initializeStorage]) *)

(** [storage] holds an instance of one of the two classes. *)
Inductive IStorage :=
| Mem (st : MemStorage.t)
| Mongo (st : MongoStorage.t).

(** An HTTP response: [res.status(code).json(body)], or an error status with
    its [message]. *)
Inductive Response (A : Type) :=
| Sent (code : Z) (body : A)
| Failed (code : Z) (message : string).
Arguments Sent {A} code body.
Arguments Failed {A} code message.

(** The failures of check-in and check-out, by the names of the design. *)
Definition AlreadyCheckedIn {A} : Response A := Failed 400 "Already checked in today".
Definition NoCheckInFound {A} : Response A :=
  Failed 400 "No check-in record found for today".
Definition AlreadyCheckedOut {A} : Response A := Failed 400 "Already checked out today".

(** The body of [/api/attendance/my-summary]. *)
Record MonthlySummary := mkMonthlySummary {
  ms_present : Z;
  ms_absent : Z;
  ms_late : Z;
  ms_halfDay : Z;
  ms_totalHours : float;
  ms_workingDays : Z
}.

(** The body of [/api/attendance/summary]. *)
Record OrgSummary := mkOrgSummary {
  os_totalEmployees : Z;
  os_present : Z;
  os_late : Z;
  os_halfDay : Z;
  os_absent : Z
}.

(** An entry of [departmentWise] in the body of [/api/dashboard/manager]. *)
Record DepartmentStat := mkDepartmentStat {
  ds_department : string;
  ds_present : Z;
  ds_total : Z;
  ds_percentage : float
}.

(** The body of a registration request; a missing field is [None]. *)
Record RegisterBody := mkRegisterBody {
  rb_name : option string;
  rb_email : option string;
  rb_password : option string;
  rb_role : option string;
  rb_employeeId : option string;
  rb_department : option string
}.

(** [Omit<User, "password">]. *)
Record PublicUser := mkPublicUser {
  pu_id : string;
  pu_name : string;
  pu_email : string;
  pu_role : Role;
  pu_employeeId : string;
  pu_department : string;
  pu_createdAt : Z
}.

Section Server.

(** [LocalTZA(t, isUTC)] (ECMAScript 21.4.1): the offset of local time from
    UTC in milliseconds, at the time value [t] when [isUTC] is true, and for
    the local time value [t] otherwise; the time zone belongs to the host. *)
Variable LocalTZA : Z -> bool -> Z.
(** The database's [$regex] evaluation. *)
Variable regexTest : string -> string -> bool.
(** [String.prototype.toLowerCase]. *)
Variable toLowerCase : string -> string.

(** *** Interface methods *)

Definition getAllEmployees (storage : IStorage) : list User :=
  match storage with
  | Mem st => MemStorage.getAllEmployees st
  | Mongo st => MongoStorage.getAllEmployees st
  end.

Definition getUserByEmail (storage : IStorage) (email : string) : option User :=
  match storage with
  | Mem st => MemStorage.getUserByEmail toLowerCase st email
  | Mongo st => MongoStorage.getUserByEmail toLowerCase st email
  end.

Definition getUserByEmployeeId (storage : IStorage) (employeeId : string)
    : option User :=
  match storage with
  | Mem st => MemStorage.getUserByEmployeeId st employeeId
  | Mongo st => MongoStorage.getUserByEmployeeId st employeeId
  end.

Definition createUser (storage : IStorage) (uuid hashedPassword : string) (now : Z)
    (insertUser : InsertUser) : StoreError + (User * IStorage) :=
  match storage with
  | Mem st =>
      let (u, st') := MemStorage.createUser st uuid hashedPassword now insertUser in
      inr (u, Mem st')
  | Mongo st =>
      match MongoStorage.createUser toLowerCase st uuid hashedPassword now insertUser with
      | inl e => inl e
      | inr (u, st') => inr (u, Mongo st')
      end
  end.

Definition getAttendanceByUserAndDate (storage : IStorage) (userId' date' : string)
    : option Attendance :=
  match storage with
  | Mem st => MemStorage.getAttendanceByUserAndDate st userId' date'
  | Mongo st => MongoStorage.getAttendanceByUserAndDate st userId' date'
  end.

Definition createAttendance (storage : IStorage) (uuid : string) (now : Z)
    (insertAttendance : InsertAttendance) : StoreError + (Attendance * IStorage) :=
  match storage with
  | Mem st =>
      let (a, st') := MemStorage.createAttendance st uuid now insertAttendance in
      inr (a, Mem st')
  | Mongo st =>
      match MongoStorage.createAttendance st uuid now insertAttendance with
      | inl e => inl e
      | inr (a, st') => inr (a, Mongo st')
      end
  end.

Definition updateAttendance (storage : IStorage) (id' : string)
    (updates : PartialAttendance) : StoreError + (option Attendance * IStorage) :=
  match storage with
  | Mem st =>
      let (a, st') := MemStorage.updateAttendance st id' updates in
      inr (a, Mem st')
  | Mongo st =>
      match MongoStorage.updateAttendance st id' updates with
      | inl e => inl e
      | inr (a, st') => inr (a, Mongo st')
      end
  end.

Definition getAttendanceByUser (storage : IStorage) (userId' : string)
    (month : option string) : list Attendance :=
  match storage with
  | Mem st => MemStorage.getAttendanceByUser st userId' month
  | Mongo st => MongoStorage.getAttendanceByUser regexTest st userId' month
  end.

Definition getAllAttendance (storage : IStorage) (filters : Filters)
    : list Attendance :=
  match storage with
  | Mem st => MemStorage.getAllAttendance st filters
  | Mongo st => MongoStorage.getAllAttendance regexTest st filters
  end.

(** *** Helpers of [server/routes.ts] (lines 593-619) *)

Definition LocalTime (t : Z) : Z := t + LocalTZA t true.
(** [UTC(t)]: the time value of the local time value [t]. *)
Definition UTC (t : Z) : Z := t - LocalTZA t false.
Definition getHours (t : Z) : Z := JS.HourFromTime (LocalTime t).
Definition getMinutes (t : Z) : Z := JS.MinFromTime (LocalTime t).
(** [getDate]: the local day of the month. *)
Definition getDate (t : Z) : Z := JS.DateFromTime (LocalTime t).
(** [getDay]: the local day of the week. *)
Definition getDay (t : Z) : Z := JS.WeekDay (LocalTime t).

(** The local time of day, in milliseconds since local midnight. *)
Definition timeOfDay (t : Z) : Z := JS.TimeWithinDay (LocalTime t).

Definition getStartOfDay (date' : Z) : string := JS.isoDate date'.

(** [new Date(year, month, date)], its time value: local midnight of the
    day made from the truncated arguments, [None] for an invalid date (an
    argument that is NaN or infinite, a time out of range). *)
Definition newDate (year month : float) (date : Z) : option Z :=
  match JS.ToInteger year, JS.ToInteger month with
  | Some y, Some m =>
      JS.TimeClip (UTC (JS.MakeDay (JS.MakeFullYear y) m date * JS.msPerDay))
  | _, _ => None
  end.

(** [d.setDate(date)] on a valid date of time value [t]: the day of the
    local month changes and the local time of day stays. *)
Definition setDate (t date : Z) : option Z :=
  let local := LocalTime t in
  JS.TimeClip
    (UTC (JS.MakeDay (JS.YearFromTime local) (JS.MonthFromTime local) date * JS.msPerDay
          + JS.TimeWithinDay local)).

(** [yearMonth.split("-").map(Number)] destructured as [[year, month]]; an
    element that is missing is undefined, NaN in arithmetic. *)
Definition yearAndMonth (yearMonth : string) : float * float :=
  let parts := map JS.Number (JS.split "-"%char yearMonth) in
  (nth 0 parts nan, nth 1 parts nan).

(** [date.getDay() !== 0 && date.getDay() !== 6]; an invalid date has the
    day NaN, which differs from both. *)
Definition isWorkingDay (date' : option Z) : bool :=
  match date' with
  | Some t => negb (getDay t =? 0) && negb (getDay t =? 6)
  | None => true
  end.

(** The loop [for (d = new Date(start); d <= end; d.setDate(d.getDate() + 1))]
    run for at most [fuel] rounds; [d <= end] compares time values and is
    false once [d] is invalid. *)
Fixpoint countWorkingDays (fuel : nat) (d : option Z) (end_ count : Z) : Z :=
  match fuel with
  | O => count
  | S fuel' =>
      match d with
      | Some t =>
          if t <=? end_
          then countWorkingDays fuel' (setDate t (getDate t + 1)) end_
                 (if isWorkingDay d then count + 1 else count)
          else count
      | None => count
      end
  end.

(** The rounds are bounded by the hours from [start] to [end]: the loop
    ends within them in any time zone whose successive local midnights are
    an hour apart or more. *)
Definition getWorkingDaysInMonth (yearMonth : string) : Z :=
  let (year, month) := yearAndMonth yearMonth in
  let start := newDate year (PrimFloat.sub month 1) 1 in
  let end_ := newDate year month 0 in
  match start, end_ with
  | Some s, Some e =>
      countWorkingDays (Z.to_nat ((e - s) / JS.msPerHour + 2)) start e 0
  | _, _ => 0
  end.

(** The loop [for (d = 1; d <= today.getDate(); d++)] counting the working
    days among [new Date(year, mon - 1, d)]. *)
Fixpoint countDaysUpTo (fuel : nat) (year mon : float) (d last count : Z) : Z :=
  match fuel with
  | O => count
  | S fuel' =>
      if d <=? last
      then countDaysUpTo fuel' year mon (d + 1) last
             (if isWorkingDay (newDate year (PrimFloat.sub mon 1) d)
              then count + 1 else count)
      else count
  end.

Definition workingDaysToDate (month : string) (today : Z) : Z :=
  let (year, mon) := yearAndMonth month in
  countDaysUpTo (Z.to_nat (getDate today)) year mon 1 (getDate today) 0.

Definition length_ {A} (l : list A) : Z := Z.of_nat (List.length l).

(** *** POST /api/auth/register (lines 627-668) *)

Definition sanitizeUser (user : User) : PublicUser :=
  mkPublicUser (u_id user) (u_name user) (u_email user) (u_role user)
    (u_employeeId user) (u_department user) (u_createdAt user).

Definition roleOfText (s : string) : option Role :=
  if String.eqb s "employee" then Some employee
  else if String.eqb s "manager" then Some manager
  else None.

(** [hashedPassword] is the value of [bcrypt.hash] and [token] the signed
    token of [generateToken] for the new user. *)
Definition register (storage : IStorage) (clk : nat -> Z)
    (uuid hashedPassword token : string) (body : RegisterBody)
    : Response (PublicUser * string) * IStorage :=
  match JS.supplied (rb_name body), JS.supplied (rb_email body),
        JS.supplied (rb_password body), JS.supplied (rb_role body),
        JS.supplied (rb_employeeId body), JS.supplied (rb_department body) with
  | Some name, Some email, Some password, Some role, Some employeeId, Some department =>
      match roleOfText role with
      | None => (Failed 400 "Role must be 'employee' or 'manager'", storage)
      | Some role' =>
          match getUserByEmail storage email with
          | Some _ => (Failed 400 "Email already registered", storage)
          | None =>
              match getUserByEmployeeId storage employeeId with
              | Some _ => (Failed 400 "Employee ID already exists", storage)
              | None =>
                  match createUser storage uuid hashedPassword (clk 0%nat)
                          (mkInsertUser name email password role' employeeId department) with
                  | inr (user, storage') => (Sent 201 (sanitizeUser user, token), storage')
                  | inl _ => (Failed 500 "Registration failed", storage)
                  end
              end
          end
      end
  | _, _, _, _, _, _ => (Failed 400 "All fields are required", storage)
  end.

(** *** POST /api/attendance/checkin (lines 721-750) *)

(** The status given at check-in from the local hour and minute. *)
Definition checkinStatus (now : Z) : Status :=
  let hour := getHours now in
  let minute := getMinutes now in
  if (9 <? hour) || ((hour =? 9) && (15 <? minute)) then late else present.

Definition checkin (storage : IStorage) (clk : nat -> Z) (uuid userId' : string)
    : Response Attendance * IStorage :=
  let today := getStartOfDay (clk 0%nat) in
  let now := clk 1%nat in
  match getAttendanceByUserAndDate storage userId' today with
  | Some _ => (AlreadyCheckedIn, storage)
  | None =>
      let status' := checkinStatus now in
      match createAttendance storage uuid (clk 2%nat)
              (mkInsertAttendance userId' today (Some now) None status' None) with
      | inr (attendance, storage') => (Sent 201 attendance, storage')
      | inl _ => (Failed 500 "Check-in failed", storage)
      end
  end.

(** *** POST /api/attendance/checkout (lines 752-786) *)

(** [(now.getTime() - checkInTime.getTime()) / (1000 * 60 * 60)]; a null
    check-in time reads as the epoch. *)
Definition elapsedHours (now : Z) (checkInTime' : option Z) : float :=
  PrimFloat.div (JS.float_of_Z (now - orElse checkInTime' 0)) 3600000.

(** [Math.round(x * 10) / 10]. *)
Definition round1 (x : float) : float :=
  PrimFloat.div (JS.Math_round (PrimFloat.mul x 10)) 10.

Definition checkoutUpdates (now : Z) (attendance : Attendance) : PartialAttendance :=
  let totalHours' := elapsedHours now (checkInTime attendance) in
  let status' := if PrimFloat.ltb totalHours' 4 then half_day else status attendance in
  mkPartial None None None None (Some (Some now)) (Some status')
    (Some (Some (round1 totalHours'))) None.

Definition checkout (storage : IStorage) (clk : nat -> Z) (userId' : string)
    : Response (option Attendance) * IStorage :=
  let today := getStartOfDay (clk 0%nat) in
  let now := clk 1%nat in
  match getAttendanceByUserAndDate storage userId' today with
  | None => (NoCheckInFound, storage)
  | Some attendance =>
      match checkOutTime attendance with
      | Some _ => (AlreadyCheckedOut, storage)
      | None =>
          match updateAttendance storage (id attendance)
                  (checkoutUpdates now attendance) with
          | inr (updated, storage') => (Sent 200 updated, storage')
          | inl _ => (Failed 500 "Check-out failed", storage)
          end
      end
  end.

(** *** GET /api/attendance/my-summary (lines 812-855) *)

(** The counters [present], [late], [halfDay] and the sum [totalHours] after
    one record of the [forEach]. *)
Definition tallyRecord (acc : Z * Z * Z * float) (r : Attendance) : Z * Z * Z * float :=
  let '(present', late', halfDay', totalHours') := acc in
  let '(present', late', halfDay') :=
    match status r with
    | present => (present' + 1, late', halfDay')
    | late => (present', late' + 1, halfDay')
    | half_day => (present', late', halfDay' + 1)
    | absent => (present', late', halfDay')
    end in
  let totalHours' :=
    match totalHours r with
    | Some h => if JS.truthy_number h then PrimFloat.add totalHours' h else totalHours'
    | None => totalHours'
    end in
  (present', late', halfDay', totalHours').

Definition tally (records : list Attendance) : Z * Z * Z * float :=
  fold_left tallyRecord records (0, 0, 0, 0%float).

(** [month] is the query parameter.  Without it the month comes from a first
    clock reading; [today] and [currentMonth] come from the next two. *)
Definition mySummary (storage : IStorage) (clk : nat -> Z) (userId' : string)
    (month : option string) : Response MonthlySummary :=
  let '(month', k) :=
    match JS.supplied month with
    | Some m => (m, 0%nat)
    | None => (substring 0 7 (getStartOfDay (clk 0%nat)), 1%nat)
    end in
  let records := getAttendanceByUser storage userId' (Some month') in
  let '(present', late', halfDay', totalHours') := tally records in
  let workingDays := getWorkingDaysInMonth month' in
  let today := clk k in
  let currentMonth := substring 0 7 (getStartOfDay (clk (S k))) in
  let daysToCount :=
    if String.eqb month' currentMonth then workingDaysToDate month' today
    else workingDays in
  let absent' := Z.max 0 (daysToCount - (present' + late' + halfDay')) in
  Sent 200 (mkMonthlySummary present' absent' late' halfDay' (round1 totalHours')
              daysToCount).

(** *** GET /api/attendance/summary (lines 895-921) *)

(** The counters [totalPresent], [totalLate], [totalAbsent], [totalHalfDay]
    after one record. *)
Definition orgTallyRecord (acc : Z * Z * Z * Z) (r : Attendance) : Z * Z * Z * Z :=
  let '(totalPresent, totalLate, totalAbsent, totalHalfDay) := acc in
  match status r with
  | present => (totalPresent + 1, totalLate, totalAbsent, totalHalfDay)
  | late => (totalPresent, totalLate + 1, totalAbsent, totalHalfDay)
  | half_day => (totalPresent, totalLate, totalAbsent, totalHalfDay + 1)
  | absent => (totalPresent, totalLate, totalAbsent, totalHalfDay)
  end.

(** The body of [for (const emp of employees)]. *)
Definition orgTallyEmployee (storage : IStorage) (month : string)
    (acc : Z * Z * Z * Z) (emp : User) : Z * Z * Z * Z :=
  fold_left orgTallyRecord (getAttendanceByUser storage (u_id emp) (Some month)) acc.

Definition orgSummary (storage : IStorage) (clk : nat -> Z) (month : option string)
    : Response OrgSummary :=
  let employees := getAllEmployees storage in
  let month' :=
    match JS.supplied month with
    | Some m => m
    | None => substring 0 7 (getStartOfDay (clk 0%nat))
    end in
  let '(totalPresent, totalLate, totalAbsent, totalHalfDay) :=
    fold_left (orgTallyEmployee storage month') employees (0, 0, 0, 0) in
  Sent 200 (mkOrgSummary (length_ employees) totalPresent totalLate totalHalfDay
              totalAbsent).

(** *** GET /api/dashboard/manager, [departmentWise] (lines 1071-1107) *)

(** [[...new Set(l)]]: the first occurrence of each text, in order. *)
Fixpoint distinct (l : list string) : list string :=
  match l with
  | [] => []
  | x :: xs => x :: filter (fun y => negb (String.eqb y x)) (distinct xs)
  end.

Definition isPresentOrLate (r : Attendance) : bool :=
  Status_eqb (status r) present || Status_eqb (status r) late.

(** [percentage]: guarded against a zero [totalPossible]. *)
Definition percentageOf (presentCount totalPossible : Z) : float :=
  if 0 <? totalPossible
  then PrimFloat.mul (PrimFloat.div (JS.float_of_Z presentCount)
                        (JS.float_of_Z totalPossible)) 100
  else 0%float.

(** The callback of [departments.map]: [today] and [currentMonth] are those of
    the handler, [todayDate] is the clock reading of this callback. *)
Definition departmentStat (storage : IStorage) (employees : list User)
    (today currentMonth : string) (todayDate : Z) (dept : string) : DepartmentStat :=
  let deptEmployees := filter (fun e => String.eqb (u_department e) dept) employees in
  let monthRecords :=
    getAllAttendance storage
      (mkFilters None None None (Some (currentMonth ++ "-01")%string) (Some today)) in
  let deptRecords :=
    filter (fun r => existsb (fun e => String.eqb (u_id e) (userId r)) deptEmployees)
           monthRecords in
  let presentCount := length_ (filter isPresentOrLate deptRecords) in
  let daysToCount := workingDaysToDate currentMonth todayDate in
  let totalPossible := length_ deptEmployees * daysToCount in
  let percentage := percentageOf presentCount totalPossible in
  mkDepartmentStat dept presentCount (length_ deptEmployees) (round1 percentage).

Fixpoint mapFrom {A B} (f : nat -> A -> B) (k : nat) (l : list A) : list B :=
  match l with
  | [] => []
  | x :: xs => f k x :: mapFrom f (S k) xs
  end.

(** The handler reads the clock once for [today] and seven times for the
    weekly trend before the department callbacks run, one reading each. *)
Definition departmentWise (storage : IStorage) (clk : nat -> Z) : list DepartmentStat :=
  let today := getStartOfDay (clk 0%nat) in
  let currentMonth := substring 0 7 today in
  let employees := getAllEmployees storage in
  let departments := distinct (map u_department employees) in
  mapFrom (fun k dept => departmentStat storage employees today currentMonth (clk k) dept)
          8%nat departments.

End Server.

(* ------------------------------------------------------------------ *)
(** ** States of the store and the operations that change them *)

(** The attendance records a storage holds, in insertion order. *)
Definition records (storage : IStorage) : list Attendance :=
  match storage with
  | Mem st => MemStorage.Map_values (MemStorage.attendance st)
  | Mongo st => MongoStorage.attendance st
  end.

Definition hasKey (u d : string) (a : Attendance) : bool :=
  String.eqb (userId a) u && String.eqb (date a) d.

(** How many records carry the natural key ([u], [d]). *)
Definition keyCount (u d : string) (l : list Attendance) : nat :=
  List.length (filter (hasKey u d) l).

(** At most one record per user and calendar day. *)
Definition atMostOnePerDay (storage : IStorage) : Prop :=
  forall u d, (keyCount u d (records storage) <= 1)%nat.

Fixpoint distinctb (l : list string) : bool :=
  match l with
  | [] => true
  | x :: xs => negb (existsb (String.eqb x) xs) && distinctb xs
  end.

(** What each class keeps true of its attendance collection: the keys of the
    [Map] are distinct and each is the [id] of its record; the two unique
    indexes of the Mongo collection hold. *)
Definition wellFormed (storage : IStorage) : bool :=
  match storage with
  | Mem st =>
      distinctb (map fst (MemStorage.attendance st))
      && forallb (fun e => String.eqb (id (snd e)) (fst e)) (MemStorage.attendance st)
  | Mongo st =>
      distinctb (map id (MongoStorage.attendance st))
      && forallb (fun a => (keyCount (userId a) (date a) (MongoStorage.attendance st) =? 1)%nat)
           (MongoStorage.attendance st)
  end.

(** An evaluation of [$regex] for the patterns [getAttendanceByUser] builds
    from a month such as 2024-06: a caret and a text without metacharacters. *)
Definition anchoredPrefix (pattern s : string) : bool :=
  match pattern with
  | String "^"%char p => String.prefix p s
  | _ => false
  end.

(** Local time is UTC. *)
Definition utc (t : Z) (isUTC : bool) : Z := 0.

(** A zone with daylight saving, as in Havana in 2025: five hours behind UTC
    until local midnight of 9 March 2025, when the clocks go to 01:00, and
    four hours behind from then on.  A local time of the skipped hour is
    read with the offset before the change. *)
Definition havana (t : Z) (isUTC : bool) : Z :=
  let midnight9 := JS.days_from_civil 2025 3 9 * JS.msPerDay in
  if isUTC then
    if t <? midnight9 + 5 * JS.msPerHour then -5 * JS.msPerHour else -4 * JS.msPerHour
  else
    if t <? midnight9 + JS.msPerHour then -5 * JS.msPerHour else -4 * JS.msPerHour.

(** The conjunction of the supplied filters of [getAllAttendance], as the
    design states the query: every filter that is supplied must hold. *)
Definition satisfies (f : Filters) (a : Attendance) : bool :=
  MongoStorage.holds (JS.supplied (f_employeeId f)) (fun e => String.eqb (userId a) e)
  && MongoStorage.holds (JS.supplied (f_date f)) (fun d => String.eqb (date a) d)
  && MongoStorage.holds (JS.supplied (f_status f))
       (fun s => String.eqb (Status_text (status a)) s)
  && MongoStorage.holds (JS.supplied (f_from f)) (fun from => JS.str_ge (date a) from)
  && MongoStorage.holds (JS.supplied (f_to f)) (fun to => JS.str_le (date a) to).

(** *** A week-end scenario

    An employee of the Engineering department registers, then checks in on
    Sunday 2 June 2024 and on Monday 3 June 2024, at 08:00 UTC each day. *)
Definition sunday0800 : Z := 1717315200000.
Definition monday0800 : Z := 1717401600000.
Definition monday1000 : Z := 1717408800000.
Definition monday1300 : Z := 1717419600000.
(** Monday 3 June 2024, 09:15:01 UTC. *)
Definition monday091501 : Z := 1717406101000.
(** Saturday 1 June 2024, 08:00 UTC. *)
Definition saturday0800 : Z := 1717228800000.

(** A clock that reads [t] at every call. *)
Definition at_ (t : Z) : nat -> Z := fun _ => t.

Definition johnBody : RegisterBody :=
  mkRegisterBody (Some "John Smith") (Some "employee1@example.com") (Some "password123")
    (Some "employee") (Some "EMP001") (Some "Engineering").

Definition registered (init : IStorage) : IStorage :=
  snd (register JS.asciiLowerCase init (at_ sunday0800) "u1" "hash" "token" johnBody).

Definition afterSunday (init : IStorage) : IStorage :=
  snd (checkin utc (registered init) (at_ sunday0800) "a1" "u1").

Definition afterMonday (init : IStorage) : IStorage :=
  snd (checkin utc (afterSunday init) (at_ monday0800) "a2" "u1").

(** The Monday check-out, at 13:00 UTC. *)
Definition afterCheckout (init : IStorage) : IStorage :=
  snd (checkout (afterMonday init) (at_ monday1300) "u1").

(** The records of the two check-ins. *)
Definition sundayRecord : Attendance :=
  mkAttendance "a1" "u1" "2024-06-02" (Some sunday0800) None present None sunday0800.

Definition mondayRecord : Attendance :=
  mkAttendance "a2" "u1" "2024-06-03" (Some monday0800) None present None monday0800.

(** The elapsed time of a check-out, in milliseconds, rounded half-up to a
    whole number of tenths of an hour (360000 ms each). *)
Definition halfUpTenths (elapsed : Z) : Z := (elapsed + 180000) / 360000.

(** The binary64 number written with one decimal for a number of tenths. *)
Definition oneDecimal (tenths : Z) : float :=
  PrimFloat.div (JS.float_of_Z tenths) 10.

(** *** Exhaustive evaluation of the check-out arithmetic

    [checkMs d] evaluates, for an elapsed time of [d] milliseconds, the stored
    [totalHours] against the half-up rounding to one decimal, and the test
    [totalHours < 4] against [d] being less than four hours. *)
Definition hoursOfMs (d : int) : float :=
  PrimFloat.div (PrimFloat.of_uint63 d) 3600000.

Definition checkMs (d : int) : bool :=
  let hours := hoursOfMs d in
  if Bool.eqb (PrimFloat.ltb hours 4) (d <? 14400000)%uint63
  then PrimFloat.Leibniz.eqb (round1 hours)
         (PrimFloat.div (PrimFloat.of_uint63 ((d + 180000) / 360000)%uint63) 10)
  else false.

Fixpoint checkRun (fuel : nat) (s : int) : bool :=
  match fuel with
  | O => true
  | S fuel' => if checkMs s then checkRun fuel' (s + 1)%uint63 else false
  end.

(** [checkRuns blocks s] covers the [1000 * blocks] elapsed times from [s] on. *)
Fixpoint checkRuns (blocks : nat) (s : int) : bool :=
  match blocks with
  | O => true
  | S blocks' => if checkRun 1000 s then checkRuns blocks' (s + 1000)%uint63 else false
  end.

Section Reachable.
Variable LocalTZA : Z -> bool -> Z.
Variable toLowerCase : string -> string.

(** One request that may write to the store; every other route only reads. *)
Inductive step (storage : IStorage) : IStorage -> Prop :=
| step_register clk uuid hashedPassword token body :
    step storage (snd (register toLowerCase storage clk uuid hashedPassword token body))
| step_checkin clk uuid userId' :
    step storage (snd (checkin LocalTZA storage clk uuid userId'))
| step_checkout clk userId' :
    step storage (snd (checkout storage clk userId')).

Inductive reachable (init : IStorage) : IStorage -> Prop :=
| reachable_init : reachable init init
| reachable_step storage storage' :
    reachable init storage -> step storage storage' -> reachable init storage'.

End Reachable.

(* ------------------------------------------------------------------ *)
(** ** Further routes of [server/routes.ts] *)

(** The body of a login request. *)
Record LoginBody := mkLoginBody {
  lb_email : option string;
  lb_password : option string
}.

(** The query of [/api/attendance/all]. *)
Record AllQuery := mkAllQuery {
  aq_employeeId : option string;
  aq_date : option string;
  aq_status : option string;
  aq_from : option string;
  aq_to : option string
}.

(** The counters and lists of [/api/dashboard/manager] that describe today. *)
Record ManagerToday := mkManagerToday {
  mt_totalEmployees : Z;
  mt_present : Z;
  mt_absent : Z;
  mt_late : Z;
  mt_lateToday : list (PublicUser * option Z);
  mt_absentToday : list PublicUser
}.

(** [x && x !== "all" ? x : undefined]. *)
Definition unlessAll (x : option string) : option string :=
  match JS.supplied x with
  | Some s => if String.eqb s "all" then None else Some s
  | None => None
  end.

(** [new Map(entries)]: the entries set one after the other. *)
Definition Map_of {V} (entries : list (string * V)) : list (string * V) :=
  fold_left (fun m e => MemStorage.Map_set (fst e) (snd e) m) entries [].

Definition isSome {A} (o : option A) : bool :=
  match o with Some _ => true | None => false end.

(** What check-in and check-out write: a status other than [absent], a
    check-in time, and a check-out time exactly when the hours are there. *)
Definition recordOk (a : Attendance) : bool :=
  negb (Status_eqb (status a) absent)
  && isSome (checkInTime a)
  && Bool.eqb (isSome (checkOutTime a)) (isSome (totalHours a)).

Section MoreRoutes.
(** The database's [$regex] evaluation. *)
Variable regexTest : string -> string -> bool.
(** [bcrypt.compare(password, hash)]. *)
Variable compare : string -> string -> bool.
Variable toLowerCase : string -> string.

(** *** Interface methods *)

Definition getUser (storage : IStorage) (id' : string) : option User :=
  match storage with
  | Mem st => MemStorage.getUser st id'
  | Mongo st => MongoStorage.getUser st id'
  end.

Definition getAttendance (storage : IStorage) (id' : string) : option Attendance :=
  match storage with
  | Mem st => MemStorage.getAttendance st id'
  | Mongo st => MongoStorage.getAttendance st id'
  end.

Definition getAttendanceByDate (storage : IStorage) (date' : string) : list Attendance :=
  match storage with
  | Mem st => MemStorage.getAttendanceByDate st date'
  | Mongo st => MongoStorage.getAttendanceByDate regexTest st date'
  end.

(** [requireRole(role)]: the handler runs for a caller of that role only. *)
Definition requireRole {A} (role caller : Role) (next : Response A) : Response A :=
  if Role_eqb caller role then next else Failed 403 "Access denied".

(** *** POST /api/auth/login (lines 670-698) *)

(** [token] is the signed token of [generateToken] for the user found. *)
Definition login (storage : IStorage) (token : string) (body : LoginBody)
    : Response (PublicUser * string) :=
  match JS.supplied (lb_email body), JS.supplied (lb_password body) with
  | Some email, Some password =>
      match getUserByEmail toLowerCase storage email with
      | None => Failed 401 "Invalid credentials"
      | Some user =>
          if compare password (u_password user)
          then Sent 200 (sanitizeUser user, token)
          else Failed 401 "Invalid credentials"
      end
  | _, _ => Failed 400 "Email and password are required"
  end.

(** *** GET /api/auth/me (lines 700-710) *)

Definition me (storage : IStorage) (caller : string) : Response PublicUser :=
  match getUser storage caller with
  | None => Failed 404 "User not found"
  | Some user => Sent 200 (sanitizeUser user)
  end.

(** *** GET /api/attendance/today (lines 788-798) *)

Definition attendanceToday (storage : IStorage) (clk : nat -> Z) (userId' : string)
    : Response (option Attendance) :=
  Sent 200 (getAttendanceByUserAndDate storage userId' (getStartOfDay (clk 0%nat))).

(** *** GET /api/attendance/my-history (lines 800-810) and
    GET /api/attendance/employee/:id (lines 883-893) *)

Definition myHistory (storage : IStorage) (userId' : string) (month : option string)
    : Response (list Attendance) :=
  Sent 200 (getAttendanceByUser regexTest storage userId' month).

Definition employeeAttendance (storage : IStorage) (caller : Role) (id' : string)
    (month : option string) : Response (list Attendance) :=
  requireRole manager caller (Sent 200 (getAttendanceByUser regexTest storage id' month)).

(** *** GET /api/attendance/all (lines 857-881) and
    GET /api/attendance/today-status (lines 923-940) *)

(** [records.map((r) => ({ ...r, user: employeeMap.get(r.userId) }))]. *)
Definition withUsers (storage : IStorage) (records' : list Attendance)
    : list (Attendance * option PublicUser) :=
  let employees := getAllEmployees storage in
  let employeeMap := Map_of (map (fun e => (u_id e, sanitizeUser e)) employees) in
  map (fun r => (r, MemStorage.Map_get (userId r) employeeMap)) records'.

Definition attendanceAll (storage : IStorage) (caller : Role) (query : AllQuery)
    : Response (list (Attendance * option PublicUser)) :=
  requireRole manager caller
    (let records' :=
       getAllAttendance regexTest storage
         (mkFilters (unlessAll (aq_employeeId query)) (aq_date query)
            (unlessAll (aq_status query)) (aq_from query) (aq_to query)) in
     Sent 200 (withUsers storage records')).

Definition todayStatus (storage : IStorage) (clk : nat -> Z) (caller : Role)
    (date' : option string) : Response (list (Attendance * option PublicUser)) :=
  requireRole manager caller
    (let date'' :=
       match JS.supplied date' with
       | Some d => d
       | None => getStartOfDay (clk 0%nat)
       end in
     Sent 200 (withUsers storage (getAttendanceByDate storage date''))).

(** *** GET /api/dashboard/manager, today's figures (lines 1042-1054,
    1109-1122) *)

Definition hasRecord (records' : list Attendance) (e : User) : bool :=
  existsb (fun r => String.eqb (userId r) (u_id e)) records'.

Definition managerToday (storage : IStorage) (clk : nat -> Z) : ManagerToday :=
  let today := getStartOfDay (clk 0%nat) in
  let employees := getAllEmployees storage in
  let todayRecords := getAttendanceByDate storage today in
  let presentToday :=
    length_ (filter (fun r => Status_eqb (status r) present || Status_eqb (status r) late
                              || Status_eqb (status r) half_day) todayRecords) in
  let lateToday := filter (fun r => Status_eqb (status r) late) todayRecords in
  let absentToday := filter (fun e => negb (hasRecord todayRecords e)) employees in
  let lateWithTime :=
    flat_map (fun r =>
                match find (fun e => String.eqb (u_id e) (userId r)) employees with
                | Some emp => [(sanitizeUser emp, checkInTime r)]
                | None => []
                end) lateToday in
  mkManagerToday (length_ employees) presentToday (length_ absentToday) (length_ lateToday)
    lateWithTime (map sanitizeUser absentToday).

End MoreRoutes.

(** *** GET /api/dashboard/employee, today's status and the month's figures
    (lines 978-1003, 1019-1033) *)

Record TodayStatus := mkTodayStatus {
  ts_checkedIn : bool;
  ts_checkedOut : bool;
  ts_checkInTime : option Z;
  ts_checkOutTime : option Z;
  ts_status : option Status
}.

Record EmployeeDashboard := mkEmployeeDashboard {
  ed_todayStatus : TodayStatus;
  ed_present : Z;
  ed_absent : Z;
  ed_late : Z;
  ed_halfDay : Z;
  ed_totalHoursThisMonth : float
}.

Section EmployeeRoutes.
Variable LocalTZA : Z -> bool -> Z.
Variable regexTest : string -> string -> bool.

(** [todayAttendance?.x]: the field of the record of today, if there is one. *)
Definition todayStatusOf (todayAttendance : option Attendance) : TodayStatus :=
  match todayAttendance with
  | Some a =>
      mkTodayStatus (isSome (checkInTime a)) (isSome (checkOutTime a))
        (checkInTime a) (checkOutTime a) (Some (status a))
  | None => mkTodayStatus false false None None None
  end.

Definition employeeDashboard (storage : IStorage) (clk : nat -> Z) (userId' : string)
    : EmployeeDashboard :=
  let today := getStartOfDay (clk 0%nat) in
  let currentMonth := substring 0 7 today in
  let todayAttendance := getAttendanceByUserAndDate storage userId' today in
  let monthRecords := getAttendanceByUser regexTest storage userId' (Some currentMonth) in
  let '(present', late', halfDay', totalHours') := tally monthRecords in
  let todayDate := clk 1%nat in
  let daysToCount := workingDaysToDate LocalTZA currentMonth todayDate in
  let absent' := Z.max 0 (daysToCount - (present' + late' + halfDay')) in
  mkEmployeeDashboard (todayStatusOf todayAttendance) present' absent' late' halfDay'
    (round1 totalHours').

End EmployeeRoutes.

(* ------------------------------------------------------------------ *)
(** ** Notions used to state the properties of dates and working days *)

(** A text without the separator. *)
Fixpoint free_of (sep : ascii) (s : string) : bool :=
  match s with
  | EmptyString => true
  | String c s' => negb (Ascii.eqb c sep) && free_of sep s'
  end.

(** 1 for a day number that is a Monday to Friday, 0 for a Saturday or a
    Sunday. *)
Definition workingDay (d : Z) : Z :=
  if (JS.WeekDayOfDay d =? 0) || (JS.WeekDayOfDay d =? 6) then 0 else 1.

(** The Mondays to Fridays among the [n] days from day number [d] on. *)
Fixpoint workingDaysFrom (d : Z) (n : nat) : Z :=
  match n with
  | O => 0
  | S n' => workingDay d + workingDaysFrom (d + 1) n'
  end.

(** The local time value of the midnight that starts day number [d]. *)
Definition midnight (d : Z) : Z := d * JS.msPerDay.

(** The local midnights of the days [D] to [D + n] are in order: each of them
    exists (it is the local time of the instant [UTC] gives for it) and is a
    valid time value, and each comes an hour or more after the one before.
    So it is in a zone of fixed offset, and in a zone with daylight saving
    over days whose midnight no change of the clock skips. *)
Definition midnightsInOrder (LocalTZA : Z -> bool -> Z) (D n : Z) : Prop :=
  forall k, 0 <= k <= n ->
    LocalTime LocalTZA (UTC LocalTZA (midnight (D + k))) = midnight (D + k)
    /\ Z.abs (UTC LocalTZA (midnight (D + k))) <= 8640000000000000
    /\ (k < n ->
        UTC LocalTZA (midnight (D + k)) + JS.msPerHour
        <= UTC LocalTZA (midnight (D + k + 1))).

(** The day number of the first day of the month [m] (1..12) of year [y],
    and the number of days of that month. *)
Definition firstOfMonth (y m : Z) : Z := JS.MakeDay (JS.MakeFullYear y) (m - 1) 1.
Definition daysInMonth (y m : Z) : Z :=
  JS.MakeDay (JS.MakeFullYear y) m 1 - JS.MakeDay (JS.MakeFullYear y) (m - 1) 1.

(** A date as the routes write it: the text of the UTC day of an instant. *)
Definition storedDate (s : string) : Prop :=
  exists t, 0 <= JS.YearFromTime t <= 9999 /\ s = getStartOfDay t.

(** The date of [b] is not later than the date of [a]. *)
Definition notLater (a b : Attendance) : Prop :=
  exists ta tb, JS.parseDate (date a) = Some ta /\ JS.parseDate (date b) = Some tb
                /\ tb <= ta.

(** The records that [getAttendanceByUser] selects: those of the user, of a
    date that starts with the month text when one is given. *)
Definition ofUserAndMonth (userId' : string) (month : option string) (a : Attendance)
    : bool :=
  String.eqb (userId a) userId'
  && MongoStorage.holds (JS.supplied month) (fun m => JS.startsWith (date a) m).


(** *** Exhaustive evaluation of [Number] on zero-padded texts

    [checkNumber w k]: the text of [k] with [w] digits is read by [Number] as
    the number [k], which truncates to [k], and [k - 1] computed on numbers
    truncates to [k - 1]. *)
Definition checkNumber (w : nat) (k : Z) : bool :=
  PrimFloat.Leibniz.eqb (JS.Number (JS.pad w k)) (JS.float_of_Z k)
  && match JS.ToInteger (JS.float_of_Z k),
           JS.ToInteger (PrimFloat.sub (JS.float_of_Z k) 1) with
     | Some a, Some b => (a =? k) && (b =? k - 1)
     | _, _ => false
     end.

(** [checkNumbers w fuel k] covers the [fuel] numbers from [k] on. *)
Fixpoint checkNumbers (w : nat) (fuel : nat) (k : Z) : bool :=
  match fuel with
  | O => true
  | S fuel' => if checkNumber w k then checkNumbers w fuel' (k + 1) else false
  end.

(* ------------------------------------------------------------------ *)
(** ** Checks of the calendar and number built-ins *)

Example isoDate_epoch : JS.isoDate 0 = "1970-01-01".
Proof. reflexivity. Qed.

(** 2024-06-03T09:15:01.000Z is a Monday. *)
Example isoDate_june : JS.isoDate 1717406101000 = "2024-06-03"
  /\ JS.WeekDay 1717406101000 = 1
  /\ JS.HourFromTime 1717406101000 = 9
  /\ JS.MinFromTime 1717406101000 = 15
  /\ JS.SecFromTime 1717406101000 = 1.
Proof. repeat split; reflexivity. Qed.

Example parseDate_june : JS.parseDate "2024-06-03" = Some 1717372800000.
Proof. reflexivity. Qed.

Example Math_round_ties :
  JS.Math_round 2.5 = 3%float /\ JS.Math_round (-2.5) = (-2)%float
  /\ JS.Math_round 0.25 = 0%float /\ JS.Math_round 7 = 7%float.
Proof. repeat split; reflexivity. Qed.

(** The two calendar conversions agree on the 40000 days from the epoch on
    (to July 2079): the pair below steps through the day numbers. *)
Example calendar_roundtrip :
  fst (Nat.iter (Z.to_nat 40000)
         (fun p : bool * Z =>
            let '(y, m, d) := JS.civil_from_days (snd p) in
            (fst p && (JS.days_from_civil y m d =? snd p), snd p + 1))
         (true, 0)) = true.
Proof. vm_cast_no_check (eq_refl true). Qed.

Example Number_texts :
  JS.Number "2024" = 2024%float /\ JS.Number "06" = 6%float
  /\ JS.Number " 2024" = 2024%float /\ JS.Number "" = 0%float
  /\ JS.Number "0x10" = 16%float /\ JS.Number "1e3" = 1000%float
  /\ JS.Number "1.5" = 1.5%float /\ JS.Number "-7" = (-7)%float
  /\ JS.Number "Infinity" = infinity
  /\ JS.Number "abc" = nan /\ JS.Number "12px" = nan.
Proof. repeat split; vm_compute; reflexivity. Qed.

(** A day that the month does not have runs into the next month. *)
Example parseDate_overflow :
  JS.parseDate "2024-02-30" = JS.parseDate "2024-03-01"
  /\ JS.parseDate "2024-02-32" = None.
Proof. split; reflexivity. Qed.

(** Month texts that are not YYYY-MM: a blank before the year is dropped by
    [Number]; a text without a month gives invalid dates and no round of the
    loop; month 13 is January of the next year. *)
Example getWorkingDaysInMonth_texts :
  getWorkingDaysInMonth utc " 2024-06" = 20 /\ getWorkingDaysInMonth utc "2024" = 0
  /\ getWorkingDaysInMonth utc "2024-13" = 23.
Proof. repeat split; vm_compute; reflexivity. Qed.

(** Where a change of the clocks skips a local midnight the loop goes on at
    01:00 and leaves before the last day of the month: March 2025 has 21
    Mondays to Fridays, and 20 are counted. *)
Example getWorkingDaysInMonth_havana :
  getWorkingDaysInMonth havana "2025-03" = 20
  /\ workingDaysFrom (firstOfMonth 2025 3) 31 = 21
  /\ getWorkingDaysInMonth utc "2025-03" = 21.
Proof. repeat split; vm_compute; reflexivity. Qed.

Example getWorkingDaysInMonth_2024 :
  getWorkingDaysInMonth utc "2024-06" = 20 /\ getWorkingDaysInMonth utc "2024-02" = 21
  /\ workingDaysToDate utc "2024-06" monday0800 = 1.
Proof. repeat split; vm_compute; reflexivity. Qed.

(** Check-in at 08:50 is [present]; the check-out five hours later keeps the
    status and stores 5 hours. *)
Example scenario_present_five_hours :
  let storage := snd (checkin utc (Mem MemStorage.empty) (at_ 1717404600000) "a1" "u1") in
  fst (checkin utc (Mem MemStorage.empty) (at_ 1717404600000) "a1" "u1")
  = Sent 201 (mkAttendance "a1" "u1" "2024-06-03" (Some 1717404600000) None present None
                1717404600000)
  /\ fst (checkout storage (at_ 1717422600000) "u1")
     = Sent 200 (Some (mkAttendance "a1" "u1" "2024-06-03" (Some 1717404600000)
                         (Some 1717422600000) present (Some 5%float) 1717404600000)).
Proof. split; vm_compute; reflexivity. Qed.

(** Check-in at 09:30 is [late]; the check-out two hours later turns the
    status into [half_day] and stores 2 hours. *)
Example scenario_late_then_half_day :
  let storage := snd (checkin utc (Mongo MongoStorage.empty) (at_ 1717407000000) "a1" "u1") in
  fst (checkin utc (Mongo MongoStorage.empty) (at_ 1717407000000) "a1" "u1")
  = Sent 201 (mkAttendance "a1" "u1" "2024-06-03" (Some 1717407000000) None late None
                1717407000000)
  /\ fst (checkout storage (at_ 1717414200000) "u1")
     = Sent 200 (Some (mkAttendance "a1" "u1" "2024-06-03" (Some 1717407000000)
                         (Some 1717414200000) half_day (Some 2%float) 1717407000000)).
Proof. split; vm_compute; reflexivity. Qed.

(* ------------------------------------------------------------------ *)
(** ** Time of day *)

Section TimeOfDay.
Variable LocalTZA : Z -> bool -> Z.

Lemma div_of_day t k (Hk : 0 < k) n (Hn : 0 < n) :
  (t / k) mod n = ((t mod (k * n)) / k) mod n.
Proof.
  rewrite (Z.div_mod t (k * n)) at 1 by lia.
  replace (k * n * (t / (k * n))) with ((t / (k * n) * n) * k) by lia.
  rewrite Z.div_add_l by lia.
  rewrite Z.add_comm, Z.mod_add by lia. reflexivity.
Qed.

Lemma hour_minute_of_day t :
  let tod := JS.TimeWithinDay t in
  JS.HourFromTime t = tod / 3600000 /\ JS.MinFromTime t = (tod / 60000) mod 60
  /\ 0 <= tod < 86400000.
Proof.
  unfold JS.TimeWithinDay, JS.HourFromTime, JS.MinFromTime, JS.msPerDay, JS.msPerHour, JS.msPerMinute.
  cbv zeta.
  assert (Hd : 0 <= t mod 86400000 < 86400000) by (apply Z.mod_pos_bound; lia).
  repeat split; try lia.
  - rewrite (div_of_day t 3600000 ltac:(lia) 24 ltac:(lia)).
    change (3600000 * 24) with 86400000.
    apply Z.mod_small. split.
    + apply Z.div_pos; lia.
    + apply Z.div_lt_upper_bound; lia.
  - rewrite (div_of_day t 60000 ltac:(lia) 60 ltac:(lia)).
    rewrite (div_of_day (t mod 86400000) 60000 ltac:(lia) 60 ltac:(lia)).
    change (60000 * 60) with 3600000.
    replace 86400000 with (3600000 * 24) by lia.
    rewrite Z.rem_mul_r by lia.
    rewrite (Z.mul_comm 3600000), Z.mod_add by lia.
    rewrite Z.mod_mod by lia. reflexivity.
Qed.

Lemma checkinStatus_by_minute now :
  checkinStatus LocalTZA now = if 33360000 <=? timeOfDay LocalTZA now then late else present.
Proof.
  unfold checkinStatus, getHours, getMinutes, timeOfDay.
  destruct (hour_minute_of_day (LocalTime LocalTZA now)) as (Hh & Hm & Hb).
  cbv zeta in *. rewrite Hh, Hm.
  set (tod := JS.TimeWithinDay (LocalTime LocalTZA now)) in *.
  pose proof (Z.div_mod tod 3600000 ltac:(lia)) as D1.
  pose proof (Z.mod_pos_bound tod 3600000 ltac:(lia)) as B1.
  pose proof (Z.div_mod tod 60000 ltac:(lia)) as D2.
  pose proof (Z.mod_pos_bound tod 60000 ltac:(lia)) as B2.
  pose proof (Z.div_mod (tod / 60000) 60 ltac:(lia)) as D3.
  pose proof (Z.mod_pos_bound (tod / 60000) 60 ltac:(lia)) as B3.
  assert (E : tod / 60000 / 60 = tod / 3600000)
    by (rewrite Z.div_div by lia; reflexivity).
  rewrite E in D3.
  destruct (Z.leb_spec 33360000 tod);
  destruct (Z.ltb_spec 9 (tod / 3600000)); destruct (Z.eqb_spec (tod / 3600000) 9);
  destruct (Z.ltb_spec 15 ((tod / 60000) mod 60)); simpl; try reflexivity; exfalso; lia.
Qed.
End TimeOfDay.

(* ------------------------------------------------------------------ *)
(** ** The counters of the summaries *)

Section Counters.
Variable regexTest : string -> string -> bool.

Lemma orgTallyRecord_absent acc r :
  snd (fst (orgTallyRecord acc r)) = snd (fst acc).
Proof. destruct acc as [[[p l] a] h]. unfold orgTallyRecord. destruct (status r); reflexivity. Qed.

Lemma fold_orgTallyRecord_absent rs acc :
  snd (fst (fold_left orgTallyRecord rs acc)) = snd (fst acc).
Proof.
  revert acc. induction rs as [|r rs IH]; intro acc; simpl; [reflexivity|].
  rewrite IH. apply orgTallyRecord_absent.
Qed.

Lemma fold_orgTallyEmployee_absent storage month emps acc :
  snd (fst (fold_left (orgTallyEmployee regexTest storage month) emps acc)) = snd (fst acc).
Proof.
  revert acc. induction emps as [|e emps IH]; intro acc; simpl; [reflexivity|].
  rewrite IH. unfold orgTallyEmployee. apply fold_orgTallyRecord_absent.
Qed.

End Counters.

(* ------------------------------------------------------------------ *)
(** ** Records per user and day *)

Lemma createAttendance_inr storage uuid now ins a storage' :
  createAttendance storage uuid now ins = inr (a, storage') ->
  a = mkAttendance uuid (i_userId ins) (i_date ins) (i_checkInTime ins)
        (i_checkOutTime ins) (i_status ins) (i_totalHours ins) now.
Proof.
  destruct storage as [st|st]; simpl.
  - intros H. injection H as <- _. reflexivity.
  - unfold MongoStorage.createAttendance.
    destruct (negb _); [discriminate|].
    destruct (MongoStorage.attendanceConflict _ _); [discriminate|].
    intros H. injection H as <- _. reflexivity.
Qed.

Lemma find_hasKey_none u d l :
  find (fun a => String.eqb (userId a) u && String.eqb (date a) d) l = None ->
  keyCount u d l = 0%nat.
Proof.
  unfold keyCount, hasKey. induction l as [|x xs IH]; simpl; [reflexivity|].
  destruct (_ && _); [discriminate|]. exact IH.
Qed.

Lemma find_hasKey_some u d l a :
  find (fun a => String.eqb (userId a) u && String.eqb (date a) d) l = Some a ->
  In a l /\ userId a = u /\ date a = d.
Proof.
  intros H. apply find_some in H. destruct H as [Hin H].
  apply andb_true_iff in H. destruct H as [H1 H2].
  apply String.eqb_eq in H1, H2. auto.
Qed.

Lemma getByUserAndDate_records storage u d :
  getAttendanceByUserAndDate storage u d
  = find (fun a => String.eqb (userId a) u && String.eqb (date a) d) (records storage).
Proof. destruct storage; reflexivity. Qed.

Lemma keyCount_cons u d x xs :
  keyCount u d (x :: xs) = ((if hasKey u d x then 1 else 0) + keyCount u d xs)%nat.
Proof. unfold keyCount. simpl. destruct (hasKey u d x); reflexivity. Qed.

Lemma keyCount_app u d xs ys :
  keyCount u d (xs ++ ys) = (keyCount u d xs + keyCount u d ys)%nat.
Proof. unfold keyCount. rewrite filter_app, length_app. reflexivity. Qed.

Lemma keyCount_Map_set_le u d k v m :
  (keyCount u d (MemStorage.Map_values (MemStorage.Map_set k v m))
   <= keyCount u d (MemStorage.Map_values m) + (if hasKey u d v then 1 else 0))%nat.
Proof.
  unfold MemStorage.Map_values.
  induction m as [|[k' v'] m IH]; simpl.
  - rewrite keyCount_cons. unfold keyCount. simpl. lia.
  - destruct (String.eqb k' k); simpl; rewrite !keyCount_cons.
    + destruct (hasKey u d v), (hasKey u d v'); lia.
    + lia.
Qed.

Lemma keyCount_Map_set_same u d k v e m :
  MemStorage.Map_get k m = Some e -> hasKey u d v = hasKey u d e ->
  keyCount u d (MemStorage.Map_values (MemStorage.Map_set k v m))
  = keyCount u d (MemStorage.Map_values m).
Proof.
  unfold MemStorage.Map_values. intros Hg Hk.
  induction m as [|[k' v'] m IH]; simpl in *; [discriminate|].
  destruct (String.eqb k' k); simpl; rewrite !keyCount_cons.
  - injection Hg as ->. rewrite Hk. reflexivity.
  - rewrite IH by assumption. reflexivity.
Qed.

Lemma keyCount_replaceFirst_same u d p v e l :
  find p l = Some e -> hasKey u d v = hasKey u d e ->
  keyCount u d (MongoStorage.replaceFirst p v l) = keyCount u d l.
Proof.
  intros Hf Hk. induction l as [|x xs IH]; simpl in *; [discriminate|].
  destruct (p x); rewrite !keyCount_cons.
  - injection Hf as ->. rewrite Hk. reflexivity.
  - rewrite IH by assumption. reflexivity.
Qed.

Lemma hasKey_merge_checkout u d now a e :
  hasKey u d (merge e (checkoutUpdates now a)) = hasKey u d e.
Proof. reflexivity. Qed.

Section KeyCounts.
Variable LocalTZA : Z -> bool -> Z.
Variable toLowerCase : string -> string.

Lemma createUser_records storage uuid hp now iu u storage' :
  createUser toLowerCase storage uuid hp now iu = inr (u, storage') -> records storage' = records storage.
Proof.
  destruct storage as [st|st]; simpl.
  - intros H. injection H as _ <-. reflexivity.
  - unfold MongoStorage.createUser.
    destruct (negb _); [discriminate|].
    destruct (MongoStorage.userConflict _ _); [discriminate|].
    intros H. injection H as _ <-. reflexivity.
Qed.

Lemma register_records storage clk uuid hp token body :
  records (snd (register toLowerCase storage clk uuid hp token body)) = records storage.
Proof.
  unfold register.
  repeat match goal with
  | |- context [match ?x with _ => _ end] => destruct x eqn:?; try reflexivity
  end.
  simpl. eapply createUser_records. eassumption.
Qed.

Lemma checkin_keyCount storage clk uuid userId' u d :
  (keyCount u d (records storage) <= 1)%nat ->
  (keyCount u d (records (snd (checkin LocalTZA storage clk uuid userId'))) <= 1)%nat.
Proof.
  intros H. unfold checkin.
  rewrite getByUserAndDate_records.
  destruct (find _ _) eqn:Hf; [exact H|].
  apply find_hasKey_none in Hf.
  destruct (createAttendance _ _ _ _) as [e|[a st']] eqn:Hc; [exact H|].
  simpl.
  pose proof (createAttendance_inr _ _ _ _ _ _ Hc) as Ha. simpl in Ha.
  assert (Hk : hasKey u d a = true -> keyCount u d (records storage) = 0%nat).
  { subst a. unfold hasKey. simpl. intros E. apply andb_true_iff in E.
    destruct E as [E1 E2]. apply String.eqb_eq in E1, E2. subst. exact Hf. }
  destruct storage as [st|st]; simpl in Hc.
  - injection Hc as Ea <-. simpl.
    pose proof (keyCount_Map_set_le u d uuid a (MemStorage.attendance st)) as Hle.
    rewrite Ea in *. simpl in *.
    destruct (hasKey u d a) eqn:E; [rewrite (Hk eq_refl) in Hle|]; lia.
  - unfold MongoStorage.createAttendance in Hc.
    destruct (negb _); [discriminate|].
    destruct (MongoStorage.attendanceConflict _ _); [discriminate|].
    injection Hc as Ea <-. simpl. rewrite keyCount_app, Ea.
    rewrite keyCount_cons. unfold keyCount at 2. simpl in *.
    destruct (hasKey u d a) eqn:E; [rewrite (Hk eq_refl)|]; lia.
Qed.

Lemma checkout_keyCount storage clk userId' u d :
  keyCount u d (records (snd (checkout storage clk userId'))) = keyCount u d (records storage).
Proof.
  unfold checkout.
  destruct (getAttendanceByUserAndDate _ _ _) as [a|]; [|reflexivity].
  destruct (checkOutTime a); [reflexivity|].
  destruct (updateAttendance _ _ _) as [e|[up st']] eqn:Hu; [reflexivity|].
  simpl. destruct storage as [st|st]; simpl in Hu.
  - unfold MemStorage.updateAttendance in Hu.
    destruct (MemStorage.Map_get _ _) as [e|] eqn:Hg.
    + injection Hu as _ <-. simpl.
      eapply keyCount_Map_set_same; [eassumption|]. apply hasKey_merge_checkout.
    + injection Hu as _ <-. reflexivity.
  - unfold MongoStorage.updateAttendance in Hu.
    destruct (find _ _) as [e|] eqn:Hg.
    + destruct (MongoStorage.attendanceConflict _ _); [discriminate|].
      injection Hu as _ <-. simpl.
      eapply keyCount_replaceFirst_same; [eassumption|]. apply hasKey_merge_checkout.
    + injection Hu as _ <-. reflexivity.
Qed.

Lemma step_atMostOnePerDay storage storage' :
  step LocalTZA toLowerCase storage storage' -> atMostOnePerDay storage -> atMostOnePerDay storage'.
Proof.
  intros Hs Hi u d. destruct Hs.
  - rewrite register_records. apply Hi.
  - apply checkin_keyCount. apply Hi.
  - rewrite checkout_keyCount. apply Hi.
Qed.

End KeyCounts.

(* ------------------------------------------------------------------ *)
(** ** Updates of a well-formed store *)

Lemma existsb_eqb_In x l : existsb (String.eqb x) l = true <-> In x l.
Proof.
  rewrite existsb_exists. split.
  - intros (y & Hy & E). apply String.eqb_eq in E. subst. exact Hy.
  - intros H. exists x. split; [exact H | apply String.eqb_refl].
Qed.

Lemma Map_get_of_value (m : list (string * Attendance)) a :
  distinctb (map fst m) = true ->
  forallb (fun e => String.eqb (id (snd e)) (fst e)) m = true ->
  In a (map snd m) -> MemStorage.Map_get (id a) m = Some a.
Proof.
  induction m as [|[k v] m IH]; simpl; [contradiction|].
  intros Hd Hf Hin.
  apply andb_true_iff in Hd. destruct Hd as [Hk Hd].
  apply andb_true_iff in Hf. destruct Hf as [Hv Hf].
  apply String.eqb_eq in Hv.
  destruct (String.eqb k (id a)) eqn:E.
  - apply String.eqb_eq in E. destruct Hin as [->|Hin]; [reflexivity|].
    exfalso. apply negb_true_iff in Hk.
    assert (In k (map fst m)) as Hc.
    { apply in_map_iff in Hin. destruct Hin as ([k' v'] & Ev & He). simpl in Ev. subst v'.
      rewrite forallb_forall in Hf. pose proof (Hf _ He) as Hid. simpl in Hid.
      apply String.eqb_eq in Hid. apply in_map_iff. exists (k', a). simpl. split; [congruence|exact He]. }
    apply existsb_eqb_In in Hc. congruence.
  - destruct Hin as [->|Hin].
    + rewrite Hv, String.eqb_refl in E. discriminate.
    + apply IH; assumption.
Qed.

Lemma Map_values_set (m : list (string * Attendance)) k v :
  forallb (fun e => String.eqb (id (snd e)) (fst e)) m = true ->
  In k (map fst m) ->
  MemStorage.Map_values (MemStorage.Map_set k v m)
  = MongoStorage.replaceFirst (fun x => String.eqb (id x) k) v (MemStorage.Map_values m).
Proof.
  unfold MemStorage.Map_values.
  induction m as [|[k' v'] m IH]; simpl; [contradiction|].
  intros Hf Hin. apply andb_true_iff in Hf. destruct Hf as [Hv Hf].
  apply String.eqb_eq in Hv. rewrite Hv.
  destruct (String.eqb k' k) eqn:E; simpl; [reflexivity|].
  f_equal. apply IH; [exact Hf|].
  destruct Hin as [->|Hin]; [|exact Hin]. rewrite String.eqb_refl in E. discriminate.
Qed.

Lemma Map_get_In_key {V} (m : list (string * V)) k v :
  MemStorage.Map_get k m = Some v -> In k (map fst m).
Proof.
  induction m as [|[k' v'] m IH]; simpl; [discriminate|].
  destruct (String.eqb k' k) eqn:E.
  - apply String.eqb_eq in E. auto.
  - auto.
Qed.

Lemma find_by_id_distinct (l : list Attendance) a :
  distinctb (map id l) = true -> In a l ->
  find (fun x => String.eqb (id x) (id a)) l = Some a.
Proof.
  induction l as [|x xs IH]; simpl; [contradiction|].
  intros Hd Hin. apply andb_true_iff in Hd. destruct Hd as [Hx Hd].
  apply negb_true_iff in Hx.
  destruct (String.eqb (id x) (id a)) eqn:E.
  - destruct Hin as [->|Hin]; [reflexivity|]. exfalso.
    apply String.eqb_eq in E.
    assert (In (id x) (map id xs)) as Hc by (rewrite E; apply in_map; exact Hin).
    apply existsb_eqb_In in Hc. congruence.
  - destruct Hin as [->|Hin]; [rewrite String.eqb_refl in E; discriminate|].
    apply IH; assumption.
Qed.

Lemma dropFirst_no_id (l : list Attendance) a :
  distinctb (map id l) = true -> In a l ->
  forall d, In d (MongoStorage.dropFirst (fun x => String.eqb (id x) (id a)) l) ->
  String.eqb (id d) (id a) = false.
Proof.
  induction l as [|x xs IH]; simpl; [contradiction|].
  intros Hd Hin d Hdin. apply andb_true_iff in Hd. destruct Hd as [Hx Hd].
  apply negb_true_iff in Hx.
  destruct (String.eqb (id x) (id a)) eqn:E.
  - apply String.eqb_eq in E.
    destruct (String.eqb (id d) (id a)) eqn:E2; [|reflexivity]. exfalso.
    apply String.eqb_eq in E2.
    assert (In (id x) (map id xs)) as Hc by (rewrite E, <- E2; apply in_map; exact Hdin).
    apply existsb_eqb_In in Hc. congruence.
  - destruct Hin as [->|Hin]; [rewrite String.eqb_refl in E; discriminate|].
    destruct Hdin as [->|Hdin]; [exact E|]. apply IH; assumption.
Qed.

Lemma keyCount_dropFirst u d p (l : list Attendance) a :
  find p l = Some a ->
  keyCount u d l = ((if hasKey u d a then 1 else 0) + keyCount u d (MongoStorage.dropFirst p l))%nat.
Proof.
  induction l as [|x xs IH]; simpl; [discriminate|].
  destruct (p x).
  - intros H. injection H as ->. rewrite keyCount_cons. reflexivity.
  - intros H. rewrite !keyCount_cons, (IH H). lia.
Qed.

Lemma keyCount_zero_notIn u d l x :
  keyCount u d l = 0%nat -> In x l -> hasKey u d x = false.
Proof.
  induction l as [|y ys IH]; simpl; [contradiction|].
  rewrite keyCount_cons. intros Hc [->|Hin].
  - destruct (hasKey u d x); [discriminate|reflexivity].
  - apply IH; [|exact Hin]. destruct (hasKey u d y); [discriminate|exact Hc].
Qed.

Lemma hasKey_self a : hasKey (userId a) (date a) a = true.
Proof. unfold hasKey. rewrite !String.eqb_refl. reflexivity. Qed.

(** A well-formed store applies the update of a check-out to the record
    found for the user and the day. *)
Lemma updateAttendance_wellFormed storage a now :
  wellFormed storage = true -> In a (records storage) ->
  let updated := merge a (checkoutUpdates now a) in
  exists storage',
    updateAttendance storage (id a) (checkoutUpdates now a) = inr (Some updated, storage')
    /\ records storage'
       = MongoStorage.replaceFirst (fun x => String.eqb (id x) (id a)) updated (records storage).
Proof.
  intros Hwf Hin updated. destruct storage as [st|st]; simpl in *.
  - apply andb_true_iff in Hwf. destruct Hwf as [Hd Hf].
    unfold MemStorage.updateAttendance.
    pose proof (Map_get_of_value _ _ Hd Hf Hin) as Hg. rewrite Hg.
    eexists. split; [reflexivity|]. simpl.
    apply Map_values_set; [exact Hf|]. eapply Map_get_In_key; eassumption.
  - apply andb_true_iff in Hwf. destruct Hwf as [Hd Hf].
    unfold MongoStorage.updateAttendance.
    pose proof (find_by_id_distinct _ _ Hd Hin) as Hg. rewrite Hg.
    assert (Hno : MongoStorage.attendanceConflict
              (MongoStorage.dropFirst (fun x => String.eqb (id x) (id a)) (MongoStorage.attendance st))
              (merge a (checkoutUpdates now a)) = false).
    { unfold MongoStorage.attendanceConflict.
      apply not_true_iff_false. intros Hex. apply existsb_exists in Hex.
      destruct Hex as (x & Hx & Hc).
      pose proof (dropFirst_no_id _ _ Hd Hin x Hx) as Hid.
      rewrite forallb_forall in Hf. pose proof (Hf _ Hin) as H1.
      apply Nat.eqb_eq in H1.
      rewrite (keyCount_dropFirst _ _ _ _ _ Hg), hasKey_self in H1.
      assert (H0 : keyCount (userId a) (date a)
                (MongoStorage.dropFirst (fun x => String.eqb (id x) (id a)) (MongoStorage.attendance st)) = 0%nat) by lia.
      pose proof (keyCount_zero_notIn _ _ _ _ H0 Hx) as Hk.
      unfold MongoStorage.sameId, MongoStorage.sameUserAndDate in Hc. simpl in Hc.
      unfold hasKey in Hk. rewrite Hid, Hk in Hc. discriminate. }
    rewrite Hno. eexists. split; reflexivity.
Qed.

Lemma checkout_success storage clk userId' a :
  wellFormed storage = true ->
  getAttendanceByUserAndDate storage userId' (getStartOfDay (clk 0%nat)) = Some a ->
  checkOutTime a = None ->
  let updated := merge a (checkoutUpdates (clk 1%nat) a) in
  exists storage',
    checkout storage clk userId' = (Sent 200 (Some updated), storage')
    /\ records storage'
       = MongoStorage.replaceFirst (fun x => String.eqb (id x) (id a)) updated (records storage).
Proof.
  intros Hwf Hg Hout updated. unfold checkout. rewrite Hg, Hout.
  rewrite getByUserAndDate_records in Hg. apply find_hasKey_some in Hg.
  destruct Hg as (Hin & _).
  destruct (updateAttendance_wellFormed storage a (clk 1%nat) Hwf Hin) as (st' & Hu & Hr).
  rewrite Hu. exists st'. split; [reflexivity|exact Hr].
Qed.

(* ------------------------------------------------------------------ *)
(** ** Well-formedness is kept by every request *)

Lemma Map_set_keys {V} (m : list (string * V)) k v :
  map fst (MemStorage.Map_set k v m)
  = if existsb (String.eqb k) (map fst m) then map fst m else (map fst m ++ [k])%list.
Proof.
  induction m as [|[k' v'] m IH]; simpl; [reflexivity|].
  rewrite (String.eqb_sym k k').
  destruct (String.eqb k' k) eqn:E; simpl.
  - apply String.eqb_eq in E. subst. reflexivity.
  - rewrite IH. destruct (existsb _ _); reflexivity.
Qed.

Lemma distinctb_snoc l k :
  distinctb l = true -> existsb (String.eqb k) l = false -> distinctb (l ++ [k])%list = true.
Proof.
  induction l as [|x xs IH]; simpl; [reflexivity|].
  intros Hd Hk. apply andb_true_iff in Hd. destruct Hd as [Hx Hd].
  apply orb_false_iff in Hk. destruct Hk as [Hkx Hk].
  rewrite existsb_app. simpl. rewrite (String.eqb_sym x k), Hkx.
  apply negb_true_iff in Hx. rewrite Hx. simpl. apply IH; assumption.
Qed.

Lemma forallb_Map_set (m : list (string * Attendance)) k v :
  forallb (fun e => String.eqb (id (snd e)) (fst e)) m = true -> id v = k ->
  forallb (fun e => String.eqb (id (snd e)) (fst e)) (MemStorage.Map_set k v m) = true.
Proof.
  intros Hf Hv. induction m as [|[k' v'] m IH]; simpl in *.
  - rewrite Hv, String.eqb_refl. reflexivity.
  - apply andb_true_iff in Hf. destruct Hf as [H1 H2].
    destruct (String.eqb k' k); simpl.
    + rewrite Hv, String.eqb_refl. exact H2.
    + rewrite H1. apply IH. exact H2.
Qed.

Lemma Map_get_id (m : list (string * Attendance)) k e :
  forallb (fun e => String.eqb (id (snd e)) (fst e)) m = true ->
  MemStorage.Map_get k m = Some e -> id e = k.
Proof.
  induction m as [|[k' v'] m IH]; simpl; [discriminate|].
  intros Hf. apply andb_true_iff in Hf. destruct Hf as [H1 H2].
  destruct (String.eqb k' k) eqn:E.
  - intros H. injection H as <-. apply String.eqb_eq in H1, E. congruence.
  - apply IH. exact H2.
Qed.

Lemma Mem_wellFormed_set st k v :
  wellFormed (Mem st) = true -> id v = k ->
  wellFormed (Mem (MemStorage.mk (MemStorage.users st)
                     (MemStorage.Map_set k v (MemStorage.attendance st)))) = true.
Proof.
  simpl. intros Hwf Hv. apply andb_true_iff in Hwf. destruct Hwf as [Hd Hf].
  apply andb_true_iff. split.
  - rewrite Map_set_keys. destruct (existsb _ _) eqn:E; [exact Hd|].
    apply distinctb_snoc; assumption.
  - apply forallb_Map_set; assumption.
Qed.

Lemma hasKey_sym a b :
  hasKey (userId a) (date a) b = MongoStorage.sameUserAndDate a b.
Proof.
  unfold hasKey, MongoStorage.sameUserAndDate.
  rewrite (String.eqb_sym (userId b)), (String.eqb_sym (date b)). reflexivity.
Qed.

Lemma conflict_false docs a :
  MongoStorage.attendanceConflict docs a = false ->
  existsb (String.eqb (id a)) (map id docs) = false
  /\ keyCount (userId a) (date a) docs = 0%nat
  /\ forall d, In d docs -> hasKey (userId d) (date d) a = false.
Proof.
  unfold MongoStorage.attendanceConflict.
  induction docs as [|x xs IH]; simpl.
  { intros _. repeat split. intros d []. }
  intros H. apply orb_false_iff in H. destruct H as [Hx Hxs].
  apply orb_false_iff in Hx. destruct Hx as [Hid Hkey].
  destruct (IH Hxs) as (I1 & I2 & I3).
  unfold MongoStorage.sameId in Hid. rewrite (String.eqb_sym (id a)), Hid. simpl.
  repeat split.
  - exact I1.
  - rewrite keyCount_cons, I2.
    unfold hasKey. unfold MongoStorage.sameUserAndDate in Hkey. rewrite Hkey. reflexivity.
  - intros d [<-|Hd]; [rewrite hasKey_sym; exact Hkey | apply I3; exact Hd].
Qed.

Lemma Mongo_wellFormed_append st a :
  wellFormed (Mongo st) = true ->
  MongoStorage.attendanceConflict (MongoStorage.attendance st) a = false ->
  wellFormed (Mongo (MongoStorage.mk (MongoStorage.users st)
                       (MongoStorage.attendance st ++ [a]))) = true.
Proof.
  simpl. intros Hwf Hc. apply andb_true_iff in Hwf. destruct Hwf as [Hd Hf].
  destruct (conflict_false _ _ Hc) as (C1 & C2 & C3).
  apply andb_true_iff. split.
  - rewrite map_app. simpl. apply distinctb_snoc; assumption.
  - rewrite forallb_app. simpl. apply andb_true_iff. split.
    + rewrite forallb_forall in *. intros d Hd'.
      rewrite keyCount_app, keyCount_cons, (C3 d Hd'). unfold keyCount at 2. simpl.
      pose proof (Hf d Hd') as H1. apply Nat.eqb_eq in H1. apply Nat.eqb_eq. lia.
    + rewrite keyCount_app, C2, keyCount_cons, hasKey_self. reflexivity.
Qed.

Lemma replaceFirst_ids p (v e : Attendance) l :
  find p l = Some e -> id v = id e ->
  map id (MongoStorage.replaceFirst p v l) = map id l.
Proof.
  induction l as [|x xs IH]; simpl; [discriminate|].
  destruct (p x); intros H Hv.
  - injection H as ->. simpl. rewrite Hv. reflexivity.
  - simpl. rewrite IH by assumption. reflexivity.
Qed.

Lemma replaceFirst_In {A} p (v : A) l x :
  In x (MongoStorage.replaceFirst p v l) -> x = v \/ In x l.
Proof.
  induction l as [|y ys IH]; simpl; [contradiction|].
  destruct (p y); simpl.
  - intros [<-|H]; auto.
  - intros [<-|H]; auto. destruct (IH H); auto.
Qed.

Lemma Mongo_wellFormed_update st id' a now u st' :
  wellFormed (Mongo st) = true ->
  MongoStorage.updateAttendance st id' (checkoutUpdates now a) = inr (u, st') ->
  wellFormed (Mongo st') = true.
Proof.
  intros Hwf. unfold MongoStorage.updateAttendance.
  destruct (find _ _) as [e|] eqn:Hg.
  - destruct (MongoStorage.attendanceConflict _ _); [discriminate|].
    intros H. injection H as _ <-. simpl in *.
    apply andb_true_iff in Hwf. destruct Hwf as [Hd Hf].
    apply andb_true_iff. split.
    + erewrite replaceFirst_ids; [exact Hd|eassumption|reflexivity].
    + rewrite forallb_forall in *. intros x Hx.
      rewrite (keyCount_replaceFirst_same _ _ _ _ _ _ Hg) by apply hasKey_merge_checkout.
      apply replaceFirst_In in Hx. destruct Hx as [->|Hx].
      * apply find_some in Hg. exact (Hf e (proj1 Hg)).
      * exact (Hf x Hx).
  - intros H. injection H as _ <-. exact Hwf.
Qed.

Section WellFormed.
Variable LocalTZA : Z -> bool -> Z.
Variable toLowerCase : string -> string.

Lemma createUser_wellFormed storage uuid hp now iu u storage' :
  createUser toLowerCase storage uuid hp now iu = inr (u, storage') ->
  wellFormed storage' = wellFormed storage.
Proof.
  destruct storage as [st|st]; simpl.
  - intros H. injection H as _ <-. reflexivity.
  - unfold MongoStorage.createUser.
    destruct (negb _); [discriminate|].
    destruct (MongoStorage.userConflict _ _); [discriminate|].
    intros H. injection H as _ <-. reflexivity.
Qed.

Lemma register_wellFormed storage clk uuid hp token body :
  wellFormed (snd (register toLowerCase storage clk uuid hp token body)) = wellFormed storage.
Proof.
  unfold register.
  repeat match goal with
  | |- context [match ?x with _ => _ end] => destruct x eqn:?; try reflexivity
  end.
  simpl. eapply createUser_wellFormed. eassumption.
Qed.

Lemma step_wellFormed storage storage' :
  step LocalTZA toLowerCase storage storage' -> wellFormed storage = true -> wellFormed storage' = true.
Proof.
  intros Hs Hwf. destruct Hs.
  - rewrite register_wellFormed. exact Hwf.
  - unfold checkin.
    destruct (getAttendanceByUserAndDate _ _ _); [exact Hwf|].
    destruct (createAttendance _ _ _ _) as [e|[a st']] eqn:Hc; [exact Hwf|].
    simpl. destruct storage as [st|st]; simpl in Hc.
    + injection Hc as <- <-. apply Mem_wellFormed_set; [exact Hwf|reflexivity].
    + unfold MongoStorage.createAttendance in Hc.
      destruct (negb _); [discriminate|].
      destruct (MongoStorage.attendanceConflict _ _) eqn:Hcf; [discriminate|].
      injection Hc as <- <-. apply Mongo_wellFormed_append; assumption.
  - unfold checkout.
    destruct (getAttendanceByUserAndDate _ _ _) as [a|]; [|exact Hwf].
    destruct (checkOutTime a); [exact Hwf|].
    destruct (updateAttendance _ _ _) as [e|[up st']] eqn:Hu; [exact Hwf|].
    simpl. destruct storage as [st|st]; simpl in Hu.
    + unfold MemStorage.updateAttendance in Hu.
      destruct (MemStorage.Map_get _ _) as [e|] eqn:Hg.
      * injection Hu as _ <-. apply Mem_wellFormed_set; [exact Hwf|].
        simpl in Hwf. apply andb_true_iff in Hwf. destruct Hwf as [_ Hf].
        simpl. eapply Map_get_id; eassumption.
      * injection Hu as _ <-. exact Hwf.
    + destruct (MongoStorage.updateAttendance _ _ _) as [e|[up' st'']] eqn:Hm; [discriminate|].
      injection Hu as _ <-. eapply Mongo_wellFormed_update; eassumption.
Qed.
End WellFormed.

(* ------------------------------------------------------------------ *)
(** ** The arithmetic of a check-out *)

Lemma to_Z_of_Z_small z : 0 <= z < 2 ^ 62 -> Uint63.to_Z (Uint63.of_Z z) = z.
Proof.
  intros H. rewrite Uint63.of_Z_spec. apply Z.mod_small.
  change Uint63.wB with (2 ^ 63). lia.
Qed.

Lemma int_add_of_Z (s : int) (a b : Z) :
  (s + Uint63.of_Z a + Uint63.of_Z b)%uint63 = (s + Uint63.of_Z (a + b))%uint63.
Proof.
  apply Uint63.to_Z_inj. rewrite !Uint63.add_spec, !Uint63.of_Z_spec.
  set (x := Uint63.to_Z s). set (w := Uint63.wB).
  rewrite (Zplus_mod_idemp_l (x + a mod w)), (Zplus_mod_idemp_r b).
  rewrite (Zplus_mod_idemp_r (a + b)).
  replace (x + a mod w + b) with (x + b + a mod w) by lia.
  rewrite (Zplus_mod_idemp_r a). f_equal. lia.
Qed.

Lemma int_add_zero (s : int) : (s + Uint63.of_Z 0)%uint63 = s.
Proof.
  apply Uint63.to_Z_inj. rewrite Uint63.add_spec, Uint63.of_Z_spec.
  rewrite Zplus_mod_idemp_r, Z.add_0_r. apply Z.mod_small. apply Uint63.to_Z_bounded.
Qed.

Lemma checkRun_sound fuel s :
  checkRun fuel s = true ->
  forall k, 0 <= k < Z.of_nat fuel -> checkMs (s + Uint63.of_Z k)%uint63 = true.
Proof.
  revert s. induction fuel as [|fuel IH]; intros s H k Hk; [lia|].
  change ((if checkMs s then checkRun fuel (s + 1)%uint63 else false) = true) in H.
  destruct (checkMs s) eqn:H0; [|discriminate].
  destruct (Z.eq_dec k 0) as [->|Hne].
  - rewrite int_add_zero. exact H0.
  - replace k with (1 + (k - 1)) by lia.
    rewrite <- int_add_of_Z. apply IH; [exact H|lia].
Qed.

Lemma checkRuns_sound blocks s :
  checkRuns blocks s = true ->
  forall k, 0 <= k < 1000 * Z.of_nat blocks -> checkMs (s + Uint63.of_Z k)%uint63 = true.
Proof.
  revert s. induction blocks as [|blocks IH]; intros s H k Hk; [lia|].
  change ((if checkRun 1000 s then checkRuns blocks (s + 1000)%uint63 else false) = true) in H.
  destruct (checkRun 1000 s) eqn:H0; [|discriminate].
  destruct (Z_lt_ge_dec k 1000) as [Hlt|Hge].
  - apply (checkRun_sound 1000 s H0).
    change (Z.of_nat 1000) with 1000. lia.
  - replace k with (1000 + (k - 1000)) by lia.
    rewrite <- int_add_of_Z. apply IH; [exact H|lia].
Qed.

(** Every elapsed time below 25 hours, one by one. *)
Lemma checkRuns_all : checkRuns (Z.to_nat 90000) 0%uint63 = true.
Proof. vm_cast_no_check (eq_refl true). Qed.

Lemma checkMs_all k : 0 <= k < 90000000 -> checkMs (Uint63.of_Z k) = true.
Proof.
  intros Hk.
  assert (Hb : 0 <= k < 1000 * Z.of_nat (Z.to_nat 90000)) by (rewrite Z2Nat.id; lia).
  pose proof (checkRuns_sound (Z.to_nat 90000) 0%uint63 checkRuns_all k Hb) as H.
  replace (0 + Uint63.of_Z k)%uint63 with (Uint63.of_Z k) in H; [exact H|].
  apply Uint63.to_Z_inj. rewrite Uint63.add_spec.
  change (Uint63.to_Z 0) with 0. rewrite Z.add_0_l.
  symmetry. apply Z.mod_small. apply Uint63.to_Z_bounded.
Qed.

Lemma float_of_Z_nonneg z : 0 <= z -> JS.float_of_Z z = PrimFloat.of_uint63 (Uint63.of_Z z).
Proof.
  intros H. unfold JS.float_of_Z. destruct (Z.ltb_spec z 0); [lia|reflexivity].
Qed.

(** Within 25 hours of the check-in (90000000 ms), the stored [totalHours]
    is the elapsed time rounded half-up to one decimal, and the test
    [totalHours < 4] is the elapsed time being short of four hours. *)
Lemma checkout_arithmetic now t :
  0 <= now - t < 90000000 ->
  round1 (elapsedHours now (Some t)) = oneDecimal (halfUpTenths (now - t))
  /\ PrimFloat.ltb (elapsedHours now (Some t)) 4 = (now - t <? 14400000).
Proof.
  intros H. set (e := now - t) in *.
  pose proof (checkMs_all e H) as Hc.
  unfold checkMs in Hc. cbv zeta in Hc.
  destruct (Bool.eqb _ _) eqn:H2 in Hc; [|discriminate].
  rename Hc into H1.
  apply FloatAxioms.Leibniz.eqb_spec in H1. apply Bool.eqb_prop in H2.
  assert (He : Uint63.to_Z (Uint63.of_Z e) = e) by (apply to_Z_of_Z_small; lia).
  unfold elapsedHours, orElse. fold e.
  rewrite float_of_Z_nonneg by lia. fold (hoursOfMs (Uint63.of_Z e)).
  split.
  - rewrite H1. unfold oneDecimal, halfUpTenths.
    assert (0 <= (e + 180000) / 360000 < 2 ^ 62).
    { split; [apply Z.div_pos; lia|]. apply Z.div_lt_upper_bound; lia. }
    rewrite float_of_Z_nonneg by lia.
    f_equal. f_equal. apply Uint63.to_Z_inj.
    rewrite Uint63.div_spec, Uint63.add_spec, He, to_Z_of_Z_small by lia.
    change (Uint63.to_Z 180000) with 180000. change (Uint63.to_Z 360000) with 360000.
    rewrite Z.mod_small by (change Uint63.wB with (2 ^ 63); lia). reflexivity.
  - rewrite H2.
    destruct (Z.ltb_spec e 14400000) as [Hlt|Hge].
    + apply Uint63.ltb_spec. rewrite He. change (Uint63.to_Z 14400000) with 14400000. exact Hlt.
    + apply not_true_iff_false. intros Hx. apply Uint63.ltb_spec in Hx.
      rewrite He in Hx. change (Uint63.to_Z 14400000) with 14400000 in Hx. lia.
Qed.

(* ------------------------------------------------------------------ *)
(** ** Sorted queries *)

Section SortFacts.
Context {A : Type} (cmp : A -> A -> Z).

Lemma insert_sorted_In x y l : In y (insert_sorted cmp x l) <-> y = x \/ In y l.
Proof.
  induction l as [|z zs IH]; simpl.
  - intuition.
  - destruct (cmp x z <=? 0); simpl; [intuition|]. rewrite IH. intuition.
Qed.

Lemma sort_In y l : In y (sort cmp l) <-> In y l.
Proof.
  induction l as [|x xs IH]; simpl; [tauto|].
  unfold sort in *. simpl. rewrite insert_sorted_In, IH. intuition.
Qed.

Hypothesis cmp_total : forall x y, 0 < cmp x y -> cmp y x <= 0.

Lemma insert_sorted_sorted x l :
  LocallySorted (fun a b => cmp a b <= 0) l ->
  LocallySorted (fun a b => cmp a b <= 0) (insert_sorted cmp x l).
Proof.
  induction 1 as [|z|z w l Hs IH Hzw]; simpl.
  - constructor.
  - destruct (Z.leb_spec (cmp x z) 0).
    + constructor; [constructor|assumption].
    + constructor; [constructor|]. apply cmp_total. lia.
  - destruct (Z.leb_spec (cmp x z) 0).
    + constructor; [constructor; assumption|assumption].
    + simpl in IH. destruct (Z.leb_spec (cmp x w) 0).
      * constructor; [exact IH|]. apply cmp_total. lia.
      * constructor; [exact IH|assumption].
Qed.

Lemma sort_sorted l : LocallySorted (fun a b => cmp a b <= 0) (sort cmp l).
Proof.
  induction l as [|x xs IH]; [constructor|].
  unfold sort in *. simpl. apply insert_sorted_sorted. exact IH.
Qed.
End SortFacts.

Lemma Mem_byDateDesc_total x y :
  0 < MemStorage.byDateDesc x y -> MemStorage.byDateDesc y x <= 0.
Proof.
  unfold MemStorage.byDateDesc.
  destruct (JS.parseDate (date y)), (JS.parseDate (date x)); simpl; lia.
Qed.

Lemma Mongo_byDateDesc_total x y :
  0 < MongoStorage.byDateDesc x y -> MongoStorage.byDateDesc y x <= 0.
Proof.
  unfold MongoStorage.byDateDesc.
  rewrite (String.compare_antisym (date y) (date x)).
  destruct (String.compare (date x) (date y)); simpl; lia.
Qed.

Lemma filter_opt_In {A} (o : option string) (p : string -> A -> bool) l a :
  In a (match o with Some s => filter (p s) l | None => l end)
  <-> In a l /\ MongoStorage.holds o (fun s => p s a) = true.
Proof.
  destruct o; simpl; [apply filter_In|]. intuition.
Qed.

(** [MongoStorage.getAllAttendance] returns the records that satisfy every
    supplied filter, latest date text first, when the date filter comes without
    a range. *)
Lemma Mongo_getAllAttendance_spec regexTest st f :
  (JS.supplied (f_date f) = None
   \/ (JS.supplied (f_from f) = None /\ JS.supplied (f_to f) = None)) ->
  (forall a, In a (MongoStorage.getAllAttendance regexTest st f)
             <-> In a (records (Mongo st)) /\ satisfies f a = true)
  /\ LocallySorted (fun a b => MongoStorage.byDateDesc a b <= 0)
       (MongoStorage.getAllAttendance regexTest st f).
Proof.
  intros H. split.
  - intros a. unfold MongoStorage.getAllAttendance, satisfies, MongoStorage.find_.
    rewrite sort_In, filter_In. simpl.
    apply and_iff_compat_l.
    unfold MongoStorage.matches.
    destruct (JS.supplied (f_employeeId f)), (JS.supplied (f_date f)),
      (JS.supplied (f_status f)), (JS.supplied (f_from f)), (JS.supplied (f_to f));
      simpl; try (destruct H as [H|[H1 H2]]; discriminate);
      rewrite ?andb_true_iff; intuition.
  - apply sort_sorted. apply Mongo_byDateDesc_total.
Qed.

(* ------------------------------------------------------------------ *)
(** ** The claims *)

Lemma replaceFirst_hit {A} (p : A -> bool) v l x :
  In x l -> p x = true -> In v (MongoStorage.replaceFirst p v l).
Proof.
  induction l as [|y ys IH]; simpl; [contradiction|].
  intros Hin Hp. destruct (p y) eqn:E; simpl; [auto|].
  right. destruct Hin as [->|Hin]; [congruence|]. apply IH; assumption.
Qed.

Lemma find_hasKey_exists u d l a :
  In a l -> hasKey u d a = true ->
  exists b, find (fun a => String.eqb (userId a) u && String.eqb (date a) d) l = Some b.
Proof.
  intros Hin Hk. destruct (find _ l) as [b|] eqn:E; [eauto|].
  exfalso. apply (find_none _ _ E) in Hin. unfold hasKey in Hk. congruence.
Qed.

Lemma Map_set_In {V} (m : list (string * V)) k v :
  In v (MemStorage.Map_values (MemStorage.Map_set k v m)).
Proof.
  unfold MemStorage.Map_values.
  induction m as [|[k' v'] m IH]; simpl; [auto|].
  destruct (String.eqb k' k); simpl; auto.
Qed.

Lemma createAttendance_In storage uuid now ins a storage' :
  createAttendance storage uuid now ins = inr (a, storage') -> In a (records storage').
Proof.
  destruct storage as [st|st]; simpl.
  - intros H. injection H as <- <-. simpl. apply Map_set_In.
  - unfold MongoStorage.createAttendance.
    destruct (negb _); [discriminate|].
    destruct (MongoStorage.attendanceConflict _ _); [discriminate|].
    intros H. injection H as <- <-. simpl. apply in_or_app. right. left. reflexivity.
Qed.

Section Claims.
Variable LocalTZA : Z -> bool -> Z.
Variable regexTest : string -> string -> bool.
Variable toLowerCase : string -> string.

Lemma checkin_created storage clk uuid userId' r storage' :
  checkin LocalTZA storage clk uuid userId' = (Sent 201 r, storage') ->
  r = mkAttendance uuid userId' (getStartOfDay (clk 0%nat)) (Some (clk 1%nat)) None
        (checkinStatus LocalTZA (clk 1%nat)) None (clk 2%nat)
  /\ In r (records storage').
Proof.
  unfold checkin.
  destruct (getAttendanceByUserAndDate _ _ _); [discriminate|].
  destruct (createAttendance _ _ _ _) as [e|[a st']] eqn:Hc; [discriminate|].
  intros H. injection H as <- <-. split.
  - apply (createAttendance_inr _ _ _ _ _ _ Hc).
  - apply (createAttendance_In _ _ _ _ _ _ Hc).
Qed.

(** C1 (amended). The status of a check-in is decided by the local hour and
    minute alone: it is [late] exactly when the local time of day has reached
    09:16:00.000 (33360000 ms after midnight), and [present] before that. *)
Theorem checkin_status_by_minute storage clk uuid userId' r storage' :
  checkin LocalTZA storage clk uuid userId' = (Sent 201 r, storage') ->
  (status r = late <-> 33360000 <= timeOfDay LocalTZA (clk 1%nat))
  /\ (status r = present <-> timeOfDay LocalTZA (clk 1%nat) < 33360000).
Proof.
  intros H. apply checkin_created in H. destruct H as [-> _]. simpl.
  rewrite checkinStatus_by_minute.
  destruct (Z.leb_spec 33360000 (timeOfDay LocalTZA (clk 1%nat))); split; split;
    intros; try reflexivity; try discriminate; lia.
Qed.

(** C3. At a check-out the status becomes [half_day] when the elapsed hours
    computed by the handler are below 4, whatever the check-in status was, and
    stays the check-in status otherwise; within 25 hours of the check-in the
    test is that of the elapsed time against four hours (14400000 ms). *)
Theorem checkout_half_day_rule storage clk userId' a :
  wellFormed storage = true ->
  getAttendanceByUserAndDate storage userId' (getStartOfDay (clk 0%nat)) = Some a ->
  checkOutTime a = None ->
  exists updated storage',
    checkout storage clk userId' = (Sent 200 (Some updated), storage')
    /\ In updated (records storage')
    /\ status updated
       = (if PrimFloat.ltb (elapsedHours (clk 1%nat) (checkInTime a)) 4
          then half_day else status a)
    /\ (forall t, checkInTime a = Some t -> 0 <= clk 1%nat - t < 90000000 ->
        status updated = if clk 1%nat - t <? 14400000 then half_day else status a).
Proof.
  intros Hwf Hg Hout.
  destruct (checkout_success storage clk userId' a Hwf Hg Hout) as (st' & Hc & Hr).
  eexists. exists st'. split; [exact Hc|]. split; [|split].
  - rewrite Hr. rewrite getByUserAndDate_records in Hg. apply find_hasKey_some in Hg.
    eapply replaceFirst_hit; [exact (proj1 Hg)|apply String.eqb_refl].
  - reflexivity.
  - intros t Ht Hb. simpl. rewrite Ht.
    rewrite (proj2 (checkout_arithmetic (clk 1%nat) t Hb)). reflexivity.
Qed.

(** C6. No sequence of requests creates a second record for a user and a
    calendar day: the property holds of both empty stores and every step keeps
    it; a check-in that finds a record for the user and the day answers
    [AlreadyCheckedIn] and leaves the store as it was, which is the case of
    every later check-in of the same user on the day of a successful one. *)
Theorem one_record_per_user_and_day :
  atMostOnePerDay (Mem MemStorage.empty) /\ atMostOnePerDay (Mongo MongoStorage.empty)
  /\ (forall init storage,
        atMostOnePerDay init -> reachable LocalTZA toLowerCase init storage -> atMostOnePerDay storage)
  /\ (forall storage clk uuid userId' a,
        getAttendanceByUserAndDate storage userId' (getStartOfDay (clk 0%nat)) = Some a ->
        checkin LocalTZA storage clk uuid userId' = (AlreadyCheckedIn, storage))
  /\ (forall storage clk uuid userId' r storage1 clk' uuid',
        checkin LocalTZA storage clk uuid userId' = (Sent 201 r, storage1) ->
        getStartOfDay (clk' 0%nat) = getStartOfDay (clk 0%nat) ->
        checkin LocalTZA storage1 clk' uuid' userId' = (AlreadyCheckedIn, storage1)).
Proof.
  split; [intros u d; unfold keyCount; simpl; lia|].
  split; [intros u d; unfold keyCount; simpl; lia|].
  split; [|split].
  - intros init storage Hi Hr. induction Hr as [|s s' _ IH Hs]; [exact Hi|].
    eapply step_atMostOnePerDay; eassumption.
  - intros storage clk uuid userId' a Hg. unfold checkin. rewrite Hg. reflexivity.
  - intros storage clk uuid userId' r storage1 clk' uuid' Hc Hd.
    apply checkin_created in Hc. destruct Hc as [Hr Hin].
    assert (Hk : hasKey userId' (getStartOfDay (clk 0%nat)) r = true).
    { subst r. unfold hasKey. simpl. rewrite !String.eqb_refl. reflexivity. }
    destruct (find_hasKey_exists _ _ _ _ Hin Hk) as [b Hb].
    unfold checkin. rewrite Hd, getByUserAndDate_records, Hb. reflexivity.
Qed.

(** C7. A check-out with no record for the user and the day answers
    [NoCheckInFound]; with a record already checked out it answers
    [AlreadyCheckedOut]; both leave the store as it was.  Any check-out either
    leaves the store as it was or answers with the updated record, which is in
    the store with its check-out time, hours and status all set. *)
Theorem checkout_failures_leave_store storage clk userId' :
  (getAttendanceByUserAndDate storage userId' (getStartOfDay (clk 0%nat)) = None ->
   checkout storage clk userId' = (NoCheckInFound, storage))
  /\ (forall a t,
        getAttendanceByUserAndDate storage userId' (getStartOfDay (clk 0%nat)) = Some a ->
        checkOutTime a = Some t ->
        checkout storage clk userId' = (AlreadyCheckedOut, storage))
  /\ (forall resp storage',
        checkout storage clk userId' = (resp, storage') ->
        storage' = storage
        \/ exists a updated,
             getAttendanceByUserAndDate storage userId' (getStartOfDay (clk 0%nat)) = Some a
             /\ resp = Sent 200 (Some updated) /\ In updated (records storage')
             /\ checkOutTime updated = Some (clk 1%nat)
             /\ totalHours updated = Some (round1 (elapsedHours (clk 1%nat) (checkInTime a)))
             /\ status updated
                = (if PrimFloat.ltb (elapsedHours (clk 1%nat) (checkInTime a)) 4
                   then half_day else status a)).
Proof.
  split; [|split].
  - intros Hg. unfold checkout. rewrite Hg. reflexivity.
  - intros a t Hg Ht. unfold checkout. rewrite Hg, Ht. reflexivity.
  - intros resp storage'. unfold checkout.
    destruct (getAttendanceByUserAndDate _ _ _) as [a|] eqn:Hg;
      [|intros H; injection H as _ <-; left; reflexivity].
    destruct (checkOutTime a); [intros H; injection H as _ <-; left; reflexivity|].
    destruct (updateAttendance _ _ _) as [e|[up st']] eqn:Hu;
      [intros H; injection H as _ <-; left; reflexivity|].
    intros H. injection H as <- <-.
    destruct storage as [st|st]; simpl in Hu.
    + unfold MemStorage.updateAttendance in Hu.
      destruct (MemStorage.Map_get _ _) as [e|] eqn:Hm.
      * injection Hu as <- <-. right. exists a. eexists.
        split; [reflexivity|]. split; [reflexivity|].
        split; [simpl; apply Map_set_In|]. repeat split.
      * injection Hu as _ <-. left. reflexivity.
    + unfold MongoStorage.updateAttendance in Hu.
      destruct (find _ _) as [e|] eqn:Hm.
      * destruct (MongoStorage.attendanceConflict _ _); [discriminate|].
        injection Hu as <- <-. right. exists a. eexists.
        split; [reflexivity|]. split; [reflexivity|].
        split; [|repeat split].
        simpl. apply find_some in Hm. eapply replaceFirst_hit; [exact (proj1 Hm)|exact (proj2 Hm)].
      * injection Hu as _ <-. left. reflexivity.
Qed.

(** C8. A successful check-out at [now] on a record checked in at [t] stores
    as [totalHours] the elapsed time [now - t] rounded half-up to a whole number
    of tenths of an hour, written with one decimal; proved for every elapsed
    time from 0 up to 25 hours (90000000 ms), which covers every check-out
    made on the record of the same UTC day. *)
Theorem checkout_totalHours_half_up storage clk userId' a t :
  wellFormed storage = true ->
  getAttendanceByUserAndDate storage userId' (getStartOfDay (clk 0%nat)) = Some a ->
  checkOutTime a = None ->
  checkInTime a = Some t ->
  0 <= clk 1%nat - t < 90000000 ->
  exists updated storage',
    checkout storage clk userId' = (Sent 200 (Some updated), storage')
    /\ In updated (records storage')
    /\ checkOutTime updated = Some (clk 1%nat)
    /\ totalHours updated = Some (oneDecimal (halfUpTenths (clk 1%nat - t))).
Proof.
  intros Hwf Hg Hout Hin Hb.
  destruct (checkout_success storage clk userId' a Hwf Hg Hout) as (st' & Hc & Hr).
  eexists. exists st'. split; [exact Hc|]. split; [|split].
  - rewrite Hr. rewrite getByUserAndDate_records in Hg. apply find_hasKey_some in Hg.
    eapply replaceFirst_hit; [exact (proj1 Hg)|apply String.eqb_refl].
  - reflexivity.
  - simpl. rewrite Hin. rewrite (proj1 (checkout_arithmetic (clk 1%nat) t Hb)). reflexivity.
Qed.

(** C10. The organization-wide summary reports [absent = 0] whatever the
    roster and the records are: [totalAbsent] starts at 0 and no step of
    either loop changes it. *)
Theorem orgSummary_absent_zero storage clk month :
  exists s, orgSummary regexTest storage clk month = Sent 200 s /\ os_absent s = 0.
Proof.
  unfold orgSummary.
  set (m := match JS.supplied month with Some m => m | None => _ end).
  pose proof (fold_orgTallyEmployee_absent regexTest storage m (getAllEmployees storage) (0,0,0,0)) as H.
  destruct (fold_left _ _ _) as [[[p l] a] h]. simpl in H. subst a.
  eexists. split; reflexivity.
Qed.

End Claims.

Section Extras.
Variable LocalTZA : Z -> bool -> Z.
Variable regexTest : string -> string -> bool.
Variable toLowerCase : string -> string.

(** Every state reached from a well-formed store is well-formed. *)
Theorem reachable_wellFormed init storage :
  wellFormed init = true -> reachable LocalTZA toLowerCase init storage -> wellFormed storage = true.
Proof.
  intros Hi Hr. induction Hr as [|s s' _ IH Hs]; [exact Hi|].
  eapply step_wellFormed; eassumption.
Qed.

(** The Mongo collection refuses a second record for a user and a day. *)
Theorem Mongo_createAttendance_rejects_duplicate st uuid now ins :
  (1 <= keyCount (i_userId ins) (i_date ins) (MongoStorage.attendance st))%nat ->
  (exists e, createAttendance (Mongo st) uuid now ins = inl e)
  /\ (uuid <> "" -> i_userId ins <> "" -> i_date ins <> "" ->
      createAttendance (Mongo st) uuid now ins = inl DuplicateKey).
Proof.
  intros Hk. simpl. unfold MongoStorage.createAttendance. simpl.
  assert (Hc : MongoStorage.attendanceConflict (MongoStorage.attendance st)
            (mkAttendance uuid (i_userId ins) (i_date ins) (i_checkInTime ins)
               (i_checkOutTime ins) (i_status ins) (i_totalHours ins) now) = true).
  { destruct (MongoStorage.attendanceConflict _ _) eqn:E; [reflexivity|].
    apply conflict_false in E. simpl in E. lia. }
  rewrite Hc. split.
  - destruct (negb _); eauto.
  - intros H1 H2 H3. unfold MongoStorage.required, JS.truthy.
    apply String.eqb_neq in H1, H2, H3. rewrite H1, H2, H3. reflexivity.
Qed.

(** [MemStorage.createAttendance] never rejects: whatever the map holds, the
    new record is stored under its key. *)
Theorem Mem_createAttendance_never_rejects st uuid now ins :
  exists a st',
    createAttendance (Mem st) uuid now ins = inr (a, Mem st')
    /\ In a (records (Mem st'))
    /\ userId a = i_userId ins /\ date a = i_date ins.
Proof.
  eexists. eexists. split; [reflexivity|]. split; [|split; reflexivity].
  simpl. apply Map_set_In.
Qed.

(** With a date filter and a range together, [MongoStorage.getAllAttendance]
    returns the records that satisfy every supplied filter but the date. *)
Theorem Mongo_getAllAttendance_date_with_range st f d :
  JS.supplied (f_date f) = Some d ->
  JS.supplied (f_from f) <> None \/ JS.supplied (f_to f) <> None ->
  forall a, In a (MongoStorage.getAllAttendance regexTest st f)
            <-> In a (records (Mongo st))
                /\ satisfies (mkFilters (f_employeeId f) None (f_status f) (f_from f) (f_to f))
                     a = true.
Proof.
  clear toLowerCase.
  intros Hd Hr a. unfold MongoStorage.getAllAttendance, satisfies, MongoStorage.find_.
  rewrite sort_In, filter_In. simpl.
  apply and_iff_compat_l.
  unfold MongoStorage.matches. rewrite Hd.
  destruct (JS.supplied (f_employeeId f)), (JS.supplied (f_status f)),
    (JS.supplied (f_from f)), (JS.supplied (f_to f));
    simpl; try (destruct Hr as [Hr|Hr]; congruence);
    rewrite ?andb_true_iff; intuition.
Qed.

(** A department without employees has a headcount of 0 and the percentage 0:
    the division is not performed. *)
Theorem departmentStat_no_employee storage employees today currentMonth todayDate dept :
  forallb (fun e => negb (String.eqb (u_department e) dept)) employees = true ->
  let s := departmentStat LocalTZA regexTest storage employees today currentMonth todayDate dept in
  ds_total s = 0 /\ ds_present s = 0 /\ ds_percentage s = 0%float.
Proof.
  intros H.
  assert (E : filter (fun e => String.eqb (u_department e) dept) employees = []).
  { induction employees as [|e es IH]; [reflexivity|]. simpl in *.
    apply andb_true_iff in H. destruct H as [H1 H2].
    apply negb_true_iff in H1. rewrite H1. apply IH. exact H2. }
  unfold departmentStat. rewrite E. simpl.
  assert (F : forall l : list Attendance, filter (fun _ => false) l = [])
    by (induction l; simpl; auto).
  rewrite F. simpl. repeat split.
Qed.
End Extras.

(** C1, counterexample. A check-in at 09:15:01 local time, strictly after
    09:15:00, is recorded as [present]. *)
Lemma checkin_0915_01_is_present :
  33300000 < timeOfDay utc monday091501
  /\ fst (checkin utc (Mem MemStorage.empty) (at_ monday091501) "a1" "u1")
     = Sent 201 (mkAttendance "a1" "u1" "2024-06-03" (Some monday091501) None present
                   None monday091501).
Proof. split; vm_compute; reflexivity. Qed.

Lemma checkin_status_by_minute_witness :
  (late = late <-> 33360000 <= timeOfDay utc monday1000)
  /\ (late = present <-> timeOfDay utc monday1000 < 33360000).
Proof.
  apply (checkin_status_by_minute utc (Mem MemStorage.empty) (at_ monday1000) "a1" "u1"
           (mkAttendance "a1" "u1" "2024-06-03" (Some monday1000) None late None monday1000)
           (snd (checkin utc (Mem MemStorage.empty) (at_ monday1000) "a1" "u1"))).
  vm_compute. reflexivity.
Defined.


Lemma checkout_half_day_rule_witness :
  exists updated storage',
    checkout (afterMonday (Mem MemStorage.empty)) (at_ monday1000) "u1"
    = (Sent 200 (Some updated), storage')
    /\ status updated = half_day.
Proof.
  destruct (checkout_half_day_rule (afterMonday (Mem MemStorage.empty)) (at_ monday1000)
              "u1" mondayRecord) as (u & s & H1 & _ & H3 & _);
    [vm_compute; reflexivity .. |].
  exists u, s. split; [exact H1|]. rewrite H3. vm_compute. reflexivity.
Defined.

(** C4. [MemStorage.createAttendance] accepts a second record for a user and
    a day that already has one, where the Mongo collection answers with the
    duplicate-key error. *)
Theorem MemStorage_createAttendance_duplicate :
  let ins := mkInsertAttendance "u1" "2024-06-02" (Some sunday0800) None present None in
  keyCount "u1" "2024-06-02" (records (afterSunday (Mem MemStorage.empty))) = 1%nat
  /\ (exists a storage',
        createAttendance (afterSunday (Mem MemStorage.empty)) "a9" sunday0800 ins
        = inr (a, storage')
        /\ keyCount "u1" "2024-06-02" (records storage') = 2%nat)
  /\ createAttendance (afterSunday (Mongo MongoStorage.empty)) "a9" sunday0800 ins
     = inl DuplicateKey.
Proof.
  split; [vm_compute; reflexivity|]. split; [|vm_compute; reflexivity].
  eexists. eexists. split; vm_compute; reflexivity.
Qed.

(** C5. With a date filter and a lower bound together,
    [MongoStorage.getAllAttendance] returns a record of another date, which
    does not satisfy the conjunction of the filters; [MemStorage] returns the
    record of the date alone. *)
Theorem MongoStorage_getAllAttendance_drops_date :
  let f := mkFilters None (Some "2024-06-02") None (Some "2024-06-01") None in
  getAllAttendance anchoredPrefix (afterMonday (Mongo MongoStorage.empty)) f
  = [mondayRecord; sundayRecord]
  /\ satisfies f mondayRecord = false
  /\ getAllAttendance anchoredPrefix (afterMonday (Mem MemStorage.empty)) f = [sundayRecord].
Proof. repeat split; vm_compute; reflexivity. Qed.

Lemma one_record_per_user_and_day_witness :
  atMostOnePerDay (afterMonday (Mem MemStorage.empty))
  /\ checkin utc (afterMonday (Mem MemStorage.empty)) (at_ monday1000) "a3" "u1"
     = (AlreadyCheckedIn, afterMonday (Mem MemStorage.empty)).
Proof.
  destruct (one_record_per_user_and_day utc JS.asciiLowerCase) as (E1 & _ & Hreach & Hfound & _).
  split.
  - apply (Hreach (Mem MemStorage.empty)); [exact E1|].
    unfold afterMonday, afterSunday, registered.
    eapply reachable_step; [eapply reachable_step; [eapply reachable_step;
      [apply reachable_init | apply step_register] | apply step_checkin] | apply step_checkin].
  - apply (Hfound _ _ _ _ mondayRecord). vm_compute. reflexivity.
Defined.

Lemma checkout_failures_leave_store_witness :
  checkout (registered (Mem MemStorage.empty)) (at_ monday1000) "u1"
  = (NoCheckInFound, registered (Mem MemStorage.empty))
  /\ checkout (afterCheckout (Mongo MongoStorage.empty)) (at_ monday1300) "u1"
     = (AlreadyCheckedOut, afterCheckout (Mongo MongoStorage.empty)).
Proof.
  split.
  - apply (proj1 (checkout_failures_leave_store (registered (Mem MemStorage.empty))
                    (at_ monday1000) "u1")).
    vm_compute. reflexivity.
  - apply (proj1 (proj2 (checkout_failures_leave_store
                           (afterCheckout (Mongo MongoStorage.empty)) (at_ monday1300) "u1"))
             (merge mondayRecord (checkoutUpdates monday1300 mondayRecord)) monday1300).
    + vm_compute. reflexivity.
    + reflexivity.
Defined.

Lemma checkout_totalHours_half_up_witness :
  exists updated storage',
    checkout (afterMonday (Mongo MongoStorage.empty)) (at_ monday1300) "u1"
    = (Sent 200 (Some updated), storage')
    /\ totalHours updated = Some 5%float.
Proof.
  destruct (checkout_totalHours_half_up (afterMonday (Mongo MongoStorage.empty))
              (at_ monday1300) "u1" mondayRecord monday0800)
    as (u & s & H1 & _ & _ & H4);
    [vm_compute; reflexivity | vm_compute; reflexivity | reflexivity | reflexivity
    | unfold at_, monday1300, monday0800; lia |].
  exists u, s. split; [exact H1|]. rewrite H4. vm_compute. reflexivity.
Defined.

(** C9. With check-ins on a Sunday and on the Monday that follows, the
    department of the employee counts two present records against one
    employee and one working day: the percentage is 200. *)
Theorem departmentWise_percentage_200 :
  departmentWise utc anchoredPrefix (afterMonday (Mem MemStorage.empty)) (at_ monday0800)
  = [mkDepartmentStat "Engineering" 2 1 200%float]
  /\ departmentWise utc anchoredPrefix (afterMonday (Mongo MongoStorage.empty)) (at_ monday0800)
     = [mkDepartmentStat "Engineering" 2 1 200%float]
  /\ PrimFloat.ltb 100 200 = true.
Proof. repeat split; vm_compute; reflexivity. Qed.

Lemma reachable_wellFormed_witness :
  wellFormed (afterMonday (Mongo MongoStorage.empty)) = true.
Proof.
  apply (reachable_wellFormed utc JS.asciiLowerCase (Mongo MongoStorage.empty)); [reflexivity|].
  unfold afterMonday, afterSunday, registered.
  eapply reachable_step; [eapply reachable_step; [eapply reachable_step;
    [apply reachable_init | apply step_register] | apply step_checkin] | apply step_checkin].
Defined.

Lemma Mongo_createAttendance_rejects_duplicate_witness :
  exists e, createAttendance (afterSunday (Mongo MongoStorage.empty)) "a9" sunday0800
              (mkInsertAttendance "u1" "2024-06-02" (Some sunday0800) None present None)
            = inl e.
Proof.
  refine (proj1 (Mongo_createAttendance_rejects_duplicate
                   (MongoStorage.mk _ [sundayRecord]) "a9" sunday0800
                   (mkInsertAttendance "u1" "2024-06-02" (Some sunday0800) None present None) _)).
  vm_compute. lia.
Defined.

Lemma Mongo_getAllAttendance_spec_witness :
  In sundayRecord
    (MongoStorage.getAllAttendance anchoredPrefix
       (MongoStorage.mk [] [sundayRecord; mondayRecord])
       (mkFilters None (Some "2024-06-02") None None None))
  /\ ~ In mondayRecord
        (MongoStorage.getAllAttendance anchoredPrefix
           (MongoStorage.mk [] [sundayRecord; mondayRecord])
           (mkFilters None (Some "2024-06-02") None None None)).
Proof.
  pose proof (proj1 (Mongo_getAllAttendance_spec anchoredPrefix
                       (MongoStorage.mk [] [sundayRecord; mondayRecord])
                       (mkFilters None (Some "2024-06-02") None None None)
                       (or_intror (conj eq_refl eq_refl)))) as H.
  split.
  - apply H. split; [left; reflexivity | reflexivity].
  - intros Hin. apply H in Hin. destruct Hin as [_ Hs]. discriminate Hs.
Defined.

Lemma Mongo_getAllAttendance_date_with_range_witness :
  In mondayRecord
    (MongoStorage.getAllAttendance anchoredPrefix
       (MongoStorage.mk [] [sundayRecord; mondayRecord])
       (mkFilters None (Some "2024-06-02") None (Some "2024-06-01") None)).
Proof.
  apply (Mongo_getAllAttendance_date_with_range anchoredPrefix
           (MongoStorage.mk [] [sundayRecord; mondayRecord])
           (mkFilters None (Some "2024-06-02") None (Some "2024-06-01") None)
           "2024-06-02" eq_refl).
  - left. discriminate.
  - split; [right; left; reflexivity | reflexivity].
Defined.

Lemma departmentStat_no_employee_witness :
  ds_percentage (departmentStat utc anchoredPrefix (afterMonday (Mem MemStorage.empty))
                   (getAllEmployees (afterMonday (Mem MemStorage.empty)))
                   "2024-06-03" "2024-06" monday0800 "Sales") = 0%float.
Proof.
  apply (departmentStat_no_employee utc anchoredPrefix (afterMonday (Mem MemStorage.empty))
           (getAllEmployees (afterMonday (Mem MemStorage.empty)))
           "2024-06-03" "2024-06" monday0800 "Sales").
  vm_compute. reflexivity.
Defined.

(* ------------------------------------------------------------------ *)
(** * Further properties of the storage layer and the routes *)

(** ** The calendar *)

Lemma civil_bounds z :
  let '(y, m, d) := JS.civil_from_days z in 1 <= m <= 12 /\ 1 <= d <= 31.
Proof.
  unfold JS.civil_from_days. cbv zeta.
  set (z' := z + 719468).
  set (era := z' / 146097).
  set (doe := z' - era * 146097).
  assert (Hdoe : 0 <= doe < 146097).
  { unfold doe, era. pose proof (Z.mod_pos_bound z' 146097 ltac:(lia)) as H.
    rewrite Z.mod_eq in H by lia. lia. }
  clearbody doe. clear era z'.
  set (yoe := (doe - doe / 1460 + doe / 36524 - doe / 146096) / 365).
  set (doy := doe - (365 * yoe + yoe / 4 - yoe / 100)).
  assert (Hdoy : 0 <= doy <= 365).
  { unfold doy, yoe. Z.div_mod_to_equations. lia. }
  clearbody doy.
  set (mp := (5 * doy + 2) / 153).
  assert (0 <= mp <= 11) by (unfold mp; Z.div_mod_to_equations; lia).
  destruct (mp <? 10) eqn:E; [apply Z.ltb_lt in E | apply Z.ltb_ge in E].
  - split; [lia|]. unfold mp in *. Z.div_mod_to_equations. lia.
  - split; [lia|]. unfold mp in *. Z.div_mod_to_equations. lia.
Qed.

Lemma days_of_civil z :
  let '(y, m, d) := JS.civil_from_days z in JS.days_from_civil y m d = z.
Proof.
  unfold JS.civil_from_days. cbv zeta.
  set (z' := z + 719468).
  set (era := z' / 146097).
  set (doe := z' - era * 146097).
  assert (Hdoe : 0 <= doe < 146097).
  { unfold doe, era. pose proof (Z.mod_pos_bound z' 146097 ltac:(lia)) as H.
    rewrite Z.mod_eq in H by lia. lia. }
  assert (Hz : z = era * 146097 + doe - 719468) by (unfold doe, z'; lia).
  clearbody doe era. clear z'.
  set (yoe := (doe - doe / 1460 + doe / 36524 - doe / 146096) / 365).
  assert (Hyoe : 0 <= yoe <= 399) by (unfold yoe; Z.div_mod_to_equations; lia).
  set (doy := doe - (365 * yoe + yoe / 4 - yoe / 100)).
  assert (Hdoy : 0 <= doy <= 365) by (unfold doy, yoe; Z.div_mod_to_equations; lia).
  assert (Hdoe' : doe = yoe * 365 + yoe / 4 - yoe / 100 + doy) by (unfold doy; lia).
  clearbody doy. clearbody yoe.
  set (mp := (5 * doy + 2) / 153).
  assert (Hmp : 0 <= mp <= 11) by (unfold mp; Z.div_mod_to_equations; lia).
  unfold JS.days_from_civil.
  destruct (mp <? 10) eqn:E; [apply Z.ltb_lt in E | apply Z.ltb_ge in E].
  - replace (mp + 3 <=? 2) with false by (symmetry; apply Z.leb_gt; lia).
    replace (2 <? mp + 3) with true by (symmetry; apply Z.ltb_lt; lia).
    cbv zeta.
    replace ((yoe + era * 400) / 400) with era by (Z.div_mod_to_equations; lia).
    replace (mp + 3 - 3) with mp by lia.
    replace (yoe + era * 400 - era * 400) with yoe by lia.
    unfold mp. Z.div_mod_to_equations. lia.
  - replace (mp - 9 <=? 2) with true by (symmetry; apply Z.leb_le; lia).
    replace (2 <? mp - 9) with false by (symmetry; apply Z.ltb_ge; lia).
    cbv zeta.
    replace (yoe + era * 400 + 1 - 1) with (yoe + era * 400) by lia.
    replace ((yoe + era * 400) / 400) with era by (Z.div_mod_to_equations; lia).
    replace (mp - 9 + 9) with mp by lia.
    replace (yoe + era * 400 - era * 400) with yoe by lia.
    unfold mp. Z.div_mod_to_equations. lia.
Qed.

Lemma civil_from_days_range z :
  1 <= snd (fst (JS.civil_from_days z)) <= 12 /\ 1 <= snd (JS.civil_from_days z) <= 31.
Proof.
  pose proof (civil_bounds z) as H.
  destruct (JS.civil_from_days z) as [[y m] d]. exact H.
Qed.

Lemma days_from_civil_from_days z :
  JS.days_from_civil (fst (fst (JS.civil_from_days z))) (snd (fst (JS.civil_from_days z)))
    (snd (JS.civil_from_days z)) = z.
Proof.
  pose proof (days_of_civil z) as H.
  destruct (JS.civil_from_days z) as [[y m] d]. exact H.
Qed.

(** ** Decimal texts *)

Lemma length_append s1 s2 :
  String.length (s1 ++ s2) = (String.length s1 + String.length s2)%nat.
Proof. induction s1 as [|c s1 IH]; simpl; [reflexivity|]. rewrite IH. reflexivity. Qed.

Lemma pad_length w n : String.length (JS.pad w n) = w.
Proof.
  revert n. induction w as [|w IH]; intro n; simpl; [reflexivity|].
  rewrite length_append, IH. simpl. lia.
Qed.

Lemma digit_of_digit_char n : JS.digit_of (JS.digit_char n) = Some (n mod 10).
Proof.
  unfold JS.digit_of, JS.digit_char.
  pose proof (Z.mod_pos_bound n 10 ltac:(lia)) as H.
  rewrite nat_ascii_embedding by lia.
  rewrite Z2Nat.id by lia.
  destruct (Z.leb_spec 48 (48 + n mod 10)); [|lia].
  destruct (Z.leb_spec (48 + n mod 10) 57); [|lia].
  cbn [andb]. f_equal. lia.
Qed.

Lemma digits_value_app s1 s2 acc :
  JS.digits_value (s1 ++ s2) acc
  = match JS.digits_value s1 acc with
    | Some v => JS.digits_value s2 v
    | None => None
    end.
Proof.
  revert acc. induction s1 as [|c s1 IH]; intro acc; simpl; [reflexivity|].
  destruct (JS.digit_of c); [apply IH|reflexivity].
Qed.

Lemma digits_value_pad w n acc :
  JS.digits_value (JS.pad w n) acc = Some (acc * 10 ^ Z.of_nat w + n mod 10 ^ Z.of_nat w).
Proof.
  revert n acc. induction w as [|w IH]; intros n acc.
  - change (JS.digits_value (JS.pad 0 n) acc) with (Some acc).
    change (10 ^ Z.of_nat 0) with 1. rewrite Z.mod_1_r. f_equal. lia.
  - change (JS.pad (S w) n) with (JS.pad w (n / 10) ++ String (JS.digit_char n) "").
    rewrite digits_value_app, IH. cbn [JS.digits_value].
    rewrite digit_of_digit_char. f_equal.
    rewrite Nat2Z.inj_succ, Z.pow_succ_r by lia.
    set (p := 10 ^ Z.of_nat w).
    assert (Hp : 0 < p) by (apply Z.pow_pos_nonneg; lia).
    rewrite (Z.rem_mul_r n 10 p) by lia.
    set (a := n mod 10). set (b := (n / 10) mod p). lia.
Qed.

Lemma digits_value_pad0 w n :
  0 <= n < 10 ^ Z.of_nat w -> JS.digits_value (JS.pad w n) 0 = Some n.
Proof.
  intros H. rewrite digits_value_pad.
  rewrite Z.mod_small by lia. reflexivity.
Qed.

Lemma checkNumbers_sound w fuel k :
  checkNumbers w fuel k = true ->
  forall j, k <= j < k + Z.of_nat fuel -> checkNumber w j = true.
Proof.
  revert k. induction fuel as [|fuel IH]; intros k H j Hj; [lia|].
  change ((if checkNumber w k then checkNumbers w fuel (k + 1) else false) = true) in H.
  destruct (checkNumber w k) eqn:Hk; [|discriminate].
  destruct (Z.eq_dec j k) as [->|Hne]; [exact Hk|].
  apply (IH (k + 1) H). lia.
Qed.

Lemma checkNumbers_4 : checkNumbers 4 (Z.to_nat 10000) 0 = true.
Proof. vm_cast_no_check (eq_refl true). Qed.

Lemma checkNumbers_2 : checkNumbers 2 (Z.to_nat 100) 0 = true.
Proof. vm_cast_no_check (eq_refl true). Qed.

Lemma checkNumber_spec w k :
  checkNumber w k = true ->
  JS.Number (JS.pad w k) = JS.float_of_Z k
  /\ JS.ToInteger (JS.float_of_Z k) = Some k
  /\ JS.ToInteger (PrimFloat.sub (JS.float_of_Z k) 1) = Some (k - 1).
Proof.
  unfold checkNumber. intros H. apply andb_true_iff in H. destruct H as [H1 H2].
  split; [apply FloatAxioms.Leibniz.eqb_spec; exact H1|].
  destruct (JS.ToInteger (JS.float_of_Z k)) as [a|]; [|discriminate].
  destruct (JS.ToInteger (PrimFloat.sub (JS.float_of_Z k) 1)) as [b|]; [|discriminate].
  apply andb_true_iff in H2. destruct H2 as [Ha Hb].
  apply Z.eqb_eq in Ha, Hb. subst. split; reflexivity.
Qed.

(** A year of four digits and a month of two are read as their numbers. *)
Lemma Number_year y :
  0 <= y <= 9999 ->
  JS.Number (JS.pad 4 y) = JS.float_of_Z y /\ JS.ToInteger (JS.float_of_Z y) = Some y.
Proof.
  intros H.
  destruct (checkNumber_spec 4 y) as (H1 & H2 & _); [|auto].
  apply (checkNumbers_sound 4 (Z.to_nat 10000) 0 checkNumbers_4). lia.
Qed.

Lemma Number_month m :
  0 <= m <= 99 ->
  JS.Number (JS.pad 2 m) = JS.float_of_Z m /\ JS.ToInteger (JS.float_of_Z m) = Some m
  /\ JS.ToInteger (PrimFloat.sub (JS.float_of_Z m) 1) = Some (m - 1).
Proof.
  intros H. apply checkNumber_spec.
  apply (checkNumbers_sound 2 (Z.to_nat 100) 0 checkNumbers_2). lia.
Qed.

Lemma ToInteger_small k :
  0 <= k <= 9999 ->
  JS.ToInteger (JS.float_of_Z k) = Some k
  /\ JS.ToInteger (PrimFloat.sub (JS.float_of_Z k) 1) = Some (k - 1).
Proof.
  intros H.
  destruct (checkNumber_spec 4 k) as (_ & H2 & H3); [|auto].
  apply (checkNumbers_sound 4 (Z.to_nat 10000) 0 checkNumbers_4). lia.
Qed.

Lemma free_of_app sep s1 s2 :
  free_of sep (s1 ++ s2) = free_of sep s1 && free_of sep s2.
Proof.
  induction s1 as [|c s1 IH]; simpl; [reflexivity|].
  rewrite IH, andb_assoc. reflexivity.
Qed.

Lemma pad_free w n : free_of "-"%char (JS.pad w n) = true.
Proof.
  revert n. induction w as [|w IH]; intro n; [reflexivity|].
  change (JS.pad (S w) n) with (JS.pad w (n / 10) ++ String (JS.digit_char n) "").
  rewrite free_of_app, IH. simpl. rewrite andb_true_r.
  apply negb_true_iff. apply Ascii.eqb_neq. intros E.
  pose proof (digit_of_digit_char n) as H. rewrite E in H. discriminate H.
Qed.

Lemma append_assoc s1 s2 s3 : (s1 ++ s2) ++ s3 = s1 ++ (s2 ++ s3).
Proof. induction s1 as [|c s1 IH]; simpl; [reflexivity|]. rewrite IH. reflexivity. Qed.

Lemma append_empty_r s : s ++ "" = s.
Proof. induction s as [|c s IH]; simpl; [reflexivity|]. rewrite IH. reflexivity. Qed.

Lemma split_aux_free sep a rest acc :
  free_of sep a = true ->
  JS.split_aux sep (a ++ rest) acc = JS.split_aux sep rest (acc ++ a).
Proof.
  revert acc. induction a as [|c a IH]; intros acc H; simpl in *.
  - rewrite append_empty_r. reflexivity.
  - apply andb_true_iff in H. destruct H as [Hc Ha].
    apply negb_true_iff in Hc. rewrite Hc, IH by exact Ha.
    rewrite append_assoc. reflexivity.
Qed.

Lemma split_free_last sep a : free_of sep a = true -> JS.split sep a = [a].
Proof.
  intros H. unfold JS.split.
  rewrite <- (append_empty_r a) at 1. rewrite split_aux_free by exact H. reflexivity.
Qed.

Lemma split_free_cons sep a rest :
  free_of sep a = true ->
  JS.split sep (a ++ String sep rest) = a :: JS.split sep rest.
Proof.
  intros H. unfold JS.split. rewrite split_aux_free by exact H.
  simpl. rewrite Ascii.eqb_refl. reflexivity.
Qed.

Lemma substring_prefix s1 s2 : substring 0 (String.length s1) (s1 ++ s2) = s1.
Proof.
  induction s1 as [|c s1 IH]; simpl.
  - destruct s2; reflexivity.
  - rewrite IH. reflexivity.
Qed.

Lemma isoDate_shape t :
  0 <= JS.YearFromTime t <= 9999 ->
  JS.isoDate t
  = JS.pad 4 (JS.YearFromTime t)
      ++ String "-" (JS.pad 2 (JS.MonthFromTime t + 1)
                       ++ String "-" (JS.pad 2 (JS.DateFromTime t))).
Proof.
  intros [H0 H1]. unfold JS.isoDate, JS.isoYear.
  destruct (Z.leb_spec 0 (JS.YearFromTime t)); [|lia].
  destruct (Z.leb_spec (JS.YearFromTime t) 9999); [|lia].
  reflexivity.
Qed.

Lemma month_date_range t :
  1 <= JS.MonthFromTime t + 1 <= 12 /\ 1 <= JS.DateFromTime t <= 31.
Proof.
  unfold JS.MonthFromTime, JS.DateFromTime.
  pose proof (civil_from_days_range (JS.Day t)). lia.
Qed.

Lemma parseDate_isoDate t :
  0 <= JS.YearFromTime t <= 9999 ->
  JS.parseDate (JS.isoDate t) = Some (JS.Day t * JS.msPerDay).
Proof.
  intros Hy. rewrite isoDate_shape by exact Hy.
  pose proof (month_date_range t) as [Hm Hd].
  unfold JS.parseDate.
  rewrite split_free_cons by apply pad_free.
  rewrite split_free_cons by apply pad_free.
  rewrite split_free_last by apply pad_free.
  rewrite !pad_length. cbn [Nat.eqb andb].
  rewrite (digits_value_pad0 4) by (change (10 ^ Z.of_nat 4) with 10000; lia).
  rewrite !(digits_value_pad0 2) by (change (10 ^ Z.of_nat 2) with 100; lia).
  unfold JS.YearFromTime, JS.MonthFromTime, JS.DateFromTime in *.
  replace (snd (fst (JS.civil_from_days (JS.Day t))) - 1 + 1)
    with (snd (fst (JS.civil_from_days (JS.Day t)))) in * by lia.
  rewrite days_from_civil_from_days.
  destruct (JS.civil_from_days (JS.Day t)) as [[y m] d]. cbn [fst snd] in *.
  destruct (Z.leb_spec 1 m); [|lia]. destruct (Z.leb_spec m 12); [|lia].
  destruct (Z.leb_spec 1 d); [|lia]. destruct (Z.leb_spec d 31); [|lia].
  reflexivity.
Qed.

(** The date text of a time value parses back to the UTC midnight of its day. *)
Theorem parseDate_getStartOfDay t :
  0 <= JS.YearFromTime t <= 9999 ->
  JS.parseDate (getStartOfDay t) = Some (JS.Day t * JS.msPerDay).
Proof. intros Hy. unfold getStartOfDay. apply parseDate_isoDate. exact Hy. Qed.

Lemma currentMonth_shape t :
  0 <= JS.YearFromTime t <= 9999 ->
  substring 0 7 (getStartOfDay t)
  = JS.pad 4 (JS.YearFromTime t) ++ String "-" (JS.pad 2 (JS.MonthFromTime t + 1)).
Proof.
  intros Hy. unfold getStartOfDay. rewrite isoDate_shape by exact Hy.
  set (a := JS.pad 4 (JS.YearFromTime t)).
  set (b := JS.pad 2 (JS.MonthFromTime t + 1)).
  set (c := JS.pad 2 (JS.DateFromTime t)).
  replace (a ++ String "-" (b ++ String "-" c)) with ((a ++ String "-" b) ++ String "-" c).
  - replace 7%nat with (String.length (a ++ String "-" b)).
    + apply substring_prefix.
    + rewrite length_append. unfold a, b. cbn [String.length]. rewrite !pad_length. reflexivity.
  - rewrite append_assoc. reflexivity.
Qed.

Lemma yearAndMonth_pad y m :
  0 <= y <= 9999 -> 0 <= m <= 99 ->
  yearAndMonth (JS.pad 4 y ++ String "-" (JS.pad 2 m))
  = (JS.float_of_Z y, JS.float_of_Z m).
Proof.
  intros Hy Hm. unfold yearAndMonth.
  rewrite split_free_cons by apply pad_free.
  rewrite split_free_last by apply pad_free.
  cbn [map nth].
  rewrite (proj1 (Number_year y Hy)), (proj1 (Number_month m Hm)).
  reflexivity.
Qed.

(** The month text taken from the current date splits into its year and month. *)
Theorem yearAndMonth_currentMonth t :
  0 <= JS.YearFromTime t <= 9999 ->
  yearAndMonth (substring 0 7 (getStartOfDay t))
  = (JS.float_of_Z (JS.YearFromTime t), JS.float_of_Z (JS.MonthFromTime t + 1)).
Proof.
  intros Hy. rewrite currentMonth_shape by exact Hy.
  pose proof (month_date_range t) as [Hm _].
  apply yearAndMonth_pad; lia.
Qed.

(** ** Working days *)

Lemma workingDaysFrom_app d n k :
  workingDaysFrom d (n + k) = workingDaysFrom d n + workingDaysFrom (d + Z.of_nat n) k.
Proof.
  revert d. induction n as [|n IH]; intro d.
  - simpl. rewrite Z.add_0_r. reflexivity.
  - cbn [Nat.add workingDaysFrom]. rewrite IH.
    replace (d + 1 + Z.of_nat n) with (d + Z.of_nat (S n)) by lia. lia.
Qed.

Lemma workingDay_range d : 0 <= workingDay d <= 1.
Proof. unfold workingDay. destruct (_ || _); lia. Qed.

Lemma workingDaysFrom_bounds d n : 0 <= workingDaysFrom d n <= Z.of_nat n.
Proof.
  revert d. induction n as [|n IH]; intro d.
  - simpl. lia.
  - cbn [workingDaysFrom]. specialize (IH (d + 1)).
    pose proof (workingDay_range d). lia.
Qed.

Lemma workingDay_cases d :
  workingDay d = if ((d + 4) mod 7 =? 0) || ((d + 4) mod 7 =? 6) then 0 else 1.
Proof. reflexivity. Qed.

(** Any seven consecutive days hold five working days. *)
Lemma workingDaysFrom_week d : workingDaysFrom d 7 = 5.
Proof.
  cbn [workingDaysFrom]. rewrite !workingDay_cases.
  pose proof (Z.mod_pos_bound (d + 4) 7 ltac:(lia)) as Hr.
  set (r := (d + 4) mod 7) in *.
  assert (E : forall i, 0 <= i -> (d + i + 4) mod 7 = (r + i) mod 7).
  { intros i _. unfold r. rewrite Zplus_mod_idemp_l. f_equal. lia. }
  replace (d + 1 + 1 + 1 + 1 + 1 + 1 + 4) with (d + 6 + 4) by lia.
  replace (d + 1 + 1 + 1 + 1 + 1 + 4) with (d + 5 + 4) by lia.
  replace (d + 1 + 1 + 1 + 1 + 4) with (d + 4 + 4) by lia.
  replace (d + 1 + 1 + 1 + 4) with (d + 3 + 4) by lia.
  replace (d + 1 + 1 + 4) with (d + 2 + 4) by lia.
  rewrite !E by lia. fold r.
  assert (Hc : r = 0 \/ r = 1 \/ r = 2 \/ r = 3 \/ r = 4 \/ r = 5 \/ r = 6) by lia.
  clearbody r.
  repeat (destruct Hc as [->|Hc]); try subst r; reflexivity.
Qed.

Lemma workingDaysFrom_four_weeks d k :
  workingDaysFrom d (28 + k) = 20 + workingDaysFrom (d + 28) k.
Proof.
  change (28 + k)%nat with (7 + (7 + (7 + (7 + k))))%nat.
  rewrite !workingDaysFrom_app, !workingDaysFrom_week.
  replace (d + Z.of_nat 7 + Z.of_nat 7 + Z.of_nat 7 + Z.of_nat 7) with (d + 28) by lia.
  lia.
Qed.

Lemma workingDaysFrom_weeks d k : workingDaysFrom d (7 * k) = 5 * Z.of_nat k.
Proof.
  revert d. induction k as [|k IH]; intro d; [reflexivity|].
  replace (7 * S k)%nat with (7 + 7 * k)%nat by lia.
  rewrite workingDaysFrom_app, workingDaysFrom_week, IH. lia.
Qed.

Lemma month_length y m :
  1 <= m <= 12 -> 28 <= JS.MakeDay y m 1 - JS.MakeDay y (m - 1) 1 <= 31.
Proof.
  intros Hm. unfold JS.MakeDay, JS.days_from_civil.
  assert (m = 1 \/ m = 2 \/ m = 3 \/ m = 4 \/ m = 5 \/ m = 6 \/ m = 7 \/ m = 8 \/ m = 9
          \/ m = 10 \/ m = 11 \/ m = 12) as Hc by lia.
  repeat (destruct Hc as [->|Hc]); try subst m; simpl; Z.div_mod_to_equations; lia.
Qed.

Lemma MakeDay_date y m d : JS.MakeDay y m d = JS.MakeDay y m 1 + d - 1.
Proof. unfold JS.MakeDay. lia. Qed.

Lemma days_from_civil_date y m d :
  JS.days_from_civil y m d = JS.days_from_civil y m 1 + d - 1.
Proof. unfold JS.days_from_civil. cbv zeta. lia. Qed.

Lemma MakeDay_civil y m d :
  1 <= m <= 12 -> JS.MakeDay y (m - 1) d = JS.days_from_civil y m d.
Proof.
  intros Hm. unfold JS.MakeDay. cbv zeta.
  rewrite (Z.div_small (m - 1) 12), (Z.mod_small (m - 1) 12) by lia.
  rewrite (days_from_civil_date y m d).
  replace (y + 0) with y by lia. replace (m - 1 + 1) with m by lia. lia.
Qed.

(** The day [z] lies before the first day of the month after its own. *)
Lemma before_next_month z :
  let '(y, m, d) := JS.civil_from_days z in z < JS.MakeDay y m 1.
Proof.
  unfold JS.civil_from_days. cbv zeta.
  set (z' := z + 719468).
  set (era := z' / 146097).
  set (doe := z' - era * 146097).
  assert (Hdoe : 0 <= doe < 146097).
  { unfold doe, era. pose proof (Z.mod_pos_bound z' 146097 ltac:(lia)) as H.
    rewrite Z.mod_eq in H by lia. lia. }
  assert (Hz : z = era * 146097 + doe - 719468) by (unfold doe, z'; lia).
  clearbody doe era. clear z'.
  set (yoe := (doe - doe / 1460 + doe / 36524 - doe / 146096) / 365).
  assert (Hyoe : 0 <= yoe <= 399) by (unfold yoe; Z.div_mod_to_equations; lia).
  assert (Hnext : yoe < 399 -> doe < (yoe + 1) * 365 + (yoe + 1) / 4 - (yoe + 1) / 100)
    by (unfold yoe; Z.div_mod_to_equations; lia).
  set (doy := doe - (365 * yoe + yoe / 4 - yoe / 100)).
  assert (Hdoy : 0 <= doy <= 365) by (unfold doy, yoe; Z.div_mod_to_equations; lia).
  assert (Hdoe' : doe = yoe * 365 + yoe / 4 - yoe / 100 + doy) by (unfold doy; lia).
  clearbody doy. clearbody yoe.
  set (mp := (5 * doy + 2) / 153).
  assert (Hmp : 0 <= mp <= 11) by (unfold mp; Z.div_mod_to_equations; lia).
  assert (Hmp' : 153 * mp <= 5 * doy + 2 < 153 * (mp + 1))
    by (unfold mp; Z.div_mod_to_equations; lia).
  clearbody mp.
  assert (Hc : mp = 0 \/ mp = 1 \/ mp = 2 \/ mp = 3 \/ mp = 4 \/ mp = 5 \/ mp = 6
               \/ mp = 7 \/ mp = 8 \/ mp = 9 \/ mp = 10 \/ mp = 11) by lia.
  unfold JS.MakeDay, JS.days_from_civil.
  repeat (destruct Hc as [Hc|Hc]); subst mp; simpl; Z.div_mod_to_equations; lia.
Qed.

Lemma civil_month_bounds z :
  let '(y, m, d) := JS.civil_from_days z in
  1 <= m <= 12 /\ 1 <= d /\ JS.MakeDay y (m - 1) d = z /\ z < JS.MakeDay y m 1.
Proof.
  pose proof (civil_bounds z) as Hb. pose proof (days_of_civil z) as Hr.
  pose proof (before_next_month z) as Hn.
  destruct (JS.civil_from_days z) as [[y m] d].
  destruct Hb as [Hm Hd]. repeat split; try lia.
  rewrite MakeDay_civil by exact Hm. exact Hr.
Qed.

Lemma Day_midnight d : JS.Day (midnight d) = d.
Proof. unfold JS.Day, midnight, JS.msPerDay. apply Z.div_mul. lia. Qed.

Lemma TimeWithinDay_midnight d : JS.TimeWithinDay (midnight d) = 0.
Proof. unfold JS.TimeWithinDay, midnight, JS.msPerDay. apply Z.mod_mul. lia. Qed.

(** The day after day number [z], made from the calendar date of [z]. *)
Lemma MakeDay_next z :
  JS.MakeDay (JS.YearFromTime (midnight z)) (JS.MonthFromTime (midnight z))
    (JS.DateFromTime (midnight z) + 1) = z + 1.
Proof.
  unfold JS.YearFromTime, JS.MonthFromTime, JS.DateFromTime. rewrite Day_midnight.
  pose proof (civil_month_bounds z) as H.
  destruct (JS.civil_from_days z) as [[y m] d]. cbn [fst snd].
  destruct H as (_ & _ & H & _).
  rewrite MakeDay_date. rewrite MakeDay_date in H. lia.
Qed.

Lemma TimeClip_valid t : Z.abs t <= 8640000000000000 -> JS.TimeClip t = Some t.
Proof. intros H. unfold JS.TimeClip. destruct (Z.leb_spec (Z.abs t) 8640000000000000); [reflexivity|lia]. Qed.

Section Midnights.
Variable LocalTZA : Z -> bool -> Z.

Lemma getDay_midnight d :
  LocalTime LocalTZA (UTC LocalTZA (midnight d)) = midnight d ->
  getDay LocalTZA (UTC LocalTZA (midnight d)) = JS.WeekDayOfDay d.
Proof. intros H. unfold getDay, JS.WeekDay. rewrite H, Day_midnight. reflexivity. Qed.

Lemma isWorkingDay_midnight d count :
  LocalTime LocalTZA (UTC LocalTZA (midnight d)) = midnight d ->
  (if isWorkingDay LocalTZA (Some (UTC LocalTZA (midnight d))) then count + 1 else count)
  = count + workingDay d.
Proof.
  intros H. unfold isWorkingDay, workingDay. rewrite (getDay_midnight d H).
  destruct (JS.WeekDayOfDay d =? 0), (JS.WeekDayOfDay d =? 6); simpl; lia.
Qed.

Lemma setDate_next d :
  LocalTime LocalTZA (UTC LocalTZA (midnight d)) = midnight d ->
  setDate LocalTZA (UTC LocalTZA (midnight d)) (getDate LocalTZA (UTC LocalTZA (midnight d)) + 1)
  = JS.TimeClip (UTC LocalTZA (midnight (d + 1))).
Proof.
  intros H. unfold setDate, getDate. rewrite H, MakeDay_next, TimeWithinDay_midnight.
  unfold midnight. rewrite Z.add_0_r. reflexivity.
Qed.

Lemma midnightsInOrder_le D n n' :
  midnightsInOrder LocalTZA D n -> n' <= n -> midnightsInOrder LocalTZA D n'.
Proof.
  intros H Hn k Hk. destruct (H k ltac:(lia)) as (H1 & H2 & H3).
  repeat split; try assumption. intros Hlt. apply H3. lia.
Qed.

Lemma midnights_apart D n a b :
  midnightsInOrder LocalTZA D n -> 0 <= a -> a <= b -> b <= n ->
  UTC LocalTZA (midnight (D + a)) + (b - a) * JS.msPerHour <= UTC LocalTZA (midnight (D + b)).
Proof.
  intros H Ha Hab Hb.
  replace b with (a + Z.of_nat (Z.to_nat (b - a))) in * by lia.
  generalize dependent (Z.to_nat (b - a)). intros c. induction c as [|c IH]; intros Hab Hb.
  - replace (a + Z.of_nat 0) with a by lia. lia.
  - specialize (IH ltac:(lia) ltac:(lia)).
    destruct (H (a + Z.of_nat c) ltac:(lia)) as (_ & _ & H3).
    specialize (H3 ltac:(lia)).
    replace (D + (a + Z.of_nat c) + 1) with (D + (a + Z.of_nat (S c))) in H3 by lia.
    unfold JS.msPerHour in *. lia.
Qed.

(** With the midnights in order the loop of [getWorkingDaysInMonth] steps
    from local midnight to local midnight and leaves by its test, after the
    day of [end]: it counts the Mondays to Fridays from its day on. *)
Lemma countWorkingDays_sum D n j fuel count :
  midnightsInOrder LocalTZA D n -> 1 <= n -> 0 <= j <= n ->
  (Z.to_nat (n - j) < fuel)%nat ->
  countWorkingDays LocalTZA fuel (Some (UTC LocalTZA (midnight (D + j))))
    (UTC LocalTZA (midnight (D + n - 1))) count
  = count + workingDaysFrom (D + j) (Z.to_nat (n - j)).
Proof.
  intros H Hn. revert j count. induction fuel as [|f IH]; intros j count Hj Hf; [lia|].
  cbn [countWorkingDays].
  destruct (Z.eq_dec j n) as [->|Hne].
  - pose proof (midnights_apart D n (n - 1) n H ltac:(lia) ltac:(lia) ltac:(lia)) as Ha.
    replace (D + (n - 1)) with (D + n - 1) in Ha by lia.
    unfold JS.msPerHour in Ha.
    destruct (Z.leb_spec (UTC LocalTZA (midnight (D + n))) (UTC LocalTZA (midnight (D + n - 1)))); [lia|].
    rewrite Z.sub_diag. simpl. lia.
  - pose proof (midnights_apart D n j (n - 1) H ltac:(lia) ltac:(lia) ltac:(lia)) as Ha.
    replace (D + (n - 1)) with (D + n - 1) in Ha by lia.
    unfold JS.msPerHour in Ha.
    destruct (Z.leb_spec (UTC LocalTZA (midnight (D + j))) (UTC LocalTZA (midnight (D + n - 1)))); [|lia].
    destruct (H j ltac:(lia)) as (Hl & _ & _).
    destruct (H (j + 1) ltac:(lia)) as (_ & Hv & _).
    rewrite setDate_next by exact Hl.
    replace (D + j + 1) with (D + (j + 1)) by lia.
    rewrite TimeClip_valid by exact Hv.
    rewrite isWorkingDay_midnight by exact Hl.
    rewrite IH by lia.
    replace (Z.to_nat (n - j)) with (S (Z.to_nat (n - (j + 1)))) by lia.
    cbn [workingDaysFrom]. replace (D + (j + 1)) with (D + j + 1) by lia. lia.
Qed.

(** A zone of fixed offset, within the range of time values. *)
Lemma midnightsInOrder_fixed D n (offset : Z) :
  (forall t b, LocalTZA t b = offset) ->
  Z.abs (midnight D - offset) <= 8640000000000000 ->
  Z.abs (midnight (D + n) - offset) <= 8640000000000000 ->
  midnightsInOrder LocalTZA D n.
Proof.
  intros Hz H0 Hn k Hk. unfold LocalTime, UTC. rewrite !Hz.
  unfold midnight, JS.msPerDay, JS.msPerHour in *. repeat split; lia.
Qed.

(** [new Date(year, month - 1, d)] for a year and a month the text names. *)
Lemma newDate_month y m d :
  0 <= y <= 9999 -> 1 <= m <= 12 ->
  newDate LocalTZA (JS.float_of_Z y) (PrimFloat.sub (JS.float_of_Z m) 1) d
  = JS.TimeClip (UTC LocalTZA (midnight (firstOfMonth y m + d - 1))).
Proof.
  intros Hy Hm. unfold newDate.
  rewrite (proj1 (ToInteger_small y Hy)).
  rewrite (proj2 (ToInteger_small m ltac:(lia))).
  unfold firstOfMonth, midnight. rewrite (MakeDay_date _ _ d). reflexivity.
Qed.

(** [new Date(year, month, 0)]: the last day of the month. *)
Lemma newDate_month_end y m :
  0 <= y <= 9999 -> 1 <= m <= 12 ->
  newDate LocalTZA (JS.float_of_Z y) (JS.float_of_Z m) 0
  = JS.TimeClip (UTC LocalTZA (midnight (firstOfMonth y m + daysInMonth y m - 1))).
Proof.
  intros Hy Hm. unfold newDate.
  rewrite (proj1 (ToInteger_small y Hy)).
  rewrite (proj1 (ToInteger_small m ltac:(lia))).
  unfold firstOfMonth, daysInMonth, midnight. rewrite (MakeDay_date _ _ 0).
  f_equal. f_equal. f_equal. lia.
Qed.

Lemma daysInMonth_range y m : 1 <= m <= 12 -> 28 <= daysInMonth y m <= 31.
Proof. intros Hm. unfold daysInMonth. apply month_length. exact Hm. Qed.

(** The working days of a whole month, where its midnights are in order. *)
Lemma getWorkingDaysInMonth_sum yearMonth y m :
  yearAndMonth yearMonth = (JS.float_of_Z y, JS.float_of_Z m) ->
  0 <= y <= 9999 -> 1 <= m <= 12 ->
  midnightsInOrder LocalTZA (firstOfMonth y m) (daysInMonth y m) ->
  getWorkingDaysInMonth LocalTZA yearMonth
  = workingDaysFrom (firstOfMonth y m) (Z.to_nat (daysInMonth y m)).
Proof.
  intros E Hy Hm H. pose proof (daysInMonth_range y m Hm) as Hl.
  unfold getWorkingDaysInMonth. rewrite E.
  rewrite newDate_month, newDate_month_end by assumption.
  set (D := firstOfMonth y m) in *. set (n := daysInMonth y m) in *.
  replace (D + 1 - 1) with (D + 0) by lia.
  destruct (H 0 ltac:(lia)) as (_ & Hv0 & _).
  destruct (H (n - 1) ltac:(lia)) as (_ & Hv1 & _).
  replace (D + (n - 1)) with (D + n - 1) in Hv1 by lia.
  rewrite !TimeClip_valid by assumption.
  rewrite <- (TimeClip_valid _ Hv0).
  rewrite TimeClip_valid by assumption.
  pose proof (midnights_apart D n 0 (n - 1) H ltac:(lia) ltac:(lia) ltac:(lia)) as Ha.
  replace (D + (n - 1)) with (D + n - 1) in Ha by lia.
  rewrite countWorkingDays_sum; try assumption; try lia.
  - rewrite Z.sub_0_r, Z.add_0_r. lia.
  - rewrite Z.sub_0_r.
    assert (n - 1 <= (UTC LocalTZA (midnight (D + n - 1)) - UTC LocalTZA (midnight (D + 0))) / JS.msPerHour).
    { apply Z.div_le_lower_bound; unfold JS.msPerHour in *; lia. }
    lia.
Qed.

End Midnights.

(** Whole weeks hold five working days each, whatever day they start on. *)
Theorem countWorkingDays_weeks LocalTZA k D fuel count :
  midnightsInOrder LocalTZA D (7 * Z.of_nat k) -> (1 <= k)%nat ->
  (7 * k < fuel)%nat ->
  countWorkingDays LocalTZA fuel (Some (UTC LocalTZA (midnight D)))
    (UTC LocalTZA (midnight (D + 7 * Z.of_nat k - 1))) count
  = count + 5 * Z.of_nat k.
Proof.
  intros H Hk Hf.
  pose proof (countWorkingDays_sum LocalTZA D (7 * Z.of_nat k) 0 fuel count H
                ltac:(lia) ltac:(lia) ltac:(lia)) as E.
  rewrite Z.add_0_r, Z.sub_0_r in E. rewrite E. f_equal.
  replace (Z.to_nat (7 * Z.of_nat k)) with (7 * k)%nat by lia.
  apply workingDaysFrom_weeks.
Qed.

(** A month named as YYYY-MM has between 20 and 23 working days. *)
Theorem getWorkingDaysInMonth_range LocalTZA yearMonth y m :
  yearAndMonth yearMonth = (JS.float_of_Z y, JS.float_of_Z m) ->
  0 <= y <= 9999 -> 1 <= m <= 12 ->
  midnightsInOrder LocalTZA (firstOfMonth y m) (daysInMonth y m) ->
  20 <= getWorkingDaysInMonth LocalTZA yearMonth <= 23.
Proof.
  intros E Hy Hm H.
  rewrite (getWorkingDaysInMonth_sum LocalTZA yearMonth y m E Hy Hm H).
  pose proof (daysInMonth_range y m Hm) as Hl.
  assert (Hk : exists k, Z.to_nat (daysInMonth y m) = (28 + k)%nat /\ (k <= 3)%nat).
  { exists (Z.to_nat (daysInMonth y m) - 28)%nat. lia. }
  destruct Hk as [k [-> Hk]].
  rewrite workingDaysFrom_four_weeks.
  pose proof (workingDaysFrom_bounds (firstOfMonth y m + 28) k). lia.
Qed.

Section ToDate.
Variable LocalTZA : Z -> bool -> Z.

Lemma getDate_range t : 1 <= getDate LocalTZA t <= 31.
Proof. unfold getDate, JS.DateFromTime. apply civil_from_days_range. Qed.

Lemma countDaysUpTo_bounds fuel year mon d last count :
  count <= countDaysUpTo LocalTZA fuel year mon d last count <= count + Z.of_nat fuel.
Proof.
  revert d count. induction fuel as [|f IH]; intros d count.
  - simpl. lia.
  - cbn [countDaysUpTo]. destruct (d <=? last); [|lia].
    match goal with |- context [countDaysUpTo _ f year mon (d + 1) last ?c] =>
      specialize (IH (d + 1) c) end.
    destruct (isWorkingDay _ _); lia.
Qed.

(** With the midnights in order the loop of the summary counts the Mondays
    to Fridays among the days [d] to [last] of the month. *)
Lemma countDaysUpTo_sum fuel y m d last count :
  0 <= y <= 9999 -> 1 <= m <= 12 -> 1 <= d ->
  midnightsInOrder LocalTZA (firstOfMonth y m) (last - 1) ->
  Z.of_nat fuel = last - d + 1 ->
  countDaysUpTo LocalTZA fuel (JS.float_of_Z y) (JS.float_of_Z m) d last count
  = count + workingDaysFrom (firstOfMonth y m + d - 1) fuel.
Proof.
  intros Hy Hm Hd H. revert d count Hd. induction fuel as [|f IH]; intros d count Hd Hf.
  - simpl. lia.
  - cbn [countDaysUpTo workingDaysFrom].
    destruct (Z.leb_spec d last); [|lia].
    rewrite IH by lia.
    rewrite newDate_month by assumption.
    destruct (H (d - 1) ltac:(lia)) as (Hl & Hv & _).
    replace (firstOfMonth y m + (d - 1)) with (firstOfMonth y m + d - 1) in * by lia.
    rewrite TimeClip_valid by exact Hv.
    rewrite isWorkingDay_midnight by exact Hl.
    replace (firstOfMonth y m + (d + 1) - 1) with (firstOfMonth y m + d - 1 + 1) by lia.
    lia.
Qed.

Lemma workingDaysToDate_sum month today y m :
  yearAndMonth month = (JS.float_of_Z y, JS.float_of_Z m) ->
  0 <= y <= 9999 -> 1 <= m <= 12 ->
  midnightsInOrder LocalTZA (firstOfMonth y m) (getDate LocalTZA today - 1) ->
  workingDaysToDate LocalTZA month today
  = workingDaysFrom (firstOfMonth y m) (Z.to_nat (getDate LocalTZA today)).
Proof.
  intros E Hy Hm H. pose proof (getDate_range today) as Hg.
  unfold workingDaysToDate. rewrite E.
  rewrite (countDaysUpTo_sum _ y m 1 (getDate LocalTZA today) 0 Hy Hm ltac:(lia) H)
    by (rewrite Z2Nat.id; lia).
  replace (firstOfMonth y m + 1 - 1) with (firstOfMonth y m) by lia. lia.
Qed.

(** The working days counted up to today are never more than the day of
    the month. *)
Theorem workingDaysToDate_bounds month today :
  0 <= workingDaysToDate LocalTZA month today <= getDate LocalTZA today.
Proof.
  pose proof (getDate_range today) as Hg.
  unfold workingDaysToDate. destruct (yearAndMonth month) as [year mon].
  pose proof (countDaysUpTo_bounds (Z.to_nat (getDate LocalTZA today)) year mon 1
                (getDate LocalTZA today) 0) as H.
  rewrite Z2Nat.id in H by lia. lia.
Qed.

(** Within the month of today's local date, the working days counted up
    to today do not exceed those of the whole month. *)
Theorem workingDaysToDate_le_month month today y m :
  yearAndMonth month = (JS.float_of_Z y, JS.float_of_Z m) ->
  JS.YearFromTime (LocalTime LocalTZA today) = y ->
  JS.MonthFromTime (LocalTime LocalTZA today) + 1 = m ->
  100 <= y <= 9999 ->
  midnightsInOrder LocalTZA (firstOfMonth y m) (daysInMonth y m) ->
  workingDaysToDate LocalTZA month today <= getWorkingDaysInMonth LocalTZA month.
Proof.
  intros E Hy Hm H100 H.
  pose proof (getDate_range today) as Hg.
  pose proof (civil_month_bounds (JS.Day (LocalTime LocalTZA today))) as Hc.
  assert (Hm12 : 1 <= m <= 12).
  { pose proof (month_date_range (LocalTime LocalTZA today)). lia. }
  assert (Hd : getDate LocalTZA today <= daysInMonth y m).
  { unfold getDate, daysInMonth, JS.YearFromTime, JS.MonthFromTime, JS.DateFromTime in *.
    destruct (JS.civil_from_days (JS.Day (LocalTime LocalTZA today))) as [[y0 m0] d0].
    cbn [fst snd] in *. subst y0. assert (m0 = m) by lia. subst m0.
    destruct Hc as (_ & _ & Hz & Hlt).
    assert (Eyr : JS.MakeFullYear y = y).
    { unfold JS.MakeFullYear. destruct (Z.leb_spec y 99); [lia|].
      rewrite andb_false_r. reflexivity. }
    rewrite Eyr. rewrite (MakeDay_date y (m - 1) d0) in Hz. lia. }
  rewrite (getWorkingDaysInMonth_sum LocalTZA month y m E ltac:(lia) Hm12 H).
  assert (Hle : getDate LocalTZA today - 1 <= daysInMonth y m) by lia.
  rewrite (workingDaysToDate_sum month today y m E ltac:(lia) Hm12
             (midnightsInOrder_le LocalTZA _ _ _ H Hle)).
  replace (Z.to_nat (daysInMonth y m))
    with (Z.to_nat (getDate LocalTZA today)
          + Z.to_nat (daysInMonth y m - getDate LocalTZA today))%nat by lia.
  rewrite workingDaysFrom_app.
  pose proof (workingDaysFrom_bounds
                (firstOfMonth y m + Z.of_nat (Z.to_nat (getDate LocalTZA today)))
                (Z.to_nat (daysInMonth y m - getDate LocalTZA today))).
  lia.
Qed.

End ToDate.

(** ** Lookups after a write *)

Lemma Map_get_set_same {V} (m : list (string * V)) k v :
  MemStorage.Map_get k (MemStorage.Map_set k v m) = Some v.
Proof.
  induction m as [|[k' v'] m IH]; simpl.
  - rewrite String.eqb_refl. reflexivity.
  - destruct (String.eqb k' k) eqn:E; simpl.
    + rewrite String.eqb_refl. reflexivity.
    + rewrite E. exact IH.
Qed.

Lemma Map_get_set_other {V} (m : list (string * V)) k k' v :
  k' <> k -> MemStorage.Map_get k' (MemStorage.Map_set k v m) = MemStorage.Map_get k' m.
Proof.
  intros Hk. induction m as [|[k0 v0] m IH]; simpl.
  - destruct (String.eqb_spec k k'); [congruence|reflexivity].
  - destruct (String.eqb_spec k0 k); simpl.
    + subst k0. destruct (String.eqb_spec k k'); [congruence|reflexivity].
    + destruct (String.eqb k0 k'); [reflexivity|exact IH].
Qed.

Lemma find_app_none {A} (p : A -> bool) l1 l2 :
  find p l1 = None -> find p (l1 ++ l2) = find p l2.
Proof.
  induction l1 as [|x xs IH]; simpl; [reflexivity|].
  destruct (p x); [discriminate|exact IH].
Qed.

Lemma find_app_some {A} (p : A -> bool) l1 l2 x :
  find p l1 = Some x -> find p (l1 ++ l2) = Some x.
Proof.
  induction l1 as [|y ys IH]; simpl; [discriminate|].
  destruct (p y); [auto|exact IH].
Qed.

Lemma find_app_last {A} (p : A -> bool) l x :
  p x = false -> find p (l ++ [x]) = find p l.
Proof.
  intros Hx. induction l as [|y ys IH]; simpl.
  - rewrite Hx. reflexivity.
  - destruct (p y); [reflexivity|exact IH].
Qed.

Lemma find_id_none (docs : list Attendance) k :
  existsb (String.eqb k) (map id docs) = false ->
  find (fun a => String.eqb (id a) k) docs = None.
Proof.
  induction docs as [|x xs IH]; simpl; [reflexivity|].
  intros H. apply orb_false_iff in H. destruct H as [H1 H2].
  rewrite String.eqb_sym, H1. apply IH. exact H2.
Qed.

Lemma find_key_Map_set u d k (v : Attendance) m :
  find (hasKey u d) (MemStorage.Map_values m) = None -> hasKey u d v = true ->
  find (hasKey u d) (MemStorage.Map_values (MemStorage.Map_set k v m)) = Some v.
Proof.
  unfold MemStorage.Map_values. intros Hn Hv.
  induction m as [|[k' v'] m IH]; simpl in *.
  - rewrite Hv. reflexivity.
  - destruct (hasKey u d v') eqn:E; [discriminate|].
    destruct (String.eqb k' k); simpl.
    + rewrite Hv. reflexivity.
    + rewrite E. apply IH. exact Hn.
Qed.

(** A record just created is found under its id and under its user and
    day, and the other ids read as before. *)
Theorem createAttendance_then_get storage uuid now ins a storage' :
  createAttendance storage uuid now ins = inr (a, storage') ->
  getAttendance storage' uuid = Some a
  /\ (forall k, k <> uuid -> getAttendance storage' k = getAttendance storage k)
  /\ (getAttendanceByUserAndDate storage (i_userId ins) (i_date ins) = None ->
      getAttendanceByUserAndDate storage' (i_userId ins) (i_date ins) = Some a).
Proof.
  destruct storage as [st|st]; simpl.
  - intros H. injection H as <- <-. simpl. repeat split.
    + apply Map_get_set_same.
    + intros k Hk. apply Map_get_set_other. exact Hk.
    + intros Hn. unfold MemStorage.getAttendanceByUserAndDate in *. simpl.
      apply (find_key_Map_set (i_userId ins) (i_date ins)); [exact Hn|].
      unfold hasKey. simpl. rewrite !String.eqb_refl. reflexivity.
  - unfold MongoStorage.createAttendance.
    destruct (negb _); [discriminate|].
    destruct (MongoStorage.attendanceConflict _ _) eqn:Hc; [discriminate|].
    intros H. injection H as <- <-. apply conflict_false in Hc.
    destruct Hc as (Hid & _ & _). simpl in Hid.
    cbn [getAttendance getAttendanceByUserAndDate].
    unfold MongoStorage.getAttendance, MongoStorage.getAttendanceByUserAndDate.
    cbn [MongoStorage.attendance]. repeat split.
    + rewrite find_app_none by (apply find_id_none; exact Hid).
      simpl. rewrite String.eqb_refl. reflexivity.
    + intros k Hk. apply find_app_last. simpl. apply String.eqb_neq. congruence.
    + intros Hn. rewrite find_app_none by exact Hn.
      simpl. rewrite !String.eqb_refl. reflexivity.
Qed.

Lemma find_replaceFirst_same {A} (p : A -> bool) v l e :
  find p l = Some e -> p v = true -> find p (MongoStorage.replaceFirst p v l) = Some v.
Proof.
  induction l as [|x xs IH]; simpl; [discriminate|].
  destruct (p x) eqn:E; simpl.
  - intros _ Hv. rewrite Hv. reflexivity.
  - intros H Hv. rewrite E. apply IH; assumption.
Qed.

Lemma find_replaceFirst_other {A} (p q : A -> bool) v l :
  (forall x, p x = true -> q x = false) -> q v = false ->
  find q (MongoStorage.replaceFirst p v l) = find q l.
Proof.
  intros Hpq Hv. induction l as [|x xs IH]; simpl; [reflexivity|].
  destruct (p x) eqn:E; simpl.
  - rewrite Hv, (Hpq x E). reflexivity.
  - destruct (q x); [reflexivity|exact IH].
Qed.

Lemma Mongo_update_accepted st e updated :
  wellFormed (Mongo st) = true -> In e (MongoStorage.attendance st) ->
  id updated = id e -> userId updated = userId e -> date updated = date e ->
  MongoStorage.attendanceConflict
    (MongoStorage.dropFirst (fun x => String.eqb (id x) (id e)) (MongoStorage.attendance st))
    updated = false.
Proof.
  simpl. intros Hwf Hin Hi Hu Hd.
  apply andb_true_iff in Hwf. destruct Hwf as [Hdis Hf].
  pose proof (find_by_id_distinct _ _ Hdis Hin) as Hg.
  unfold MongoStorage.attendanceConflict.
  apply not_true_iff_false. intros Hex. apply existsb_exists in Hex.
  destruct Hex as (x & Hx & Hc).
  pose proof (dropFirst_no_id _ _ Hdis Hin x Hx) as Hid.
  rewrite forallb_forall in Hf. pose proof (Hf _ Hin) as H1.
  apply Nat.eqb_eq in H1.
  rewrite (keyCount_dropFirst _ _ _ _ _ Hg), hasKey_self in H1.
  assert (H0 : keyCount (userId e) (date e)
            (MongoStorage.dropFirst (fun x => String.eqb (id x) (id e))
               (MongoStorage.attendance st)) = 0%nat) by lia.
  pose proof (keyCount_zero_notIn _ _ _ _ H0 Hx) as Hk.
  unfold MongoStorage.sameId, MongoStorage.sameUserAndDate in Hc.
  rewrite Hi, Hu, Hd in Hc.
  unfold hasKey in Hk. rewrite Hid, Hk in Hc. discriminate.
Qed.

(** An update of an unknown id writes nothing; an update that keeps the
    id, the user and the day is read back under its id, and the other ids
    read as before. *)
Theorem updateAttendance_then_get storage k updates :
  (getAttendance storage k = None ->
   updateAttendance storage k updates = inr (None, storage))
  /\ (forall e,
        wellFormed storage = true ->
        getAttendance storage k = Some e ->
        p_id updates = None -> p_userId updates = None -> p_date updates = None ->
        exists storage',
          updateAttendance storage k updates = inr (Some (merge e updates), storage')
          /\ getAttendance storage' k = Some (merge e updates)
          /\ (forall k', k' <> k -> getAttendance storage' k' = getAttendance storage k')).
Proof.
  split.
  - destruct storage as [st|st]; simpl.
    + unfold MemStorage.getAttendance, MemStorage.updateAttendance. intros ->. reflexivity.
    + unfold MongoStorage.getAttendance, MongoStorage.updateAttendance. intros ->. reflexivity.
  - intros e Hwf Hg Hi Hu Hd. destruct storage as [st|st]; simpl in Hg |- *.
    + unfold MemStorage.getAttendance in Hg. unfold MemStorage.updateAttendance.
      rewrite Hg. eexists. split; [reflexivity|].
      unfold MemStorage.getAttendance. simpl. split.
      * apply Map_get_set_same.
      * intros k' Hk. apply Map_get_set_other. exact Hk.
    + unfold MongoStorage.getAttendance in Hg. unfold MongoStorage.updateAttendance.
      rewrite Hg. pose proof (find_some _ _ Hg) as [Hin Hk].
      apply String.eqb_eq in Hk. subst k.
      assert (Hm : id (merge e updates) = id e /\ userId (merge e updates) = userId e
                   /\ date (merge e updates) = date e).
      { unfold merge. simpl. rewrite Hi, Hu, Hd. auto. }
      destruct Hm as (Hm1 & Hm2 & Hm3).
      rewrite (Mongo_update_accepted st e (merge e updates) Hwf Hin Hm1 Hm2 Hm3).
      eexists. split; [reflexivity|].
      unfold MongoStorage.getAttendance. simpl. split.
      * apply (find_replaceFirst_same _ _ _ e); [exact Hg|].
        rewrite Hm1. apply String.eqb_refl.
      * intros k' Hk'. apply find_replaceFirst_other.
        -- intros x Hx. apply String.eqb_eq in Hx. rewrite Hx.
           apply String.eqb_neq. congruence.
        -- rewrite Hm1. apply String.eqb_neq. congruence.
Qed.

(** ** Queries keep every matching record once *)

Section SortPermutation.
Context {A : Type} (cmp : A -> A -> Z).

Lemma insert_sorted_Permutation x l : Permutation (insert_sorted cmp x l) (x :: l).
Proof.
  induction l as [|y ys IH]; simpl; [reflexivity|].
  destruct (cmp x y <=? 0); [reflexivity|].
  rewrite IH. apply perm_swap.
Qed.

Lemma sort_Permutation l : Permutation (sort cmp l) l.
Proof.
  induction l as [|x xs IH]; [reflexivity|].
  unfold sort in *. simpl. rewrite insert_sorted_Permutation. constructor. exact IH.
Qed.
End SortPermutation.

Lemma filter_filter {A} (p q : A -> bool) l :
  filter p (filter q l) = filter (fun a => q a && p a) l.
Proof.
  induction l as [|x xs IH]; simpl; [reflexivity|].
  destruct (q x); simpl; [|exact IH].
  destruct (p x); rewrite IH; reflexivity.
Qed.

Lemma filter_opt {A} (o : option string) (p : string -> A -> bool) l :
  match o with Some s => filter (p s) l | None => l end
  = filter (fun a => MongoStorage.holds o (fun s => p s a)) l.
Proof.
  destruct o; simpl; [reflexivity|].
  induction l as [|x xs IH]; simpl; [reflexivity|]. rewrite <- IH. reflexivity.
Qed.

Lemma filter_true {A} (l : list A) : filter (fun _ => true) l = l.
Proof. induction l as [|x xs IH]; simpl; [reflexivity|]. rewrite IH. reflexivity. Qed.

(** ** The order of the results of [MemStorage] *)

Lemma storedDate_parses s : storedDate s -> exists t, JS.parseDate s = Some t.
Proof.
  intros (t & Hy & ->). eexists. apply parseDate_isoDate. exact Hy.
Qed.

Lemma notLater_trans a b c : notLater a b -> notLater b c -> notLater a c.
Proof.
  intros (ta & tb & Ha & Hb & Hab) (tb' & tc & Hb' & Hc & Hbc).
  rewrite Hb in Hb'. injection Hb' as <-.
  exists ta, tc. repeat split; try assumption. lia.
Qed.

Lemma Mem_sorted_notLater l :
  (forall a, In a l -> storedDate (date a)) ->
  LocallySorted (fun a b => MemStorage.byDateDesc a b <= 0) l ->
  StronglySorted notLater l.
Proof.
  intros Hd Hs. induction Hs as [|a|a b l Hs IH Hab].
  - constructor.
  - constructor; constructor.
  - assert (Hbl : StronglySorted notLater (b :: l)).
    { apply IH. intros x Hx. apply Hd. right. exact Hx. }
    assert (Hn : notLater a b).
    { destruct (storedDate_parses _ (Hd a (or_introl eq_refl))) as [ta Ha].
      destruct (storedDate_parses _ (Hd b (or_intror (or_introl eq_refl)))) as [tb Hb].
      unfold MemStorage.byDateDesc in Hab. rewrite Ha, Hb in Hab.
      exists ta, tb. repeat split; try assumption. lia. }
    constructor; [exact Hbl|].
    constructor; [exact Hn|].
    apply StronglySorted_inv in Hbl. destruct Hbl as [_ Hall].
    eapply Forall_impl; [|exact Hall].
    intros x Hx. exact (notLater_trans a b x Hn Hx).
Qed.

Lemma Mem_sort_notLater l :
  (forall a, In a l -> storedDate (date a)) ->
  StronglySorted notLater (sort MemStorage.byDateDesc l).
Proof.
  intros Hd. apply Mem_sorted_notLater.
  - intros a Ha. apply Hd. apply (Permutation_in a (sort_Permutation MemStorage.byDateDesc l)). exact Ha.
  - apply sort_sorted. apply Mem_byDateDesc_total.
Qed.

(** [MemStorage.getAllAttendance] returns the records that satisfy every
    supplied filter; over dates as the routes write them, a record of a
    later date comes before every record of an earlier one. *)
Theorem Mem_getAllAttendance_spec st f :
  (forall a, In a (records (Mem st)) -> storedDate (date a)) ->
  (forall a, In a (MemStorage.getAllAttendance st f)
             <-> In a (records (Mem st)) /\ satisfies f a = true)
  /\ StronglySorted notLater (MemStorage.getAllAttendance st f).
Proof.
  intros Hd.
  assert (Hin : forall a, In a (MemStorage.getAllAttendance st f)
                          <-> In a (records (Mem st)) /\ satisfies f a = true).
  { intros a. unfold MemStorage.getAllAttendance, satisfies. rewrite sort_In.
    rewrite (filter_opt_In (JS.supplied (f_to f)) (fun to a => JS.str_le (date a) to)).
    rewrite (filter_opt_In (JS.supplied (f_from f)) (fun from a => JS.str_ge (date a) from)).
    rewrite (filter_opt_In (JS.supplied (f_status f))
               (fun s a => String.eqb (Status_text (status a)) s)).
    rewrite (filter_opt_In (JS.supplied (f_date f)) (fun d a => String.eqb (date a) d)).
    rewrite (filter_opt_In (JS.supplied (f_employeeId f)) (fun e a => String.eqb (userId a) e)).
    simpl. rewrite !andb_true_iff. tauto. }
  split; [exact Hin|].
  assert (Hall : Forall (fun a => storedDate (date a)) (MemStorage.getAllAttendance st f)).
  { apply Forall_forall. intros a Ha. apply Hd. apply Hin. exact Ha. }
  revert Hall. unfold MemStorage.getAllAttendance.
  match goal with |- Forall _ (sort _ ?l) -> _ => generalize l end.
  intros l Hall. apply Mem_sort_notLater.
  intros a Ha. rewrite Forall_forall in Hall. apply Hall.
  apply (Permutation_in a (Permutation_sym (sort_Permutation MemStorage.byDateDesc l))). exact Ha.
Qed.

Section Queries.
Variable regexTest : string -> string -> bool.

(** [getAllAttendance] returns each record that satisfies the supplied
    filters exactly once: its result is a rearrangement of those records. *)
Theorem getAllAttendance_Permutation :
  (forall st f,
     Permutation (MemStorage.getAllAttendance st f)
       (filter (satisfies f) (records (Mem st))))
  /\ (forall st f,
        JS.supplied (f_date f) = None
        \/ (JS.supplied (f_from f) = None /\ JS.supplied (f_to f) = None) ->
        Permutation (MongoStorage.getAllAttendance regexTest st f)
          (filter (satisfies f) (records (Mongo st)))).
Proof.
  split.
  - intros st f. unfold MemStorage.getAllAttendance. rewrite sort_Permutation.
    rewrite (filter_opt (JS.supplied (f_to f)) (fun to a => JS.str_le (date a) to)).
    rewrite (filter_opt (JS.supplied (f_from f)) (fun from a => JS.str_ge (date a) from)).
    rewrite (filter_opt (JS.supplied (f_status f))
               (fun s a => String.eqb (Status_text (status a)) s)).
    rewrite (filter_opt (JS.supplied (f_date f)) (fun d a => String.eqb (date a) d)).
    rewrite (filter_opt (JS.supplied (f_employeeId f)) (fun e a => String.eqb (userId a) e)).
    rewrite !filter_filter. cbn [records].
    match goal with |- Permutation (filter ?p _) _ =>
      rewrite (filter_ext p (satisfies f)); [reflexivity|] end.
    intros a. unfold satisfies. rewrite !andb_assoc. reflexivity.
  - intros st f H. unfold MongoStorage.getAllAttendance, MongoStorage.find_.
    rewrite sort_Permutation. cbn [records].
    match goal with |- Permutation (filter ?p _) _ =>
      rewrite (filter_ext p (satisfies f)); [reflexivity|] end.
    intros a. unfold MongoStorage.matches, satisfies.
    destruct (JS.supplied (f_employeeId f)), (JS.supplied (f_status f)),
      (JS.supplied (f_date f)), (JS.supplied (f_from f)), (JS.supplied (f_to f));
      cbn -[String.eqb JS.str_ge JS.str_le];
      try (destruct H as [H|[H1 H2]]; discriminate);
      repeat match goal with
             | |- context [String.eqb ?x ?y] =>
                 let b := fresh "b" in set (b := String.eqb x y); clearbody b
             | |- context [JS.str_ge ?x ?y] =>
                 let b := fresh "b" in set (b := JS.str_ge x y); clearbody b
             | |- context [JS.str_le ?x ?y] =>
                 let b := fresh "b" in set (b := JS.str_le x y); clearbody b
             end;
      repeat match goal with b : bool |- _ => destruct b end; reflexivity.
Qed.

Lemma getAttendanceByUser_Permutation storage u month :
  (forall m s, JS.supplied month = Some m -> regexTest ("^" ++ m) s = JS.startsWith s m) ->
  Permutation (getAttendanceByUser regexTest storage u month)
    (filter (ofUserAndMonth u month) (records storage)).
Proof.
  intros Hre. unfold ofUserAndMonth.
  destruct storage as [st|st]; cbn [getAttendanceByUser records].
  - unfold MemStorage.getAttendanceByUser. rewrite sort_Permutation.
    rewrite (filter_opt (JS.supplied month) (fun m a => JS.startsWith (date a) m)).
    rewrite filter_filter. reflexivity.
  - unfold MongoStorage.getAttendanceByUser, MongoStorage.find_.
    rewrite sort_Permutation.
    match goal with |- Permutation (filter ?p _) (filter ?q _) =>
      rewrite (filter_ext p q); [reflexivity|] end.
    intros a. unfold MongoStorage.matches.
    destruct (JS.supplied month) as [m|] eqn:E; cbn -[String.eqb JS.startsWith append].
    + rewrite (Hre m (date a) eq_refl), andb_true_r. reflexivity.
    + rewrite !andb_true_r. reflexivity.
Qed.

(** [getAttendanceByUser] returns the records of the user, of the month
    when one is given, each once and latest date first: in [MongoStorage] by
    the order of the date texts, in [MemStorage], over dates as the routes
    write them, by the instants the texts denote. *)
Theorem getAttendanceByUser_spec storage u month :
  (forall m s, JS.supplied month = Some m -> regexTest ("^" ++ m) s = JS.startsWith s m) ->
  Permutation (getAttendanceByUser regexTest storage u month)
    (filter (fun a => String.eqb (userId a) u
                      && MongoStorage.holds (JS.supplied month)
                           (fun m => JS.startsWith (date a) m))
       (records storage))
  /\ match storage with
     | Mem _ =>
         (forall a, In a (records storage) -> storedDate (date a)) ->
         StronglySorted notLater (getAttendanceByUser regexTest storage u month)
     | Mongo _ =>
         LocallySorted (fun a b => MongoStorage.byDateDesc a b <= 0)
           (getAttendanceByUser regexTest storage u month)
     end.
Proof.
  intros Hre. split; [exact (getAttendanceByUser_Permutation storage u month Hre)|].
  destruct storage as [st|st]; cbn [getAttendanceByUser records].
  - intros Hd. unfold MemStorage.getAttendanceByUser. apply Mem_sort_notLater.
    intros a Ha. apply Hd.
    destruct (JS.supplied month); repeat (apply filter_In in Ha; destruct Ha as [Ha _]);
      exact Ha.
  - apply sort_sorted. apply Mongo_byDateDesc_total.
Qed.

End Queries.

(** ** Accounts *)

Lemma find_Map_set_new {V} (p : V -> bool) k v (m : list (string * V)) :
  find p (MemStorage.Map_values m) = None -> p v = true ->
  find p (MemStorage.Map_values (MemStorage.Map_set k v m)) = Some v.
Proof.
  unfold MemStorage.Map_values. intros Hn Hv.
  induction m as [|[k' v'] m IH]; simpl in *.
  - rewrite Hv. reflexivity.
  - destruct (p v') eqn:E; [discriminate|].
    destruct (String.eqb k' k); simpl.
    + rewrite Hv. reflexivity.
    + rewrite E. apply IH. exact Hn.
Qed.

Lemma find_snoc_new {A} (p : A -> bool) l v :
  find p l = None -> p v = true -> find p (l ++ [v]) = Some v.
Proof.
  intros Hn Hv. rewrite find_app_none by exact Hn. simpl. rewrite Hv. reflexivity.
Qed.

Section Accounts.
Variable compare : string -> string -> bool.
Variable toLowerCase : string -> string.

Lemma register_created storage clk uuid hp tok body r storage1 :
  register toLowerCase storage clk uuid hp tok body = (Sent 201 r, storage1) ->
  exists name e password role eid dept user,
    JS.supplied (rb_email body) = Some e
    /\ JS.supplied (rb_employeeId body) = Some eid
    /\ getUserByEmail toLowerCase storage e = None
    /\ getUserByEmployeeId storage eid = None
    /\ createUser toLowerCase storage uuid hp (clk 0%nat) (mkInsertUser name e password role eid dept)
       = inr (user, storage1)
    /\ r = (sanitizeUser user, tok).
Proof.
  unfold register.
  destruct (JS.supplied (rb_name body)) as [name|]; [|discriminate].
  destruct (JS.supplied (rb_email body)) as [e|]; [|discriminate].
  destruct (JS.supplied (rb_password body)) as [password|]; [|discriminate].
  destruct (JS.supplied (rb_role body)) as [role|]; [|discriminate].
  destruct (JS.supplied (rb_employeeId body)) as [eid|]; [|discriminate].
  destruct (JS.supplied (rb_department body)) as [dept|]; [|discriminate].
  destruct (roleOfText role) as [ro|]; [|discriminate].
  destruct (getUserByEmail toLowerCase storage e) eqn:He; [discriminate|].
  destruct (getUserByEmployeeId storage eid) eqn:Hi; [discriminate|].
  destruct (createUser _ _ _ _ _) as [err|[user st']] eqn:Hc; [discriminate|].
  intros H. injection H as <- <-.
  exists name, e, password, ro, eid, dept, user. repeat split; assumption.
Qed.

Lemma createUser_lookup storage uuid hp now iu user storage1 :
  createUser toLowerCase storage uuid hp now iu = inr (user, storage1) ->
  u_password user = hp
  /\ (getUserByEmail toLowerCase storage (iu_email iu) = None ->
      forall e', toLowerCase e' = toLowerCase (iu_email iu) ->
                 getUserByEmail toLowerCase storage1 e' = Some user)
  /\ (getUserByEmployeeId storage (iu_employeeId iu) = None ->
      getUserByEmployeeId storage1 (iu_employeeId iu) = Some user).
Proof.
  destruct storage as [st|st]; cbn [createUser].
  - unfold MemStorage.createUser. intros H. injection H as <- <-.
    cbn [getUserByEmail getUserByEmployeeId].
    unfold MemStorage.getUserByEmail, MemStorage.getUserByEmployeeId.
    cbn [MemStorage.users u_password]. repeat split.
    + intros Hn e' He. rewrite He. apply find_Map_set_new; [exact Hn|].
      cbn [u_email]. apply String.eqb_refl.
    + intros Hn. apply find_Map_set_new; [exact Hn|]. cbn [u_employeeId].
      apply String.eqb_refl.
  - unfold MongoStorage.createUser.
    destruct (negb _); [discriminate|].
    destruct (MongoStorage.userConflict _ _); [discriminate|].
    intros H. injection H as <- <-.
    cbn [getUserByEmail getUserByEmployeeId].
    unfold MongoStorage.getUserByEmail, MongoStorage.getUserByEmployeeId.
    cbn [MongoStorage.users u_password]. repeat split.
    + intros Hn e' He. rewrite He. apply find_snoc_new; [exact Hn|].
      cbn [u_email]. apply String.eqb_refl.
    + intros Hn. apply find_snoc_new; [exact Hn|]. cbn [u_employeeId].
      apply String.eqb_refl.
Qed.

Lemma createUser_getUser storage uuid hp now iu user storage1 :
  createUser toLowerCase storage uuid hp now iu = inr (user, storage1) ->
  getUser storage1 (u_id user) = Some user.
Proof.
  destruct storage as [st|st]; cbn [createUser].
  - unfold MemStorage.createUser. intros H. injection H as <- <-.
    cbn [getUser u_id]. unfold MemStorage.getUser. cbn [MemStorage.users].
    apply Map_get_set_same.
  - unfold MongoStorage.createUser.
    destruct (negb _); [discriminate|].
    destruct (MongoStorage.userConflict _ _) eqn:Hc; [discriminate|].
    intros H. injection H as <- <-.
    cbn [getUser u_id]. unfold MongoStorage.getUser. cbn [MongoStorage.users].
    apply find_snoc_new; [|cbn [u_id]; apply String.eqb_refl].
    unfold MongoStorage.userConflict in Hc. cbn [u_id] in Hc.
    induction (MongoStorage.users st) as [|x xs IH]; [reflexivity|].
    cbn [existsb find] in *. apply orb_false_iff in Hc. destruct Hc as [Hx Hxs].
    apply orb_false_iff in Hx. destruct Hx as [Hx _].
    apply orb_false_iff in Hx. destruct Hx as [Hx _].
    rewrite Hx. apply IH. exact Hxs.
Qed.


(** After a registration, a second one with the same email, in whatever
    letter case, or with the same employee id is refused and writes nothing. *)
Theorem register_twice storage clk uuid hp tok body r storage1 e eid
    clk' uuid' hp' tok' body' :
  register toLowerCase storage clk uuid hp tok body = (Sent 201 r, storage1) ->
  JS.supplied (rb_email body) = Some e ->
  JS.supplied (rb_employeeId body) = Some eid ->
  (forall e', JS.supplied (rb_email body') = Some e' ->
              toLowerCase e' = toLowerCase e ->
     register toLowerCase storage1 clk' uuid' hp' tok' body'
       = (Failed 400 "All fields are required", storage1)
     \/ register toLowerCase storage1 clk' uuid' hp' tok' body'
       = (Failed 400 "Role must be 'employee' or 'manager'", storage1)
     \/ register toLowerCase storage1 clk' uuid' hp' tok' body'
       = (Failed 400 "Email already registered", storage1))
  /\ (JS.supplied (rb_employeeId body') = Some eid ->
      exists msg, register toLowerCase storage1 clk' uuid' hp' tok' body' = (Failed 400 msg, storage1)).
Proof.
  intros H He Hi. apply register_created in H.
  destruct H as (name & e0 & pw & ro & eid0 & dept & user & He0 & Hi0 & Hne & Hni & Hc & _).
  rewrite He in He0. injection He0 as <-. rewrite Hi in Hi0. injection Hi0 as <-.
  apply createUser_lookup in Hc. cbn [iu_email iu_employeeId] in Hc.
  destruct Hc as (_ & Hle & Hli). specialize (Hle Hne). specialize (Hli Hni).
  split.
  - intros e' He' Hl. unfold register. rewrite He'.
    destruct (JS.supplied (rb_name body')); [|auto].
    destruct (JS.supplied (rb_password body')); [|auto].
    destruct (JS.supplied (rb_role body')) as [role'|]; [|auto].
    destruct (JS.supplied (rb_employeeId body')); [|auto].
    destruct (JS.supplied (rb_department body')); [|auto].
    destruct (roleOfText role'); [|auto].
    rewrite (Hle e' Hl). auto.
  - intros Hi'. unfold register. rewrite Hi'.
    destruct (JS.supplied (rb_name body')); [|eauto].
    destruct (JS.supplied (rb_email body')) as [e'|]; [|eauto].
    destruct (JS.supplied (rb_password body')); [|eauto].
    destruct (JS.supplied (rb_role body')) as [role'|]; [|eauto].
    destruct (JS.supplied (rb_department body')); [|eauto].
    destruct (roleOfText role'); [|eauto].
    destruct (getUserByEmail toLowerCase storage1 e'); [eauto|].
    rewrite Hli. eauto.
Qed.

(** After a registration, a login with the registered email, in whatever
    letter case, is decided by the stored hash alone and answers with the
    user the registration answered with. *)
Theorem register_then_login storage clk uuid hp tok body r storage1 e tok' lbody e' p :
  register toLowerCase storage clk uuid hp tok body = (Sent 201 r, storage1) ->
  JS.supplied (rb_email body) = Some e ->
  JS.supplied (lb_email lbody) = Some e' ->
  JS.supplied (lb_password lbody) = Some p ->
  toLowerCase e' = toLowerCase e ->
  login compare toLowerCase storage1 tok' lbody
  = if compare p hp then Sent 200 (fst r, tok') else Failed 401 "Invalid credentials".
Proof.
  intros H He He' Hp Hl. apply register_created in H.
  destruct H as (name & e0 & pw & ro & eid0 & dept & user & He0 & _ & Hne & _ & Hc & ->).
  rewrite He in He0. injection He0 as <-.
  apply createUser_lookup in Hc. cbn [iu_email] in Hc.
  destruct Hc as (Hpw & Hle & _). specialize (Hle Hne e' Hl).
  unfold login. rewrite He', Hp, Hle, Hpw. reflexivity.
Qed.

(** After a registration, the account route answers the new user's id
    with the user the registration answered with. *)
Theorem register_then_me storage clk uuid hp tok body r storage1 :
  register toLowerCase storage clk uuid hp tok body = (Sent 201 r, storage1) ->
  me storage1 (pu_id (fst r)) = Sent 200 (fst r).
Proof.
  intros H. apply register_created in H.
  destruct H as (name & e & pw & ro & eid & dept & user & _ & _ & _ & _ & Hc & ->).
  apply createUser_getUser in Hc. unfold me. cbn [fst sanitizeUser pu_id].
  rewrite Hc. reflexivity.
Qed.

End Accounts.

(** ** Check-in and check-out, one after the other *)

Lemma truthy_append a c b : JS.truthy (a ++ String c b) = true.
Proof. destruct a; reflexivity. Qed.

Lemma getStartOfDay_truthy t : JS.truthy (getStartOfDay t) = true.
Proof. unfold getStartOfDay, JS.isoDate. apply truthy_append. Qed.

Lemma truthy_neq s : s <> "" -> JS.truthy s = true.
Proof.
  intros H. unfold JS.truthy. apply negb_true_iff. apply String.eqb_neq. exact H.
Qed.

Lemma Map_set_fresh {V} (m : list (string * V)) k v :
  existsb (String.eqb k) (map fst m) = false ->
  MemStorage.Map_set k v m = (m ++ [(k, v)])%list.
Proof.
  induction m as [|[k' v'] m IH]; simpl; [reflexivity|].
  intros H. apply orb_false_iff in H. destruct H as [H1 H2].
  rewrite String.eqb_sym, H1, IH by exact H2. reflexivity.
Qed.

Lemma Mem_keys_ids (m : list (string * Attendance)) :
  forallb (fun e => String.eqb (id (snd e)) (fst e)) m = true ->
  map id (MemStorage.Map_values m) = map fst m.
Proof.
  unfold MemStorage.Map_values. induction m as [|[k v] m IH]; simpl; [reflexivity|].
  intros H. apply andb_true_iff in H. destruct H as [H1 H2].
  apply String.eqb_eq in H1. rewrite H1, IH by exact H2. reflexivity.
Qed.

Lemma wellFormed_distinct_ids storage :
  wellFormed storage = true -> distinctb (map id (records storage)) = true.
Proof.
  destruct storage as [st|st]; simpl; intros H; apply andb_true_iff in H;
    destruct H as [Hd Hf].
  - rewrite Mem_keys_ids by exact Hf. exact Hd.
  - exact Hd.
Qed.

Lemma no_conflict docs a :
  existsb (String.eqb (id a)) (map id docs) = false ->
  find (hasKey (userId a) (date a)) docs = None ->
  MongoStorage.attendanceConflict docs a = false.
Proof.
  unfold MongoStorage.attendanceConflict.
  induction docs as [|x xs IH]; simpl; [reflexivity|].
  intros Hi Hk. apply orb_false_iff in Hi. destruct Hi as [Hi1 Hi2].
  destruct (hasKey (userId a) (date a) x) eqn:E; [discriminate|].
  rewrite IH by assumption.
  change (MongoStorage.sameUserAndDate x a) with (hasKey (userId a) (date a) x).
  unfold MongoStorage.sameId. rewrite String.eqb_sym, Hi1, E. reflexivity.
Qed.

Lemma In_Map_set {V} (m : list (string * V)) k v x :
  In x (MemStorage.Map_values (MemStorage.Map_set k v m)) ->
  x = v \/ In x (MemStorage.Map_values m).
Proof.
  unfold MemStorage.Map_values.
  induction m as [|[k' v'] m IH]; simpl.
  - intros [<-|[]]. auto.
  - destruct (String.eqb k' k); simpl.
    + intros [<-|H]; auto.
    + intros [<-|H]; auto. destruct (IH H); auto.
Qed.

Lemma createAttendance_records storage uuid now ins a storage' x :
  createAttendance storage uuid now ins = inr (a, storage') ->
  In x (records storage') -> x = a \/ In x (records storage).
Proof.
  destruct storage as [st|st]; simpl.
  - intros H. injection H as <- <-. simpl. apply In_Map_set.
  - unfold MongoStorage.createAttendance.
    destruct (negb _); [discriminate|].
    destruct (MongoStorage.attendanceConflict _ _); [discriminate|].
    intros H. injection H as <- <-. simpl. intros Hin.
    apply in_app_or in Hin. destruct Hin as [Hin|[<-|[]]]; auto.
Qed.

Lemma updateAttendance_records storage k updates u storage' x :
  updateAttendance storage k updates = inr (u, storage') ->
  In x (records storage') ->
  In x (records storage) \/ exists e, In e (records storage) /\ x = merge e updates.
Proof.
  destruct storage as [st|st]; simpl.
  - unfold MemStorage.updateAttendance.
    destruct (MemStorage.Map_get k (MemStorage.attendance st)) as [e|] eqn:Hg.
    + intros H. injection H as _ <-. simpl. intros Hin.
      apply In_Map_set in Hin. destruct Hin as [->|Hin]; [|auto].
      right. exists e. split; [|reflexivity].
      clear -Hg. unfold MemStorage.Map_values.
      induction (MemStorage.attendance st) as [|[k' v'] m IH]; simpl in *; [discriminate|].
      destruct (String.eqb k' k); [injection Hg as ->; auto|auto].
    + intros H. injection H as _ <-. auto.
  - destruct (MongoStorage.updateAttendance st k updates) as [err|[u' st'']] eqn:Hu;
      [discriminate|].
    intros H. injection H as _ <-. simpl.
    unfold MongoStorage.updateAttendance in Hu.
    destruct (find _ _) as [e|] eqn:Hg.
    + destruct (MongoStorage.attendanceConflict _ _); [discriminate|].
      injection Hu as _ <-. simpl. intros Hin.
      apply replaceFirst_In in Hin. destruct Hin as [->|Hin]; [|auto].
      right. exists e. split; [|reflexivity]. apply find_some in Hg. apply Hg.
    + injection Hu as _ <-. auto.
Qed.

Lemma find_replaceFirst_key (l : list Attendance) u d a v :
  distinctb (map id l) = true ->
  find (hasKey u d) l = Some a -> hasKey u d v = true ->
  find (hasKey u d) (MongoStorage.replaceFirst (fun x => String.eqb (id x) (id a)) v l)
  = Some v.
Proof.
  induction l as [|x xs IH]; simpl; [discriminate|].
  intros Hd Hf Hv. apply andb_true_iff in Hd. destruct Hd as [Hx Hd].
  destruct (hasKey u d x) eqn:E.
  - injection Hf as ->. rewrite String.eqb_refl. simpl. rewrite Hv. reflexivity.
  - destruct (String.eqb (id x) (id a)) eqn:Ei.
    + exfalso. apply String.eqb_eq in Ei. apply negb_true_iff in Hx.
      apply find_some in Hf. destruct Hf as [Hin _].
      assert (Hex : existsb (String.eqb (id x)) (map id xs) = true).
      { apply existsb_eqb_In. rewrite Ei. apply in_map. exact Hin. }
      congruence.
    + simpl. rewrite E. apply IH; assumption.
Qed.

Lemma recordOk_spec a :
  recordOk a = true <->
  status a <> absent /\ checkInTime a <> None
  /\ (checkOutTime a = None <-> totalHours a = None).
Proof.
  unfold recordOk, isSome.
  destruct (status a), (checkInTime a), (checkOutTime a), (totalHours a); simpl;
    split; try discriminate; try (intros _; repeat split; congruence);
    intros (H1 & H2 & H3); try congruence;
    try (destruct H3 as [H3 H4]; first [specialize (H3 eq_refl) | specialize (H4 eq_refl)];
         discriminate).
Qed.

Section Requests.
Variable LocalTZA : Z -> bool -> Z.
Variable toLowerCase : string -> string.

(** A check-in of a user without a record for the day, under a fresh id,
    adds exactly the new record at the end of the store. *)
Theorem checkin_appends storage clk uuid userId' :
  wellFormed storage = true ->
  getAttendanceByUserAndDate storage userId' (getStartOfDay (clk 0%nat)) = None ->
  existsb (String.eqb uuid) (map id (records storage)) = false ->
  uuid <> "" -> userId' <> "" ->
  let r := mkAttendance uuid userId' (getStartOfDay (clk 0%nat)) (Some (clk 1%nat)) None
             (checkinStatus LocalTZA (clk 1%nat)) None (clk 2%nat) in
  exists storage',
    checkin LocalTZA storage clk uuid userId' = (Sent 201 r, storage')
    /\ records storage' = (records storage ++ [r])%list.
Proof.
  intros Hwf Hn Hfresh Hu Hi r. unfold checkin. rewrite Hn.
  destruct storage as [st|st]; cbn [createAttendance].
  - unfold MemStorage.createAttendance. cbn -[getStartOfDay]. fold r.
    eexists. split; [reflexivity|]. cbn [records MemStorage.attendance].
    simpl in Hwf. apply andb_true_iff in Hwf. destruct Hwf as [_ Hf].
    simpl in Hfresh. rewrite Mem_keys_ids in Hfresh by exact Hf.
    rewrite Map_set_fresh by exact Hfresh.
    unfold MemStorage.Map_values. rewrite map_app. reflexivity.
  - unfold MongoStorage.createAttendance.
    cbn [id userId date i_userId i_date i_checkInTime i_checkOutTime i_status i_totalHours].
    fold r. unfold MongoStorage.required.
    rewrite (truthy_neq uuid Hu), (truthy_neq userId' Hi), getStartOfDay_truthy.
    cbn [andb negb].
    rewrite no_conflict; [eexists; split; reflexivity | exact Hfresh | exact Hn].
Qed.

(** After a check-in, the record of today is the one the check-in
    answered with. *)
Theorem checkin_then_today storage clk uuid userId' r storage' clk' :
  checkin LocalTZA storage clk uuid userId' = (Sent 201 r, storage') ->
  getStartOfDay (clk' 0%nat) = getStartOfDay (clk 0%nat) ->
  attendanceToday storage' clk' userId' = Sent 200 (Some r).
Proof.
  unfold checkin, attendanceToday. intros H E. rewrite E. clear E.
  destruct (getAttendanceByUserAndDate storage userId' _) eqn:Hn; [discriminate|].
  destruct (createAttendance _ _ _ _) as [e|[a st']] eqn:Hc; [discriminate|].
  injection H as <- <-. f_equal.
  destruct storage as [st|st]; simpl in Hc, Hn |- *.
  - injection Hc as <- <-. unfold MemStorage.getAttendanceByUserAndDate in *.
    cbn [MemStorage.attendance].
    apply (find_Map_set_new (hasKey userId' (getStartOfDay (clk 0%nat)))); [exact Hn|].
    unfold hasKey. cbn [userId date]. rewrite !String.eqb_refl. reflexivity.
  - unfold MongoStorage.createAttendance in Hc.
    destruct (negb _); [discriminate|].
    destruct (MongoStorage.attendanceConflict _ _); [discriminate|].
    injection Hc as <- <-. unfold MongoStorage.getAttendanceByUserAndDate in *.
    cbn [MongoStorage.attendance].
    apply find_snoc_new; [exact Hn|]. cbn [userId date].
    rewrite !String.eqb_refl. reflexivity.
Qed.

(** After a check-out, a second check-out of the same user on the same
    day answers [AlreadyCheckedOut] and writes nothing. *)
Theorem checkout_twice storage clk userId' updated storage1 clk' :
  wellFormed storage = true ->
  checkout storage clk userId' = (Sent 200 updated, storage1) ->
  getStartOfDay (clk' 0%nat) = getStartOfDay (clk 0%nat) ->
  checkout storage1 clk' userId' = (AlreadyCheckedOut, storage1).
Proof.
  intros Hwf H E.
  destruct (getAttendanceByUserAndDate storage userId' (getStartOfDay (clk 0%nat)))
    as [a|] eqn:Hg.
  2:{ unfold checkout in H. rewrite Hg in H. discriminate. }
  destruct (checkOutTime a) eqn:Hout.
  { unfold checkout in H. rewrite Hg, Hout in H. discriminate. }
  destruct (checkout_success storage clk userId' a Hwf Hg Hout) as (st' & Hc & Hr).
  rewrite Hc in H. injection H as _ <-.
  unfold checkout. rewrite E, getByUserAndDate_records, Hr.
  rewrite getByUserAndDate_records in Hg.
  rewrite (find_replaceFirst_key _ _ _ a _ (wellFormed_distinct_ids _ Hwf) Hg).
  - reflexivity.
  - apply find_some in Hg. destruct Hg as [_ Hk]. exact Hk.
Qed.

Lemma step_recordOk storage storage' :
  step LocalTZA toLowerCase storage storage' ->
  forallb recordOk (records storage) = true -> forallb recordOk (records storage') = true.
Proof.
  intros Hs Hok. destruct Hs.
  - rewrite register_records. exact Hok.
  - unfold checkin.
    destruct (getAttendanceByUserAndDate _ _ _); [exact Hok|].
    destruct (createAttendance _ _ _ _) as [e|[a st']] eqn:Hc; [exact Hok|].
    cbn [snd]. rewrite forallb_forall in *. intros x Hx.
    destruct (createAttendance_records _ _ _ _ _ _ _ Hc Hx) as [->|Hin]; [|auto].
    rewrite (createAttendance_inr _ _ _ _ _ _ Hc).
    unfold recordOk, checkinStatus. cbn.
    destruct (_ || _); reflexivity.
  - unfold checkout.
    destruct (getAttendanceByUserAndDate _ _ _) as [a|] eqn:Hg; [|exact Hok].
    destruct (checkOutTime a); [exact Hok|].
    destruct (updateAttendance _ _ _) as [e|[up st']] eqn:Hu; [exact Hok|].
    cbn [snd]. rewrite forallb_forall in *. intros x Hx.
    destruct (updateAttendance_records _ _ _ _ _ _ Hu Hx) as [Hin|(e & Hin & ->)]; [auto|].
    rewrite getByUserAndDate_records in Hg. apply find_hasKey_some in Hg.
    destruct Hg as (Ha & _).
    pose proof (Hok _ Ha) as Hoa. pose proof (Hok _ Hin) as Hoe.
    apply recordOk_spec in Hoa, Hoe. apply recordOk_spec.
    destruct Hoa as (Hsa & _). destruct Hoe as (_ & Hce & _).
    unfold merge, checkoutUpdates. cbn. repeat split; try discriminate; try assumption.
    destruct (PrimFloat.ltb _ _); [discriminate|exact Hsa].
Qed.

(** No request writes a record with the status [absent] or without a
    check-in time, and a record has a check-out time exactly when it has its
    hours. *)
Theorem reachable_recordOk init storage :
  forallb recordOk (records init) = true -> reachable LocalTZA toLowerCase init storage ->
  forall a, In a (records storage) ->
    status a <> absent /\ checkInTime a <> None
    /\ (checkOutTime a = None <-> totalHours a = None).
Proof.
  intros Hi Hr.
  assert (H : forallb recordOk (records storage) = true).
  { induction Hr as [|s s' _ IH Hs]; [exact Hi|]. eapply step_recordOk; eassumption. }
  intros a Ha. apply recordOk_spec. rewrite forallb_forall in H. auto.
Qed.

End Requests.

(** ** The manager's views *)

Lemma filter_length_le {A} (p : A -> bool) l :
  (List.length (filter p l) <= List.length l)%nat.
Proof. induction l as [|x xs IH]; simpl; [lia|]. destruct (p x); simpl; lia. Qed.

Lemma filter_length_implies {A} (p q : A -> bool) l :
  (forall x, p x = true -> q x = true) ->
  (List.length (filter p l) <= List.length (filter q l))%nat.
Proof.
  intros H. induction l as [|x xs IH]; simpl; [lia|].
  destruct (p x) eqn:E.
  - rewrite (H x E). simpl. lia.
  - destruct (q x); simpl; lia.
Qed.

Lemma filter_length_negb {A} (p : A -> bool) l :
  (List.length (filter (fun x => negb (p x)) l) + List.length (filter p l)
   = List.length l)%nat.
Proof. induction l as [|x xs IH]; simpl; [lia|]. destruct (p x); simpl; lia. Qed.

Lemma flat_map_length_le {A B} (f : A -> list B) l :
  (forall x, List.length (f x) <= 1)%nat ->
  (List.length (flat_map f l) <= List.length l)%nat.
Proof.
  intros H. induction l as [|x xs IH]; simpl; [lia|].
  rewrite length_app. specialize (H x). lia.
Qed.

Lemma Map_of_get {V} (entries acc : list (string * V)) k :
  (forall v,
     MemStorage.Map_get k
       (fold_left (fun m e => MemStorage.Map_set (fst e) (snd e) m) entries acc) = Some v ->
     In (k, v) entries \/ MemStorage.Map_get k acc = Some v)
  /\ (MemStorage.Map_get k
        (fold_left (fun m e => MemStorage.Map_set (fst e) (snd e) m) entries acc) = None
      <-> MemStorage.Map_get k acc = None /\ ~ In k (map fst entries)).
Proof.
  revert acc. induction entries as [|[k0 v0] es IH]; intro acc; simpl.
  - split; [auto|]. tauto.
  - destruct (IH (MemStorage.Map_set k0 v0 acc)) as [IH1 IH2]. split.
    + intros v Hv. apply IH1 in Hv. destruct Hv as [Hv|Hv]; [auto|].
      destruct (String.eqb_spec k k0) as [->|Hne].
      * rewrite Map_get_set_same in Hv. injection Hv as ->. auto.
      * rewrite Map_get_set_other in Hv by exact Hne. auto.
    + rewrite IH2. destruct (String.eqb_spec k k0) as [->|Hne].
      * rewrite Map_get_set_same. split; [intros [H _]; discriminate|].
        intros [_ H]. exfalso. apply H. auto.
      * rewrite Map_get_set_other by exact Hne. split.
        -- intros [H1 H2]. split; [exact H1|]. intros [H|H]; [congruence|auto].
        -- intros [H1 H2]. split; [exact H1|]. intros H. apply H2. auto.
Qed.

Lemma getAttendanceByDate_records regexTest storage d :
  getAttendanceByDate regexTest storage d
  = filter (fun a => String.eqb (date a) d) (records storage).
Proof.
  destruct storage as [st|st]; [reflexivity|].
  cbn [getAttendanceByDate records].
  unfold MongoStorage.getAttendanceByDate, MongoStorage.find_.
  apply filter_ext. intros a. unfold MongoStorage.matches. cbn.
  rewrite andb_true_r. reflexivity.
Qed.

Lemma count_occ_userId u d (l : list Attendance) :
  count_occ string_dec (map userId (filter (fun a => String.eqb (date a) d) l)) u
  = keyCount u d l.
Proof.
  induction l as [|x xs IH]; [reflexivity|].
  rewrite keyCount_cons. unfold hasKey. cbn [filter].
  destruct (String.eqb_spec (date x) d) as [Hd|Hd].
  - cbn [map count_occ]. rewrite IH.
    destruct (string_dec (userId x) u) as [->|Hn].
    + rewrite String.eqb_refl. reflexivity.
    + destruct (String.eqb_spec (userId x) u); [congruence|reflexivity].
  - rewrite IH, andb_false_r. reflexivity.
Qed.

Lemma NoDup_map_filter {A B} (f : A -> B) (p : A -> bool) l :
  NoDup (map f l) -> NoDup (map f (filter p l)).
Proof.
  induction l as [|x xs IH]; simpl; [auto|].
  intros H. inversion H as [|? ? Hx Hxs]; subst.
  destruct (p x); simpl; [|auto]. constructor; [|auto].
  intros Hin. apply Hx. apply in_map_iff in Hin. destruct Hin as (y & Hy & Hf).
  apply filter_In in Hf. apply in_map_iff. exists y. tauto.
Qed.

Section Manager.
Variable regexTest : string -> string -> bool.

(** The figures of today on the manager's dashboard: the absent are the
    employees without a record, the late are among the present, and the
    late list names at most the late records. *)
Theorem managerToday_counts storage clk :
  let m := managerToday regexTest storage clk in
  0 <= mt_absent m <= mt_totalEmployees m
  /\ 0 <= mt_late m <= mt_present m
  /\ mt_present m
     <= length_ (getAttendanceByDate regexTest storage (getStartOfDay (clk 0%nat)))
  /\ length_ (mt_lateToday m) <= mt_late m
  /\ length_ (mt_absentToday m) = mt_absent m.
Proof.
  unfold managerToday, length_. cbn [mt_absent mt_totalEmployees mt_late mt_present
    mt_lateToday mt_absentToday].
  set (today := getAttendanceByDate regexTest storage (getStartOfDay (clk 0%nat))).
  set (employees := getAllEmployees storage).
  pose proof (filter_length_le (fun e => negb (hasRecord today e)) employees).
  pose proof (filter_length_implies (fun r => Status_eqb (status r) late)
    (fun r => Status_eqb (status r) present || Status_eqb (status r) late
              || Status_eqb (status r) half_day) today) as Hl.
  pose proof (filter_length_le
    (fun r => Status_eqb (status r) present || Status_eqb (status r) late
              || Status_eqb (status r) half_day) today).
  match goal with |- context [flat_map ?f ?l] =>
    pose proof (flat_map_length_le f l) as Hf end.
  rewrite length_map.
  repeat split; try lia.
  - apply Nat2Z.inj_le. apply Hl. intros x ->. rewrite orb_true_r. reflexivity.
  - apply Nat2Z.inj_le. apply Hf. intros x.
    destruct (find _ _); simpl; lia.
Qed.

(** When only employees have records today, one record each, every
    employee is either present or absent on the dashboard. *)
Theorem managerToday_partition storage clk :
  atMostOnePerDay storage ->
  forallb recordOk (records storage) = true ->
  NoDup (map u_id (getAllEmployees storage)) ->
  (forall a, In a (records storage) -> date a = getStartOfDay (clk 0%nat) ->
             exists e, In e (getAllEmployees storage) /\ u_id e = userId a) ->
  let m := managerToday regexTest storage clk in
  mt_present m + mt_absent m = mt_totalEmployees m.
Proof.
  intros Hone Hok Hnd Hemp.
  unfold managerToday, length_. cbn [mt_absent mt_totalEmployees mt_present].
  rewrite getAttendanceByDate_records.
  set (d := getStartOfDay (clk 0%nat)) in *.
  set (today := filter (fun a => String.eqb (date a) d) (records storage)).
  set (employees := getAllEmployees storage) in *.
  assert (Hall : filter (fun r => Status_eqb (status r) present || Status_eqb (status r) late
                                  || Status_eqb (status r) half_day) today = today).
  { rewrite <- (filter_true today) at 2. apply filter_ext_in. intros a Ha.
    apply filter_In in Ha. destruct Ha as [Ha _].
    rewrite forallb_forall in Hok. specialize (Hok a Ha).
    unfold recordOk in Hok. destruct (status a); try reflexivity. discriminate. }
  rewrite Hall.
  pose proof (filter_length_negb (hasRecord today) employees) as Hsplit.
  assert (Hsame : List.length (filter (hasRecord today) employees) = List.length today).
  { rewrite <- (length_map u_id), <- (length_map userId today).
    apply Permutation_length. apply NoDup_Permutation.
    - apply NoDup_map_filter. exact Hnd.
    - apply (NoDup_count_occ string_dec). intros u. unfold today.
      rewrite count_occ_userId. apply Hone.
    - intros u. rewrite !in_map_iff. split.
      + intros (e & <- & He). apply filter_In in He. destruct He as [_ He].
        unfold hasRecord in He. apply existsb_exists in He.
        destruct He as (r & Hr & E). apply String.eqb_eq in E. eauto.
      + intros (r & <- & Hr). pose proof Hr as Hr'. unfold today in Hr'.
        apply filter_In in Hr'. destruct Hr' as [Hin Hd]. apply String.eqb_eq in Hd.
        destruct (Hemp r Hin Hd) as (e & He & Hid).
        exists e. split; [exact Hid|]. apply filter_In. split; [exact He|].
        unfold hasRecord. apply existsb_exists. exists r. split; [exact Hr|].
        rewrite Hid. apply String.eqb_refl. }
  lia.
Qed.

(** The join of records with the roster keeps the records and their
    order; the user attached to a record is an employee with the record's
    user id, and a record of anyone else carries no user. *)
Theorem withUsers_spec storage records' :
  map fst (withUsers storage records') = records'
  /\ (forall r pu, In (r, Some pu) (withUsers storage records') ->
        exists e, In e (getAllEmployees storage) /\ u_id e = userId r
                  /\ pu = sanitizeUser e)
  /\ (forall r, In (r, None) (withUsers storage records') <->
        In r records'
        /\ forall e, In e (getAllEmployees storage) -> u_id e <> userId r).
Proof.
  unfold withUsers, Map_of.
  set (entries := map (fun e => (u_id e, sanitizeUser e)) (getAllEmployees storage)).
  split; [|split].
  - rewrite map_map. cbn [fst]. apply map_id.
  - intros r pu Hin. apply in_map_iff in Hin. destruct Hin as (r0 & E & _).
    injection E as -> Hg.
    apply (proj1 (Map_of_get entries [] (userId r))) in Hg.
    destruct Hg as [Hg|Hg]; [|discriminate].
    unfold entries in Hg. apply in_map_iff in Hg. destruct Hg as (e & E & He).
    injection E as Hid <-. eauto.
  - intros r. rewrite in_map_iff. split.
    + intros (r0 & E & Hr). injection E as -> Hg. split; [exact Hr|].
      apply (proj2 (Map_of_get entries [] (userId r))) in Hg. destruct Hg as [_ Hg].
      intros e He Hid. apply Hg. unfold entries. rewrite map_map. cbn [fst].
      rewrite <- Hid. apply in_map. exact He.
    + intros [Hr Hno]. exists r. split; [|exact Hr]. f_equal.
      apply (proj2 (Map_of_get entries [] (userId r))). split; [reflexivity|].
      unfold entries. rewrite map_map. cbn [fst]. intros Hin.
      apply in_map_iff in Hin. destruct Hin as (e & Hid & He). exact (Hno e He Hid).
Qed.

End Manager.

(** ** Departments of the dashboard *)

Lemma distinct_In x l : In x (distinct l) <-> In x l.
Proof.
  induction l as [|y ys IH]; simpl; [tauto|].
  rewrite filter_In, IH. split.
  - intros [H|[H _]]; auto.
  - intros [H|H]; [auto|].
    destruct (String.eqb_spec x y) as [->|Hn]; [auto|].
    right. split; [exact H|reflexivity].
Qed.

Lemma distinct_NoDup l : NoDup (distinct l).
Proof.
  induction l as [|y ys IH]; simpl; constructor.
  - rewrite filter_In. intros [_ H]. rewrite String.eqb_refl in H. discriminate.
  - apply NoDup_filter. exact IH.
Qed.

Lemma mapFrom_map {A B C} (f : nat -> A -> B) (g : B -> C) (h : A -> C) k l :
  (forall n x, g (f n x) = h x) -> map g (mapFrom f k l) = map h l.
Proof.
  intros H. revert k. induction l as [|x xs IH]; intro k; simpl; [reflexivity|].
  rewrite H, IH. reflexivity.
Qed.

Lemma mapFrom_In {A B} (f : nat -> A -> B) k l y :
  In y (mapFrom f k l) -> exists n x, In x l /\ y = f n x.
Proof.
  revert k. induction l as [|x xs IH]; intro k; simpl; [contradiction|].
  intros [<-|H]; [eauto|]. destruct (IH _ H) as (n & x' & Hx & ->). eauto.
Qed.

Section Departments.
Variable LocalTZA : Z -> bool -> Z.
Variable regexTest : string -> string -> bool.

(** The dashboard lists each department of the roster once, in the order
    of first appearance, and each with at least one employee. *)
Theorem departmentWise_departments storage clk :
  let stats := departmentWise LocalTZA regexTest storage clk in
  map ds_department stats = distinct (map u_department (getAllEmployees storage))
  /\ NoDup (map ds_department stats)
  /\ (forall dept, In dept (map ds_department stats)
                   <-> exists e, In e (getAllEmployees storage) /\ u_department e = dept)
  /\ (forall s, In s stats ->
        1 <= ds_total s
        /\ ds_total s
           = length_ (filter (fun e => String.eqb (u_department e) (ds_department s))
                        (getAllEmployees storage))).
Proof.
  cbv zeta. unfold departmentWise.
  set (employees := getAllEmployees storage).
  assert (E : forall k l,
            map ds_department
              (mapFrom (fun k dept =>
                          departmentStat LocalTZA regexTest storage employees
                            (getStartOfDay (clk 0%nat))
                            (substring 0 7 (getStartOfDay (clk 0%nat))) (clk k) dept) k l)
            = l).
  { intros k l. rewrite (mapFrom_map _ _ (fun x => x)); [apply map_id|reflexivity]. }
  rewrite E. repeat split.
  - apply distinct_NoDup.
  - rewrite distinct_In, in_map_iff. intros (e & He & Hin). eauto.
  - rewrite distinct_In, in_map_iff. intros (e & Hin & He). eauto.
  - apply mapFrom_In in H. destruct H as (n & dept & Hd & ->).
    unfold departmentStat. cbn [ds_total]. unfold length_.
    apply (proj1 (distinct_In _ _)) in Hd. apply in_map_iff in Hd. destruct Hd as (e & He & Hin).
    assert (Hf : In e (filter (fun e0 => String.eqb (u_department e0) dept) employees)).
    { apply filter_In. split; [exact Hin|]. rewrite He. apply String.eqb_refl. }
    destruct (filter _ employees); [contradiction|]. cbn [List.length]. lia.
  - apply mapFrom_In in H. destruct H as (n & dept & Hd & ->). reflexivity.
Qed.

End Departments.

(** ** The employee's dashboard *)

Section EmployeeDashboardFacts.
Variable LocalTZA : Z -> bool -> Z.
Variable regexTest : string -> string -> bool.
Variable toLowerCase : string -> string.

(** Within one month, the dashboard of an employee shows the figures of
    the monthly summary asked without a month. *)
Theorem employeeDashboard_mySummary storage clk userId' :
  substring 0 7 (getStartOfDay (clk 2%nat)) = substring 0 7 (getStartOfDay (clk 0%nat)) ->
  let d := employeeDashboard LocalTZA regexTest storage clk userId' in
  exists s,
    mySummary LocalTZA regexTest storage clk userId' None = Sent 200 s
    /\ ms_present s = ed_present d /\ ms_absent s = ed_absent d
    /\ ms_late s = ed_late d /\ ms_halfDay s = ed_halfDay d
    /\ ms_totalHours s = ed_totalHoursThisMonth d.
Proof.
  intros E. unfold mySummary, employeeDashboard. cbn [JS.supplied].
  rewrite E, String.eqb_refl.
  destruct (tally _) as [[[p l] h] th].
  eexists. split; [reflexivity|]. cbn. repeat split.
Qed.

(** On the dashboard an employee is checked in exactly when a record of
    today exists, and is never checked out without being checked in. *)
Theorem employeeDashboard_todayStatus init storage clk userId' :
  forallb recordOk (records init) = true -> reachable LocalTZA toLowerCase init storage ->
  let ts := ed_todayStatus (employeeDashboard LocalTZA regexTest storage clk userId') in
  (ts_checkedIn ts = true <->
   exists a, getAttendanceByUserAndDate storage userId' (getStartOfDay (clk 0%nat)) = Some a)
  /\ (ts_checkedOut ts = true -> ts_checkedIn ts = true)
  /\ (ts_checkedIn ts = false -> ts_status ts = None).
Proof.
  intros Hi Hr.
  assert (Hok : forallb recordOk (records storage) = true).
  { induction Hr as [|s s' _ IH Hs]; [exact Hi|]. eapply step_recordOk; eassumption. }
  unfold employeeDashboard. destruct (tally _) as [[[p l] h] th]. cbn [ed_todayStatus].
  destruct (getAttendanceByUserAndDate storage userId' (getStartOfDay (clk 0%nat)))
    as [a|] eqn:Hg; cbn.
  - rewrite getByUserAndDate_records in Hg. apply find_hasKey_some in Hg.
    destruct Hg as (Hin & _). rewrite forallb_forall in Hok. specialize (Hok a Hin).
    apply recordOk_spec in Hok. destruct Hok as (_ & Hc & _).
    destruct (checkInTime a); [|congruence]. cbn.
    repeat split; eauto. discriminate.
  - repeat split; try discriminate. intros [a Ha]. discriminate.
Qed.

End EmployeeDashboardFacts.

(** ** The scenario, step by step *)

Lemma afterMonday_reachable init : reachable utc JS.asciiLowerCase init (afterMonday init).
Proof.
  unfold afterMonday, afterSunday, registered.
  eapply reachable_step; [eapply reachable_step; [eapply reachable_step;
    [apply reachable_init | apply step_register] | apply step_checkin] | apply step_checkin].
Qed.

Lemma afterCheckout_reachable init : reachable utc JS.asciiLowerCase init (afterCheckout init).
Proof.
  unfold afterCheckout.
  eapply reachable_step; [apply afterMonday_reachable | apply step_checkout].
Qed.

Lemma afterMonday_atMostOnePerDay : atMostOnePerDay (afterMonday (Mem MemStorage.empty)).
Proof.
  assert (H : forall storage, reachable utc JS.asciiLowerCase (Mem MemStorage.empty) storage ->
                              atMostOnePerDay storage).
  { intros storage Hr. induction Hr as [|s s' _ IH Hs].
    - intros u d. unfold keyCount. simpl. lia.
    - eapply step_atMostOnePerDay; eassumption. }
  apply H. apply afterMonday_reachable.
Qed.

Lemma parseDate_getStartOfDay_witness :
  JS.parseDate (getStartOfDay monday091501) = Some (JS.Day monday091501 * JS.msPerDay).
Proof. apply parseDate_getStartOfDay. vm_compute. split; discriminate. Defined.

Lemma yearAndMonth_currentMonth_witness :
  yearAndMonth (substring 0 7 (getStartOfDay monday0800))
  = (JS.float_of_Z (JS.YearFromTime monday0800),
     JS.float_of_Z (JS.MonthFromTime monday0800 + 1)).
Proof. apply yearAndMonth_currentMonth. vm_compute. split; discriminate. Defined.

Lemma june2024_midnightsInOrder :
  midnightsInOrder utc (firstOfMonth 2024 6) (daysInMonth 2024 6).
Proof.
  apply (midnightsInOrder_fixed utc _ _ 0); [reflexivity | vm_compute; discriminate ..].
Qed.

Lemma countWorkingDays_weeks_witness :
  countWorkingDays utc 8 (Some (UTC utc (midnight 19875))) (UTC utc (midnight 19881)) 0 = 5.
Proof.
  apply (countWorkingDays_weeks utc 1 19875 8 0); [|lia|lia].
  apply (midnightsInOrder_fixed utc _ _ 0); [reflexivity | vm_compute; discriminate ..].
Defined.

Lemma getWorkingDaysInMonth_range_witness :
  20 <= getWorkingDaysInMonth utc "2024-06" <= 23.
Proof.
  apply (getWorkingDaysInMonth_range utc "2024-06" 2024 6);
    [vm_compute; reflexivity | lia | lia | exact june2024_midnightsInOrder].
Defined.

Lemma workingDaysToDate_le_month_witness :
  workingDaysToDate utc "2024-06" monday0800 <= getWorkingDaysInMonth utc "2024-06".
Proof.
  apply (workingDaysToDate_le_month utc "2024-06" monday0800 2024 6);
    [vm_compute; reflexivity | vm_compute; reflexivity | vm_compute; reflexivity | lia
    | exact june2024_midnightsInOrder].
Defined.

Lemma createAttendance_then_get_witness :
  getAttendance (afterSunday (Mongo MongoStorage.empty)) "a1" = Some sundayRecord.
Proof.
  refine (proj1 (createAttendance_then_get (registered (Mongo MongoStorage.empty)) "a1"
                   sunday0800
                   (mkInsertAttendance "u1" "2024-06-02" (Some sunday0800) None present None)
                   sundayRecord (afterSunday (Mongo MongoStorage.empty)) _)).
  vm_compute. reflexivity.
Defined.

Lemma updateAttendance_then_get_witness :
  exists storage',
    updateAttendance (afterMonday (Mongo MongoStorage.empty)) "a2"
      (checkoutUpdates monday1300 mondayRecord)
    = inr (Some (merge mondayRecord (checkoutUpdates monday1300 mondayRecord)), storage')
    /\ getAttendance storage' "a2"
       = Some (merge mondayRecord (checkoutUpdates monday1300 mondayRecord)).
Proof.
  destruct (proj2 (updateAttendance_then_get (afterMonday (Mongo MongoStorage.empty)) "a2"
                     (checkoutUpdates monday1300 mondayRecord)) mondayRecord)
    as (s & H1 & H2 & _); [vm_compute; reflexivity .. |].
  exists s. split; assumption.
Defined.

Lemma getAllAttendance_Permutation_witness :
  Permutation
    (MongoStorage.getAllAttendance anchoredPrefix
       (MongoStorage.mk [] [sundayRecord; mondayRecord])
       (mkFilters None (Some "2024-06-02") None None None))
    (filter (satisfies (mkFilters None (Some "2024-06-02") None None None))
       [sundayRecord; mondayRecord]).
Proof.
  apply (proj2 (getAllAttendance_Permutation anchoredPrefix)
           (MongoStorage.mk [] [sundayRecord; mondayRecord])
           (mkFilters None (Some "2024-06-02") None None None)).
  right. split; reflexivity.
Defined.

Lemma getAttendanceByUser_spec_witness :
  Permutation
    (getAttendanceByUser anchoredPrefix (afterMonday (Mongo MongoStorage.empty)) "u1"
       (Some "2024-06"))
    [sundayRecord; mondayRecord].
Proof.
  apply (proj1 (getAttendanceByUser_spec anchoredPrefix (afterMonday (Mongo MongoStorage.empty))
                  "u1" (Some "2024-06") (fun m s _ => eq_refl))).
Defined.

Lemma register_twice_witness :
  register JS.asciiLowerCase (registered (Mem MemStorage.empty)) (at_ monday0800) "u2" "hash2" "token2"
    (mkRegisterBody (Some "Jane Smith") (Some "EMPLOYEE1@Example.com") (Some "secret")
       (Some "manager") (Some "EMP002") (Some "Sales"))
  = (Failed 400 "Email already registered", registered (Mem MemStorage.empty)).
Proof.
  destruct (proj1 (register_twice JS.asciiLowerCase (Mem MemStorage.empty) (at_ sunday0800) "u1" "hash" "token"
                     johnBody
                     (mkPublicUser "u1" "John Smith" "employee1@example.com" employee
                        "EMP001" "Engineering" sunday0800, "token")
                     (registered (Mem MemStorage.empty)) "employee1@example.com" "EMP001"
                     (at_ monday0800) "u2" "hash2" "token2"
                     (mkRegisterBody (Some "Jane Smith") (Some "EMPLOYEE1@Example.com")
                        (Some "secret") (Some "manager") (Some "EMP002") (Some "Sales"))
                     eq_refl eq_refl eq_refl)
              "EMPLOYEE1@Example.com" eq_refl eq_refl) as [H|[H|H]];
    [discriminate H | discriminate H | exact H].
Defined.

Lemma register_then_login_witness :
  login String.eqb JS.asciiLowerCase (registered (Mongo MongoStorage.empty)) "token2"
    (mkLoginBody (Some "Employee1@Example.com") (Some "hash"))
  = Sent 200 (mkPublicUser "u1" "John Smith" "employee1@example.com" employee
                "EMP001" "Engineering" sunday0800, "token2").
Proof.
  apply (register_then_login String.eqb JS.asciiLowerCase (Mongo MongoStorage.empty) (at_ sunday0800) "u1"
           "hash" "token" johnBody
           (mkPublicUser "u1" "John Smith" "employee1@example.com" employee
              "EMP001" "Engineering" sunday0800, "token")
           (registered (Mongo MongoStorage.empty)) "employee1@example.com" "token2"
           (mkLoginBody (Some "Employee1@Example.com") (Some "hash"))
           "Employee1@Example.com" "hash" eq_refl eq_refl eq_refl eq_refl eq_refl).
Defined.

Lemma register_then_me_witness :
  me (registered (Mongo MongoStorage.empty)) "u1"
  = Sent 200 (mkPublicUser "u1" "John Smith" "employee1@example.com" employee
                "EMP001" "Engineering" sunday0800).
Proof.
  apply (register_then_me JS.asciiLowerCase (Mongo MongoStorage.empty) (at_ sunday0800) "u1" "hash" "token"
           johnBody
           (mkPublicUser "u1" "John Smith" "employee1@example.com" employee
              "EMP001" "Engineering" sunday0800, "token")
           (registered (Mongo MongoStorage.empty)) eq_refl).
Defined.

Lemma checkin_appends_witness :
  exists storage',
    checkin utc (afterSunday (Mongo MongoStorage.empty)) (at_ monday0800) "a2" "u1"
    = (Sent 201 mondayRecord, storage')
    /\ records storage' = [sundayRecord; mondayRecord].
Proof.
  apply (checkin_appends utc (afterSunday (Mongo MongoStorage.empty)) (at_ monday0800)
           "a2" "u1"); [reflexivity | reflexivity | reflexivity | discriminate | discriminate].
Defined.

Lemma checkin_then_today_witness :
  attendanceToday (afterMonday (Mem MemStorage.empty)) (at_ monday1000) "u1"
  = Sent 200 (Some mondayRecord).
Proof.
  apply (checkin_then_today utc (afterSunday (Mem MemStorage.empty)) (at_ monday0800)
           "a2" "u1" mondayRecord (afterMonday (Mem MemStorage.empty)) (at_ monday1000));
    reflexivity.
Defined.

Lemma checkout_twice_witness :
  checkout (afterCheckout (Mem MemStorage.empty)) (at_ monday1300) "u1"
  = (AlreadyCheckedOut, afterCheckout (Mem MemStorage.empty)).
Proof.
  apply (checkout_twice (afterMonday (Mem MemStorage.empty)) (at_ monday1300) "u1"
           (Some (merge mondayRecord (checkoutUpdates monday1300 mondayRecord)))
           (afterCheckout (Mem MemStorage.empty)) (at_ monday1300));
    vm_compute; reflexivity.
Defined.

Lemma reachable_recordOk_witness :
  status (merge mondayRecord (checkoutUpdates monday1300 mondayRecord)) <> absent
  /\ checkInTime (merge mondayRecord (checkoutUpdates monday1300 mondayRecord)) <> None
  /\ (checkOutTime (merge mondayRecord (checkoutUpdates monday1300 mondayRecord)) = None
      <-> totalHours (merge mondayRecord (checkoutUpdates monday1300 mondayRecord)) = None).
Proof.
  apply (reachable_recordOk utc JS.asciiLowerCase (Mongo MongoStorage.empty)
           (afterCheckout (Mongo MongoStorage.empty)) eq_refl
           (afterCheckout_reachable (Mongo MongoStorage.empty))).
  vm_compute. right. left. reflexivity.
Defined.

Lemma managerToday_partition_witness :
  mt_present (managerToday anchoredPrefix (afterMonday (Mem MemStorage.empty)) (at_ monday0800))
  + mt_absent (managerToday anchoredPrefix (afterMonday (Mem MemStorage.empty)) (at_ monday0800))
  = mt_totalEmployees
      (managerToday anchoredPrefix (afterMonday (Mem MemStorage.empty)) (at_ monday0800)).
Proof.
  apply (managerToday_partition anchoredPrefix (afterMonday (Mem MemStorage.empty))
           (at_ monday0800) afterMonday_atMostOnePerDay).
  - vm_compute. reflexivity.
  - vm_compute. constructor; [intros []|constructor].
  - intros a Ha _. exists (mkUser "u1" "John Smith" "employee1@example.com" "hash" employee
                             "EMP001" "Engineering" sunday0800).
    split; [vm_compute; left; reflexivity|].
    vm_compute in Ha. destruct Ha as [<-|[<-|[]]]; reflexivity.
Defined.

Lemma employeeDashboard_mySummary_witness :
  exists s,
    mySummary utc anchoredPrefix (afterMonday (Mem MemStorage.empty)) (at_ monday0800) "u1" None
    = Sent 200 s
    /\ ms_present s
       = ed_present (employeeDashboard utc anchoredPrefix (afterMonday (Mem MemStorage.empty))
                       (at_ monday0800) "u1")
    /\ ms_absent s
       = ed_absent (employeeDashboard utc anchoredPrefix (afterMonday (Mem MemStorage.empty))
                      (at_ monday0800) "u1").
Proof.
  destruct (employeeDashboard_mySummary utc anchoredPrefix (afterMonday (Mem MemStorage.empty))
              (at_ monday0800) "u1" eq_refl) as (s & H1 & H2 & H3 & _).
  exists s. repeat split; assumption.
Defined.

Lemma employeeDashboard_todayStatus_witness :
  ts_checkedIn (ed_todayStatus (employeeDashboard utc anchoredPrefix
                                  (afterMonday (Mem MemStorage.empty)) (at_ monday1000) "u1"))
  = true.
Proof.
  apply (proj1 (employeeDashboard_todayStatus utc anchoredPrefix JS.asciiLowerCase
                  (Mem MemStorage.empty)
                  (afterMonday (Mem MemStorage.empty)) (at_ monday1000) "u1" eq_refl
                  (afterMonday_reachable (Mem MemStorage.empty)))).
  exists mondayRecord. reflexivity.
Defined.

(** ** The monthly summary *)





Section Summary.
Variable LocalTZA : Z -> bool -> Z.
Variable regexTest : string -> string -> bool.


(** With no working day counted up to today, as on a first of the month
    that is a Saturday, or with no employee in the department, the
    denominator [totalPossible] is 0 and the percentage of the department is
    0: the division is not performed. *)
Theorem departmentStat_zero_denominator storage employees today currentMonth todayDate dept :
  workingDaysToDate LocalTZA currentMonth todayDate = 0
  \/ filter (fun e => String.eqb (u_department e) dept) employees = [] ->
  ds_percentage
    (departmentStat LocalTZA regexTest storage employees today currentMonth todayDate dept)
  = 0%float.
Proof.
  intros H. unfold departmentStat. cbn [ds_percentage]. unfold percentageOf.
  match goal with |- context [0 <? ?x] => assert (E : x = 0) end.
  { destruct H as [-> | ->]; [apply Z.mul_0_r | reflexivity]. }
  rewrite E. reflexivity.
Qed.

End Summary.


Lemma departmentStat_zero_denominator_witness :
  ds_percentage
    (departmentStat utc anchoredPrefix (afterMonday (Mem MemStorage.empty))
       (getAllEmployees (afterMonday (Mem MemStorage.empty)))
       "2024-06-01" "2024-06" saturday0800 "Engineering")
  = 0%float.
Proof.
  apply (departmentStat_zero_denominator utc anchoredPrefix). left. vm_compute. reflexivity.
Defined.

Lemma Mem_getAllAttendance_spec_witness :
  MemStorage.getAllAttendance (MemStorage.mk [] [("a1", sundayRecord); ("a2", mondayRecord)])
    (mkFilters None None None None None)
  = [mondayRecord; sundayRecord]
  /\ StronglySorted notLater
       (MemStorage.getAllAttendance
          (MemStorage.mk [] [("a1", sundayRecord); ("a2", mondayRecord)])
          (mkFilters None None None None None)).
Proof.
  split; [vm_compute; reflexivity|].
  apply (Mem_getAllAttendance_spec
           (MemStorage.mk [] [("a1", sundayRecord); ("a2", mondayRecord)])
           (mkFilters None None None None None)).
  intros a [<-|[<-|[]]].
  - exists sunday0800. split; [vm_compute; split; discriminate | vm_compute; reflexivity].
  - exists monday0800. split; [vm_compute; split; discriminate | vm_compute; reflexivity].
Defined.
